(** * Verification of the ESXi upgrade precheck ([precheck.py])

    A shallow embedding of the validation and decision engine of
    [autoInstallFiles/esxi/7.0/upgrade/precheck.py]:

    - [PciInfo] and its [__eq__] / [__ne__] operators,
    - the [Result] model and the checks built on it,
    - [ImageMetadata._calcImageSize],
    - [SystemProbeESXi._getNativeDevices] (the native-driver resolver),
    - the orchestrator entry points,
    - the driver-tag and address patterns of the resolver and the
      hexadecimal identity strings they are matched against,
    - the CPU feature, staging-space, boot NIC, bootbank and acceptance
      checks, and the rendering of the failures.

    Python [int] is [Z]; Python [str] is [string], a character being a code
    point below 256; [None]-able values are [option]; a [set] of names is a
    [gset string] and a [dict] from names to names a [gmap string string];
    a [dict] whose iteration order is observable is a list of key/value
    pairs; a Python exception is the left summand of [exc]. *)

From Stdlib Require Import ZArith String Ascii List Lia HexString.
From Stdlib Require Import Floats.SpecFloat.
From Stdlib Require Import DecimalString.
From stdpp Require Import base decidable option list strings gmap.

#[local] Set Warnings "-clear-no-such-hyp".

Local Open Scope string_scope.
Local Open Scope Z_scope.

(** ** Python strings *)

Module PyStr.

(** [c.lower()] for one code point below 256: the ASCII capitals and the
    Latin-1 capitals (0xC0-0xDE without the multiplication sign 0xD7)
    move up by 32, everything else is unchanged. *)
Definition lower_ascii (c : ascii) : ascii :=
  let n := N_of_ascii c in
  if ((65 <=? n) && (n <=? 90))%N
     || ((192 <=? n) && (n <=? 222) && negb (n =? 215))%N
  then ascii_of_N (n + 32) else c.

(** [s.lower()] *)
Fixpoint lower (s : string) : string :=
  match s with
  | EmptyString => EmptyString
  | String c s' => String (lower_ascii c) (lower s')
  end.

(** [s == t] on [str] *)
Definition eqb (s t : string) : bool := bool_decide (s = t).

(** [s == t] on values that are a [str] or [None] *)
Definition opt_eqb (s t : option string) : bool := bool_decide (s = t).

(** Truth value of a [str]-or-[None] value: [None] and [''] are falsy. *)
Definition truthy (s : option string) : bool :=
  match s with
  | Some (String _ _) => true
  | _ => false
  end.

(** [x in l] for a list of strings *)
Definition In_list (x : string) (l : list string) : bool :=
  bool_decide (x ∈ l).

(** [s.startswith(p)], with the remainder of [s] *)
Fixpoint strip_prefix (p s : string) : option string :=
  match p with
  | EmptyString => Some s
  | String c p' =>
      match s with
      | String d s' => if bool_decide (c = d) then strip_prefix p' s' else None
      | EmptyString => None
      end
  end.

(** Longest prefix of [s] whose characters satisfy [f], and the rest. *)
Fixpoint span (f : ascii -> bool) (s : string) : string * string :=
  match s with
  | EmptyString => (EmptyString, EmptyString)
  | String c s' =>
      if f c then let '(a, b) := span f s' in (String c a, b)
      else (EmptyString, s)
  end.

Definition in_range (lo hi : N) (c : ascii) : bool :=
  let n := N_of_ascii c in ((lo <=? n) && (n <=? hi))%N.

(** [[0-9]] *)
Definition is_digit : ascii -> bool := in_range 48 57.
(** [[1-9]] *)
Definition is_digit19 : ascii -> bool := in_range 49 57.
(** [[a-z]] *)
Definition is_lower_az : ascii -> bool := in_range 97 122.

(** [\s] of the [re] module on [str] patterns, for code points below 256:
    TAB..CR, FS..US, SPACE, NEL and NBSP. *)
Definition is_space (c : ascii) : bool :=
  let n := N_of_ascii c in
  (((9 <=? n) && (n <=? 13)) || ((28 <=? n) && (n <=? 32))
   || (n =? 133) || (n =? 160))%N.

End PyStr.

(** ** Device identity: [class PciInfo] *)

Record PciInfo := mkPciInfo {
  vendorId : string;
  deviceId : string;
  subsystem : option string;
  description : string
}.

(** [PciInfo.__init__]: ids are lower-cased; a truthy subsystem is
    lower-cased, a falsy one ([None] or ['']) is stored as given. *)
Definition PciInfo_init (vendorId deviceId : string)
    (subsystem : option string) (description : string) : PciInfo :=
  {| vendorId := PyStr.lower vendorId;
     deviceId := PyStr.lower deviceId;
     subsystem :=
       if PyStr.truthy subsystem then PyStr.lower <$> subsystem
       else subsystem;
     description := description |}.

Definition is_None {A} (o : option A) : bool :=
  match o with None => true | Some _ => false end.

(** [PciInfo.__eq__] *)
Definition PciInfo_eq (self rhs : PciInfo) : bool :=
  if is_None (subsystem self) || is_None (subsystem rhs) then
    PyStr.eqb (vendorId self) (vendorId rhs)
    && PyStr.eqb (deviceId self) (deviceId rhs)
  else
    PyStr.eqb (vendorId self) (vendorId rhs)
    && PyStr.eqb (deviceId self) (deviceId rhs)
    && PyStr.opt_eqb (subsystem self) (subsystem rhs).

(** [PciInfo.__ne__] *)
Definition PciInfo_ne (self rhs : PciInfo) : bool :=
  negb (PyStr.eqb (vendorId self) (vendorId rhs))
  || negb (PyStr.eqb (deviceId self) (deviceId rhs))
  || negb (PyStr.opt_eqb (subsystem self) (subsystem rhs)).

(** ** Exceptions *)

(** A raised Python exception, by the name of its class. *)
Inductive PyExn :=
| IndexError
| OverflowError
| OtherError (msg : string).

(** A computation that returns a value or raises. *)
Definition exc (A : Type) : Type := (PyExn + A)%type.

Definition ret {A} (a : A) : exc A := inr a.
Definition raise {A} (e : PyExn) : exc A := inl e.
Definition bind {A B} (m : exc A) (k : A -> exc B) : exc B :=
  match m with
  | inl e => inl e
  | inr a => k a
  end.

Notation "x <- m ;; k" := (bind m (fun x => k))
  (at level 100, m at next level, right associativity).

(** [l[0]] *)
Definition first_item {A} (l : list A) : exc A :=
  match l with
  | x :: _ => ret x
  | [] => raise IndexError
  end.

(** ** The [Result] class *)

Inductive Code := ERROR | WARNING | SUCCESS.

Record Result (A : Type) := mkResult {
  name : string;
  found : list A;
  expected : list A;
  errorMsg : string;
  code : Code
}.
Arguments mkResult {A}.
Arguments name {A}.
Arguments found {A}.
Arguments expected {A}.
Arguments errorMsg {A}.
Arguments code {A}.

(** [Result.__init__]; [mismatchCode] is a code or [None], and every code
    is a non-empty string, so only [None] is falsy. *)
Definition Result_init {A} (name : string) (found expected : list A)
    (comparator : list A -> list A -> exc bool) (errorMsg : string)
    (mismatchCode : option Code) : exc (Result A) :=
  let mismatchCode :=
    match mismatchCode with
    | Some c => c
    | None => ERROR
    end in
  b <- comparator found expected ;;
  ret {| name := name; found := found; expected := expected;
         errorMsg := errorMsg;
         code := if b then SUCCESS else mismatchCode |}.

(** [Result.__bool__] *)
Definition Result_bool {A} (r : Result A) : bool :=
  match code r with SUCCESS => true | _ => false end.

(** [==] on two lists, given [==] on their items. *)
Fixpoint list_eqb {A} (eqA : A -> A -> bool) (l1 l2 : list A) : bool :=
  match l1, l2 with
  | [], [] => true
  | x :: l1', y :: l2' => eqA x y && list_eqb eqA l1' l2'
  | _, _ => false
  end.

(** [operator.eq], the default comparator *)
Definition operator_eq {A} (eqA : A -> A -> bool) (l1 l2 : list A) : exc bool :=
  ret (list_eqb eqA l1 l2).

(** ** Python floats (IEEE 754 binary64, as [spec_float]) *)

Module PyFloat.

Definition prec : Z := 53.
Definition emax : Z := 1024.

(** The float nearest to [m * 2^e] (ties to even). *)
Definition of_dyadic (m e : Z) : spec_float :=
  binary_normalize prec emax m e false.

(** [float(z)]: rounds to nearest, raises [OverflowError] when [z] is too
    large for a finite float. *)
Definition of_int (z : Z) : exc spec_float :=
  match of_dyadic z 0 with
  | S754_infinity _ => raise OverflowError
  | f => ret f
  end.

Definition mul : spec_float -> spec_float -> spec_float := SFmul prec emax.
Definition sub : spec_float -> spec_float -> spec_float := SFsub prec emax.

(** [z >= f] for an [int] and a [float]: Python compares the exact
    values. *)
Definition int_ge (z : Z) (f : spec_float) : bool :=
  match f with
  | S754_nan => false
  | S754_infinity s => s
  | S754_zero _ => 0 <=? z
  | S754_finite s m e =>
      let v := cond_Zopp s (Zpos m) in
      if 0 <=? e then v * 2 ^ e <=? z else v <=? z * 2 ^ (- e)
  end.

End PyFloat.

(** ** The host and the run-scoped state *)

(** [SystemProbeESXi.WEASEL_ENV], [VUM_ENV] and [ESXCLI_ENV] *)
Inductive Environment := WEASEL_ENV | VUM_ENV | ESXCLI_ENV.

(** One device of [vmkctl.PciInfoImpl().GetAllPciDevices()]. *)
Record RawPciDevice := mkRawPciDevice {
  GetVendorId : Z;
  GetDeviceId : Z;
  GetSubVendorId : Z;
  GetSubDeviceId : Z
}.

(** What the checks read: the environment of the global [systemProbe] and
    the facts the host reports.  [allowLegacyCPU] is the flag
    [checkCpuSupported] derives from the boot command line. *)
Record Host := mkHost {
  environment : Environment;
  GetPhysicalMemory : Z;
  GetVendorName : string;
  GetFamily : Z;
  GetModel : Z;
  allowLegacyCPU : bool;
  GetHVSupport : Z;
  GetVmfsMajorVersions : list Z;
  GetAllPciDevices : list RawPciDevice
}.

(** [SystemProbeESXi.vumEnvironment] *)
Definition vumEnvironment (host : Host) : bool :=
  match environment host with
  | VUM_ENV => true
  | _ => false
  end.

(** The same host, probed in environment [env]. *)
Definition in_environment (env : Environment) (host : Host) : Host :=
  {| environment := env;
     GetPhysicalMemory := GetPhysicalMemory host;
     GetVendorName := GetVendorName host;
     GetFamily := GetFamily host;
     GetModel := GetModel host;
     allowLegacyCPU := allowLegacyCPU host;
     GetHVSupport := GetHVSupport host;
     GetVmfsMajorVersions := GetVmfsMajorVersions host;
     GetAllPciDevices := GetAllPciDevices host |}.

(** ** Memory-size check *)

Definition SIZE_MiB : Z := 1024 * 1024.

(** [memorySizeComparator]: [found[0] >= expected[0] - 0.03125 * expected[0]];
    the product and the difference are float operations. *)
Definition memorySizeComparator (found expected : list Z) : exc bool :=
  f0 <- first_item found ;;
  e0 <- first_item expected ;;
  e1 <- first_item expected ;;
  e1f <- PyFloat.of_int e1 ;;
  let prod := PyFloat.mul (PyFloat.of_dyadic 1 (-5)) e1f in
  e0f <- PyFloat.of_int e0 ;;
  ret (PyFloat.int_ge f0 (PyFloat.sub e0f prod)).

(** [checkMemorySize]; the physical memory is in bytes. *)
Definition checkMemorySize (host : Host) : exc (Result Z) :=
  let found := GetPhysicalMemory host in
  let MEM_MIN_SIZE := (4 * 1024) * SIZE_MiB in
  Result_init "MEMORY_SIZE" [found] [MEM_MIN_SIZE] memorySizeComparator
    "The memory is less than recommended" (Some ERROR).

(** ** Upgrade-path check *)

(** [a < b] on lists of [int]: the first differing items decide, and a
    proper prefix is smaller. *)
Fixpoint list_lt (a b : list Z) : bool :=
  match a, b with
  | [], [] => false
  | [], _ :: _ => true
  | _ :: _, [] => false
  | x :: a', y :: b' => if x =? y then list_lt a' b' else x <? y
  end.

(** [upgradePathComparator] *)
Definition upgradePathComparator (newVersion installedVersion : list Z) : bool :=
  match installedVersion with
  | [] => false
  | _ :: _ =>
      if list_lt newVersion installedVersion then false
      else if list_lt installedVersion [6; 5] then false
      else true
  end.

(** The [Result] of [checkUpgradePath], given the target version
    [isoVer] and the installed version [deviceVer]. *)
Definition checkUpgradePath (isoVer deviceVer : list Z) (errorMsg : string)
    : exc (Result Z) :=
  Result_init "UPGRADE_PATH" isoVer deviceVer
    (fun n i => ret (upgradePathComparator n i)) errorMsg (Some ERROR).

(** ** Image profiles *)

Record Payload := mkPayload {
  size : Z;
  payloadtype : string
}.

(** A VIB; [swtags] is [None] when the object has no such attribute. *)
Record Vib := mkVib {
  swtags : option (list string);
  payloads : list Payload
}.

(** An image profile: [vibs] is the dict from VIB id to VIB, in insertion
    order. *)
Record ImageProfile := mkImageProfile {
  vibs : list (string * Vib)
}.

(** [d.values()] *)
Definition dict_values {V} (d : list (string * V)) : list V := map snd d.

(** [d.keys()] *)
Definition dict_keys {V} (d : list (string * V)) : list string := map fst d.

(** [d[k] = v]: replaces the value of an existing key in place, appends a
    new key at the end. *)
Fixpoint dict_set {V} (k : string) (v : V) (d : list (string * V))
    : list (string * V) :=
  match d with
  | [] => [(k, v)]
  | (k', v') :: d' =>
      if PyStr.eqb k' k then (k', v) :: d' else (k', v') :: dict_set k v d'
  end.

(** Adding the unit [vib] with id [vid] to the profile. *)
Definition AddVib (vid : string) (vib : Vib) (p : ImageProfile) : ImageProfile :=
  {| vibs := dict_set vid vib (vibs p) |}.

(** [ImageMetadata._calcImageSize]; [TYPE_BOOT] is the class constant
    [payload.TYPE_BOOT] of the payload objects. *)
Definition _calcImageSize (TYPE_BOOT : string) (imageProfile : ImageProfile) : Z :=
  let totalSize :=
    fold_left (fun totalSize vib =>
      fold_left (fun totalSize payload =>
        let totalSize := totalSize + size payload in
        if PyStr.eqb (payloadtype payload) TYPE_BOOT
        then totalSize + size payload
        else totalSize)
      (payloads vib) totalSize)
    (dict_values (vibs imageProfile)) 0 in
  totalSize + 10 * SIZE_MiB.

(** The size the payloads of a profile add up to, every payload once and
    every boot payload once more. *)
Definition all_payloads (p : ImageProfile) : list Payload :=
  flat_map payloads (dict_values (vibs p)).

Definition sum_sizes (l : list Payload) : Z :=
  fold_right Z.add 0 (map size l).

Definition boot_payloads (TYPE_BOOT : string) (l : list Payload) : list Payload :=
  filter (fun p => payloadtype p = TYPE_BOOT) l.

(** ** Formatting and the regular expressions of the resolver *)

Module PyFmt.

(** Lower-case hex digits of [|z|]. *)
Definition hex_digits (z : Z) : string :=
  match z with
  | Z0 => "0"
  | Zpos p => HexString.Raw.of_pos p ""
  | Zneg p => HexString.Raw.of_pos p ""
  end.

Fixpoint zeros (n : nat) : string :=
  match n with
  | O => ""
  | S n' => String "0" (zeros n')
  end.

(** ['%0Wx' % z] and ['{0:0Wx}'.format(z)]: the sign comes first and
    counts towards the width [W]. *)
Definition hex0 (width : nat) (z : Z) : string :=
  let sign := if z <? 0 then "-" else "" in
  let digits := hex_digits z in
  sign +:+ zeros (width - String.length sign - String.length digits)
       +:+ digits.

End PyFmt.

Module Regex.

Definition all_chars (f : ascii -> bool) (s : string) : bool :=
  forallb f (list_ascii_of_string s).

(** [deviceNames.match(name)]: [vmhba] or [vmnic], then either [0] or a
    digit [1-9] followed by any number of digits [0-9], then the end of
    the string. *)
Definition deviceNames (name : string) : bool :=
  let digits rest :=
    match rest with
    | String c r =>
        (bool_decide (c = "0"%char) && bool_decide (r = ""))
        || (PyStr.is_digit19 c && all_chars PyStr.is_digit r)
    | EmptyString => false
    end in
  match PyStr.strip_prefix "vmhba" name with
  | Some rest => digits rest
  | None =>
      match PyStr.strip_prefix "vmnic" name with
      | Some rest => digits rest
      | None => false
      end
  end.

(** [[0-9a-z.]] *)
Definition is_tag_char (c : ascii) : bool :=
  PyStr.is_digit c || PyStr.is_lower_az c || bool_decide (c = "."%char).

(** [pciTagRegex.match(tag)], giving group [id]: [PCIID], one or more
    white-space characters, the id (any number of [0-9a-z.]), any number
    of white-space characters, then the end of the string.  White space and id characters are disjoint, so the
    greedy match is the only one. *)
Definition pciTagRegex (tag : string) : option string :=
  match PyStr.strip_prefix "PCIID" tag with
  | None => None
  | Some r =>
      let '(ws, r1) := PyStr.span PyStr.is_space r in
      if bool_decide (ws = "") then None
      else
        let '(id, r2) := PyStr.span is_tag_char r1 in
        let '(_, r3) := PyStr.span PyStr.is_space r2 in
        if bool_decide (r3 = "") then Some id else None
  end.

(** One pattern character of a driver tag against one character: [.]
    matches anything but a newline, a digit or letter matches itself. *)
Definition tag_char_matches (p c : ascii) : bool :=
  if bool_decide (p = "."%char) then negb (bool_decide (c = "010"%char))
  else bool_decide (p = c).

(** [re.match(driverTag, hwId)] for a [driverTag] over [[0-9a-z.]]: the
    tag must match a prefix of [hwId]. *)
Fixpoint match_driverTag (driverTag hwId : string) : bool :=
  match driverTag with
  | EmptyString => true
  | String p tag' =>
      match hwId with
      | String c hw' => tag_char_matches p c && match_driverTag tag' hw'
      | EmptyString => false
      end
  end.

(** [[0-9A-Fa-f:.]] *)
Definition is_sbdf_char (c : ascii) : bool :=
  PyStr.is_digit c || PyStr.in_range 65 70 c || PyStr.in_range 97 102 c
  || bool_decide (c = ":"%char) || bool_decide (c = "."%char).

(** [sbdfRegex.match(description)], giving group [sbdf]: an opening
    parenthesis, one or more of [0-9A-Fa-f:.], a closing parenthesis. *)
Definition sbdfRegex (description : string) : option string :=
  match description with
  | String "("%char r =>
      let '(sbdf, r1) := PyStr.span is_sbdf_char r in
      if bool_decide (sbdf = "") then None
      else
        match r1 with
        | String ")"%char _ => Some sbdf
        | _ => None
        end
  | _ => None
  end.

(** [usbRegex.match(uid)]: [uid] starts with [usb.] *)
Definition usbRegex (uid : string) : bool :=
  match PyStr.strip_prefix "usb." uid with
  | Some _ => true
  | None => false
  end.

End Regex.

(** ** The native-driver resolver *)

(** PCI classes that have native class drivers. *)
Definition NATIVE_PCI_CLASS_DRIVER : list string :=
  [ "010601";   (* AHCI *)
    "010802" ]. (* NVMe *)

(** Software storage adapters are treated same as having native drivers. *)
Definition SOFTWARE_ADAPTER : list string :=
  [ "iscsi_vmk"; "qfle3f" ].

(** One row of [localcli hardware pci list]. *)
Record PciDevice := mkPciDevice {
  VMkernel_Name : string;
  Address : string;
  Vendor_ID : Z;
  Device_ID : Z;
  SubVendor_ID : Z;
  SubDevice_ID : Z;
  Device_Class : Z;
  Programming_Interface : Z
}.

(** One row of [localcli storage core adapter list]. *)
Record Adapter := mkAdapter {
  HBA_Name : string;
  UID : string;
  Description : string;
  Driver : string
}.

(** The PCIID tags of the VIBs of the target profile, in order. *)
Definition pciDriverTags_of (targetImageProfile : ImageProfile) : list string :=
  fold_left (fun pciDriverTags vib =>
    match swtags vib with
    | None => pciDriverTags
    | Some tags =>
        fold_left (fun pciDriverTags tag =>
          match Regex.pciTagRegex tag with
          | Some id => (pciDriverTags ++ [id])%list
          | None => pciDriverTags
          end) tags pciDriverTags
    end) (dict_values (vibs targetImageProfile)) [].

(** ['%04x%02x' % (pciClass, pgmIf)] *)
Definition classCode_of (device : PciDevice) : string :=
  PyFmt.hex0 4 (Device_Class device) +:+ PyFmt.hex0 2 (Programming_Interface device).

(** ['%04x%04x%04x%04x%s' % (vendId, devId, subVendId, subDevId, classCode)] *)
Definition hwId_of (device : PciDevice) : string :=
  PyFmt.hex0 4 (Vendor_ID device) +:+ PyFmt.hex0 4 (Device_ID device)
  +:+ PyFmt.hex0 4 (SubVendor_ID device) +:+ PyFmt.hex0 4 (SubDevice_ID device)
  +:+ classCode_of device.

(** The two variables the resolver updates. *)
Record ResolverState := mkState {
  nativeDevices : gset string;
  nativeSbdfIndex : gmap string string
}.

(** Body of [for device in pciDevList]. *)
Definition pci_step (pciDriverTags : list string) (st : ResolverState)
    (device : PciDevice) : ResolverState :=
  let name := VMkernel_Name device in
  if Regex.deviceNames name then
    let sbdfAddress := Address device in
    let classCode := classCode_of device in
    if PyStr.In_list classCode NATIVE_PCI_CLASS_DRIVER then
      {| nativeDevices := {[ name ]} ∪ nativeDevices st;
         nativeSbdfIndex := <[ sbdfAddress := name ]> (nativeSbdfIndex st) |}
    else
      let hwId := hwId_of device in
      {| nativeDevices :=
           fold_left (fun nd driverTag =>
             if Regex.match_driverTag driverTag hwId then {[ name ]} ∪ nd
             else nd) pciDriverTags (nativeDevices st);
         nativeSbdfIndex := nativeSbdfIndex st |}
  else st.

(** Body of the first [for adapter in adapterList]. *)
Definition sbdf_step (st : ResolverState) (adapter : Adapter) : ResolverState :=
  let name := HBA_Name adapter in
  match Regex.sbdfRegex (Description adapter) with
  | Some sbdfAddress =>
      if bool_decide (name ∈ nativeDevices st) then
        {| nativeDevices := nativeDevices st;
           nativeSbdfIndex := <[ sbdfAddress := name ]> (nativeSbdfIndex st) |}
      else st
  | None => st
  end.

(** Body of the second [for adapter in adapterList]. *)
Definition adapter_step (st : ResolverState) (adapter : Adapter) : ResolverState :=
  let name := HBA_Name adapter in
  let add := {| nativeDevices := {[ name ]} ∪ nativeDevices st;
                nativeSbdfIndex := nativeSbdfIndex st |} in
  if Regex.usbRegex (UID adapter) then add
  else if PyStr.In_list (Driver adapter) SOFTWARE_ADAPTER then add
  else if negb (bool_decide (name ∈ nativeDevices st)) then
    match Regex.sbdfRegex (Description adapter) with
    | Some sbdfAddress =>
        if bool_decide (sbdfAddress ∈ dom (nativeSbdfIndex st)) then add
        else st
    | None => st
    end
  else st.

(** State after the loop over the PCI inventory. *)
Definition after_pci (targetImageProfile : ImageProfile)
    (pciDevList : list PciDevice) : ResolverState :=
  fold_left (pci_step (pciDriverTags_of targetImageProfile)) pciDevList
    {| nativeDevices := ∅; nativeSbdfIndex := ∅ |}.

(** [SystemProbeESXi._getNativeDevices], with the two variables it has at
    its end.  [pciDevList] and [adapterList] are the inventories the two
    commands gave, empty when the command failed. *)
Definition _getNativeDevices_state (targetImageProfile : ImageProfile)
    (pciDevList : list PciDevice) (adapterList : list Adapter) : ResolverState :=
  let st := after_pci targetImageProfile pciDevList in
  match adapterList with
  | [] => st
  | _ :: _ =>
      let st := fold_left sbdf_step adapterList st in
      fold_left adapter_step adapterList st
  end.

Definition _getNativeDevices (targetImageProfile : ImageProfile)
    (pciDevList : list PciDevice) (adapterList : list Adapter) : gset string :=
  nativeDevices (_getNativeDevices_state targetImageProfile pciDevList adapterList).

(** [isDeviceNativePostUpgrade] *)
Definition isDeviceNativePostUpgrade (nativeDevices : gset string)
    (deviceName : string) : bool :=
  bool_decide (deviceName ∈ nativeDevices).

(** ** CPU, virtualization and VMFS checks *)

Definition CPU_ERROR : string :=
  "The CPU in this host is not supported by ESXi 7.0.0. Please refer to the VMware Compatibility Guide (VCG) for the list of supported CPUs.".

Definition CPU_WARNING : string :=
  "The CPU in this host may not be supported in future ESXi releases. Please plan accordingly.".

(** The [errorMsg] and [mismatchCode] that [checkCpuSupported] assigns from
    the vendor, family and model of the CPU. *)
Definition cpuModelCode (vendor : string) (family model : Z) : string * Code :=
  if PyStr.eqb vendor "GenuineIntel" then
    if (family =? 6) && ((model =? 42) || (model =? 45) || (model =? 58)) then
      (CPU_WARNING, WARNING)
    else if (family =? 15) || ((family =? 6) && (model <=? 54)) then
      (CPU_ERROR, ERROR)
    else ("", SUCCESS)
  else if PyStr.eqb vendor "AuthenticAMD" then
    if family <? 21 then (CPU_ERROR, ERROR)
    else if (family =? 21) && (model <=? 1) then (CPU_WARNING, WARNING)
    else ("", SUCCESS)
  else ("", SUCCESS).

Definition Code_eqb (a b : Code) : bool :=
  match a, b with
  | ERROR, ERROR | WARNING, WARNING | SUCCESS, SUCCESS => true
  | _, _ => false
  end.

(** [checkCpuSupported] *)
Definition checkCpuSupported (host : Host) : exc (Result bool) :=
  let vendor := GetVendorName host in
  let family := GetFamily host in
  let model := GetModel host in
  let found := false in
  let '(errorMsg, mismatchCode) := cpuModelCode vendor family model in
  let found :=
    if vumEnvironment host && Code_eqb mismatchCode WARNING then true
    else found in
  let mismatchCode :=
    if allowLegacyCPU host && Code_eqb mismatchCode ERROR then WARNING
    else mismatchCode in
  Result_init "CPU_SUPPORT" [found] [true] (operator_eq Bool.eqb) errorMsg
    (Some mismatchCode).

Definition HV_ENABLED : Z := 3.

(** [checkHardwareVirtualization] *)
Definition checkHardwareVirtualization (host : Host) : exc (Result Z) :=
  let found := GetHVSupport host in
  Result_init "HARDWARE_VIRTUALIZATION" [found] [HV_ENABLED]
    (operator_eq Z.eqb)
    "Hardware Virtualization is not a feature of the CPU, or is not enabled in the BIOS"
    (Some WARNING).

(** [checkVMFSVersion] *)
Definition checkVMFSVersion (host : Host) : exc (Result bool) :=
  let found := existsb (fun v => v =? 3) (GetVmfsMajorVersions host) in
  Result_init "VMFS_VERSION" [found] [false] (operator_eq Bool.eqb)
    "One or more VMFS-3 volumes have been detected. They are going to be automatically upgraded to VMFS-5."
    (Some WARNING).

(** ** Unsupported-devices check *)

(** [_parsePciInfo] *)
Definition _parsePciInfo (pciDevices : list RawPciDevice) : list PciInfo :=
  fold_left (fun retval dev =>
    let vendor := PyFmt.hex0 4 (GetVendorId dev) in
    let device := PyFmt.hex0 4 (GetDeviceId dev) in
    let subven := PyFmt.hex0 4 (GetSubVendorId dev) in
    let subdev := PyFmt.hex0 4 (GetSubDeviceId dev) in
    (retval ++ [PciInfo_init vendor device (Some (subven +:+ ":" +:+ subdev)) ""])%list)
  pciDevices [].

(** [device in l]: some item of [l] is [==] to [device]. *)
Definition PciInfo_in (device : PciInfo) (l : list PciInfo) : bool :=
  existsb (fun pci => PciInfo_eq device pci) l.

(** Body of [for device in _parsePciInfo()] in [checkUnsupportedDevices];
    the list is the module constant [UNSUPPORTED_PCI_DEVICE_LIST]. *)
Definition unsupported_step (UNSUPPORTED_PCI_DEVICE_LIST : list PciInfo)
    (found : list PciInfo) (device : PciInfo) : list PciInfo :=
  if PciInfo_in device UNSUPPORTED_PCI_DEVICE_LIST then
    if negb (PyStr.truthy (subsystem device)) then
      let unsprtMatch :=
        map subsystem
          (List.filter (fun pci => PciInfo_eq device pci)
             UNSUPPORTED_PCI_DEVICE_LIST) in
      if negb (existsb is_None unsprtMatch) then found
      else (found ++ [device])%list
    else (found ++ [device])%list
  else found.

(** The [found] list of [checkUnsupportedDevices] for the probed
    [devices]. *)
Definition unsupported_found (UNSUPPORTED_PCI_DEVICE_LIST devices : list PciInfo)
    : list PciInfo :=
  fold_left (unsupported_step UNSUPPORTED_PCI_DEVICE_LIST) devices [].

(** [checkUnsupportedDevices] *)
Definition checkUnsupportedDevices (UNSUPPORTED_PCI_DEVICE_LIST : list PciInfo)
    (host : Host) : exc (Result PciInfo) :=
  let found :=
    unsupported_found UNSUPPORTED_PCI_DEVICE_LIST
      (_parsePciInfo (GetAllPciDevices host)) in
  Result_init "UNSUPPORTED_DEVICES" found [] (operator_eq PciInfo_eq)
    "Unsupported devices are found" (Some WARNING).

(** ** The orchestrator *)

(** A [Result] whatever the type of its found and expected values. *)
Definition AnyResult : Type := { A : Type & Result A }.

Definition anyResult {A} (r : Result A) : AnyResult := existT A r.
Definition code_of (r : AnyResult) : Code := code (projT2 r).
Definition name_of (r : AnyResult) : string := name (projT2 r).

Module Orchestrator.

(** The checks the entry points list. *)
Inductive TestFn :=
| checkInitializable
| checkAvailableSpaceForISO
| checkUpgradePath
| checkMemorySize
| checkCpuSupported
| checkHardwareVirtualization
| checkCpuCores
| checkLAHFSAHF64bitFeatures
| checkNXbitCpuFeature
| checkSaneEsxConf
| checkHostHw
| checkUnsupportedDevices
| checkPackageCompliance
| checkUpdatesPending
| checkVMFSVersion
| checkImageProfileSize
| checkVibConflicts
| checkVibDependencies
| checkLockerSpaceAvail
| checkBootDiskSize
| checkBootNicIsNative
| checkBootbankDeviceIsNative
| checkHostAcceptance.

Section Run.

(** The state of the host and of the process that the checks read and
    change. *)
Context {World : Type}.

(** A call that returns or raises, and leaves a new state behind. *)
Definition M (A : Type) : Type := World -> exc A * World.

Definition mret {A} (a : A) : M A := fun w => (ret a, w).

Definition mbind {A B} (m : M A) (k : A -> M B) : M B :=
  fun w =>
    match m w with
    | (inl e, w') => (inl e, w')
    | (inr a, w') => k a w'
    end.

(** What calling a check does. *)
Variable call : TestFn -> M AnyResult.
(** [init(environment, freshInstall, hostImageProfile, targetImageProfile)] *)
Variable init :
  Environment -> bool -> option ImageProfile -> option ImageProfile -> M unit.
(** [userchoices.getForceMigrate()] *)
Variable getForceMigrate : M bool.
(** [deallocateRamDisk(RAMDISK_NAME)] *)
Variable deallocateRamDisk : M unit.
(** [str(result)] *)
Variable str : AnyResult -> string.

(** [[testFn() for testFn in tests]] *)
Fixpoint run_tests (tests : list TestFn) : M (list AnyResult) :=
  match tests with
  | [] => mret []
  | testFn :: tests' =>
      mbind (call testFn) (fun result =>
      mbind (run_tests tests') (fun results =>
      mret (result :: results)))
  end.

Definition two_newlines : string :=
  String "010"%char (String "010"%char EmptyString).

(** [humanReadableResultBlurbs] *)
Definition humanReadableResultBlurbs (results : list AnyResult)
    : string * string :=
  let '(errorFailures, warningFailures, _, _) :=
    fold_left (fun '(errorFailures, warningFailures,
                     errorNewLineNeeded, warningNewLineNeeded) result =>
      if negb (Result_bool (projT2 result)) then
        if Code_eqb (code_of result) ERROR then
          let errorFailures :=
            if errorNewLineNeeded : bool then errorFailures +:+ two_newlines
            else errorFailures in
          (errorFailures +:+ str result, warningFailures,
           true, warningNewLineNeeded)
        else
          let warningFailures :=
            if warningNewLineNeeded : bool
            then warningFailures +:+ two_newlines
            else warningFailures in
          (errorFailures, warningFailures +:+ str result,
           errorNewLineNeeded, true)
      else
        (errorFailures, warningFailures,
         errorNewLineNeeded, warningNewLineNeeded))
    results ("", "", false, false) in
  (errorFailures, warningFailures).

Definition upgradeAction_tests (forceMigrate : bool) : list TestFn :=
  let tests :=
    [ checkUpgradePath; checkMemorySize; checkCpuSupported; checkCpuCores;
      checkHostHw; checkUnsupportedDevices; checkVMFSVersion;
      checkImageProfileSize ] in
  if negb forceMigrate
  then (tests ++ [checkVibConflicts; checkVibDependencies])%list
  else tests.

(** [upgradeAction] *)
Definition upgradeAction : M (string * string) :=
  mbind (init WEASEL_ENV false None None) (fun _ =>
  mbind getForceMigrate (fun forceMigrate =>
  mbind (run_tests (upgradeAction_tests forceMigrate)) (fun results =>
  mret (humanReadableResultBlurbs results)))).

Definition installAction_tests : list TestFn :=
  [ checkMemorySize; checkCpuSupported; checkHardwareVirtualization;
    checkCpuCores; checkLAHFSAHF64bitFeatures; checkNXbitCpuFeature;
    checkHostHw; checkUnsupportedDevices; checkVMFSVersion;
    checkImageProfileSize ].

(** [installAction] *)
Definition installAction : M (string * string) :=
  mbind (init WEASEL_ENV true None None) (fun _ =>
  mbind (run_tests installAction_tests) (fun results =>
  mret (humanReadableResultBlurbs results))).

Definition cliUpgradeAction_tests (targetImageProfile : option ImageProfile)
    (vmkLinuxOnly : bool) : list TestFn :=
  let regularTests :=
    [ checkUpgradePath; checkMemorySize; checkCpuSupported; checkCpuCores;
      checkUnsupportedDevices; checkBootDiskSize ] in
  let vmkLinuxTests :=
    [ checkBootNicIsNative; checkBootbankDeviceIsNative ] in
  if is_None targetImageProfile then regularTests
  else if vmkLinuxOnly then vmkLinuxTests
  else (regularTests ++ vmkLinuxTests)%list.

(** [cliUpgradeAction] *)
Definition cliUpgradeAction (targetImageProfile : option ImageProfile)
    (vmkLinuxOnly : bool) : M (string * string) :=
  mbind (init ESXCLI_ENV false None targetImageProfile) (fun _ =>
  mbind (run_tests (cliUpgradeAction_tests targetImageProfile vmkLinuxOnly))
    (fun results =>
  mret (humanReadableResultBlurbs results))).

Definition imageManagerAction_tests : list TestFn :=
  [ checkMemorySize; checkCpuSupported; checkCpuCores;
    checkUnsupportedDevices; checkHostHw; checkBootNicIsNative;
    checkBootbankDeviceIsNative; checkImageProfileSize;
    checkLockerSpaceAvail; checkBootDiskSize; checkHostAcceptance ].

(** The loop [for testFn in tests] of [imageManagerAction]. *)
Fixpoint imageManager_loop (tests : list TestFn)
    (errors warnings : list AnyResult)
    : M (list AnyResult * list AnyResult) :=
  match tests with
  | [] => mret (errors, warnings)
  | testFn :: tests' =>
      mbind (call testFn) (fun result =>
        match code_of result with
        | ERROR => imageManager_loop tests' (errors ++ [result])%list warnings
        | WARNING => imageManager_loop tests' errors (warnings ++ [result])%list
        | SUCCESS => imageManager_loop tests' errors warnings
        end)
  end.

(** [imageManagerAction] *)
Definition imageManagerAction (hostProfile targetProfile : ImageProfile)
    : M (list AnyResult * list AnyResult) :=
  mbind (init ESXCLI_ENV false (Some hostProfile) (Some targetProfile))
    (fun _ => imageManager_loop imageManagerAction_tests [] []).

Definition main_tests : list TestFn :=
  [ checkAvailableSpaceForISO; checkMemorySize; checkCpuSupported;
    checkCpuCores; checkSaneEsxConf; checkUnsupportedDevices;
    checkPackageCompliance; checkHostHw; checkUpdatesPending;
    checkVMFSVersion; checkBootNicIsNative; checkBootbankDeviceIsNative;
    checkVibConflicts; checkVibDependencies; checkImageProfileSize;
    checkLockerSpaceAvail; checkBootDiskSize; checkHostAcceptance ].

(** [main], giving the results it prints. *)
Definition main : M (list AnyResult) :=
  mbind (call checkInitializable) (fun first =>
    if negb (Result_bool (projT2 first)) then mret [first]
    else
      mbind (init VUM_ENV false None None) (fun _ =>
      mbind (run_tests main_tests) (fun more =>
      let results := first :: more in
      let anyFailures :=
        List.filter (fun result => negb (Result_bool (projT2 result)))
          results in
      match anyFailures with
      | [] => mret results
      | _ :: _ => mbind deallocateRamDisk (fun _ => mret results)
      end))).

(** The check [testFn] of [tests] raises [e]: the checks before it
    return, taking the state from [w] to [w1], and the call of [testFn]
    in [w1] raises [e] and leaves [w2]. *)
Definition raises_in (tests : list TestFn) (w : World) (testFn : TestFn)
    (e : PyExn) (w2 : World) : Prop :=
  exists before after results w1,
    tests = (before ++ testFn :: after)%list
    /\ run_tests before w = (inr results, w1)
    /\ call testFn w1 = (inl e, w2).

End Run.

End Orchestrator.

(** ** Lexicographic order, as a relation *)

(** [lex_lt a b]: at the first position where [a] and [b] differ the item
    of [a] is smaller, or [a] is a proper prefix of [b]. *)
Inductive lex_lt : list Z -> list Z -> Prop :=
| lex_prefix y b : lex_lt [] (y :: b)
| lex_head x y a b : x < y -> lex_lt (x :: a) (y :: b)
| lex_tail x a b : lex_lt a b -> lex_lt (x :: a) (x :: b).

(** ** Auxiliary notions for the resolver *)

(** The ids of the PCIID tags of one VIB. *)
Definition vib_tags (vib : Vib) : list string :=
  match swtags vib with
  | None => []
  | Some tags => omap Regex.pciTagRegex tags
  end.

(** [st'] covers [st]: it has at least its native names and at least its
    indexed addresses. *)
Definition covers (st st' : ResolverState) : Prop :=
  nativeDevices st ⊆ nativeDevices st'
  ∧ dom (nativeSbdfIndex st) ⊆ dom (nativeSbdfIndex st').

(** ** Sample inventories *)

Module Examples.

(** An AHCI controller: class 0x0106, programming interface 0x01. *)
Definition ahci_device : PciDevice :=
  {| VMkernel_Name := "vmhba0"; Address := "0000:00:1f.2";
     Vendor_ID := 32902; Device_ID := 41218;
     SubVendor_ID := 4136; SubDevice_ID := 1825;
     Device_Class := 262; Programming_Interface := 1 |}.

(** An Ethernet controller: class 0x0200. *)
Definition nic_device : PciDevice :=
  {| VMkernel_Name := "vmnic0"; Address := "0000:01:00.0";
     Vendor_ID := 32902; Device_ID := 5433;
     SubVendor_ID := 32902; SubDevice_ID := 0;
     Device_Class := 512; Programming_Interface := 0 |}.

(** A port of the AHCI controller, a USB adapter, an adapter of an unknown
    controller. *)
Definition ahci_port : Adapter :=
  {| HBA_Name := "vmhba32"; UID := "sata.vmhba32";
     Description := "(0000:00:1f.2) Intel Corporation AHCI Controller";
     Driver := "vmw_ahci" |}.

Definition usb_adapter : Adapter :=
  {| HBA_Name := "vmhba33"; UID := "usb.vmhba33";
     Description := "USB"; Driver := "vmkusb" |}.

Definition orphan_adapter : Adapter :=
  {| HBA_Name := "vmhba34"; UID := "sata.vmhba34";
     Description := "(0000:05:00.0) Some Controller"; Driver := "ahci" |}.

(** A unit tagged for the PCI class 010601 only. *)
Definition ahci_vib : Vib :=
  {| swtags := Some ["PCIID ................010601"; "driver"];
     payloads := [] |}.

Definition ahci_profile : ImageProfile :=
  {| vibs := [("VMW_bootbank_vmw-ahci", ahci_vib)] |}.

(** A unit with a device tag for the Ethernet controller, wildcards in the
    subsystem positions. *)
Definition nic_vib : Vib :=
  {| swtags := Some ["PCIID 80861539........020000"];
     payloads := [] |}.

End Examples.

(** ** Auxiliary notions for the checks *)

(** The CPU models the check only warns about: Intel family 6 models 0x2a,
    0x2d and 0x3a, and AMD family 0x15 up to model 1. *)
Definition deprecated_cpu (host : Host) : Prop :=
  (GetVendorName host = "GenuineIntel" /\ GetFamily host = 6
   /\ (GetModel host = 42 \/ GetModel host = 45 \/ GetModel host = 58))
  \/ (GetVendorName host = "AuthenticAMD" /\ GetFamily host = 21
      /\ GetModel host <= 1).

(** The test [checkUnsupportedDevices] applies to a probed device. *)
Definition flagged (UNSUPPORTED_PCI_DEVICE_LIST : list PciInfo)
    (device : PciInfo) : bool :=
  PciInfo_in device UNSUPPORTED_PCI_DEVICE_LIST
  && (PyStr.truthy (subsystem device)
      || existsb is_None
           (map subsystem
              (List.filter (fun pci => PciInfo_eq device pci)
                 UNSUPPORTED_PCI_DEVICE_LIST))).

(** ** A sample run of the orchestrator *)

Module OrchestratorExamples.
Import Orchestrator.

(** The state is the log of the calls made so far. *)
Definition Log : Type := list string.

Definition test_name (testFn : TestFn) : string :=
  match testFn with
  | checkInitializable => "checkInitializable"
  | checkAvailableSpaceForISO => "checkAvailableSpaceForISO"
  | checkUpgradePath => "checkUpgradePath"
  | checkMemorySize => "checkMemorySize"
  | checkCpuSupported => "checkCpuSupported"
  | checkHardwareVirtualization => "checkHardwareVirtualization"
  | checkCpuCores => "checkCpuCores"
  | checkLAHFSAHF64bitFeatures => "checkLAHFSAHF64bitFeatures"
  | checkNXbitCpuFeature => "checkNXbitCpuFeature"
  | checkSaneEsxConf => "checkSaneEsxConf"
  | checkHostHw => "checkHostHw"
  | checkUnsupportedDevices => "checkUnsupportedDevices"
  | checkPackageCompliance => "checkPackageCompliance"
  | checkUpdatesPending => "checkUpdatesPending"
  | checkVMFSVersion => "checkVMFSVersion"
  | checkImageProfileSize => "checkImageProfileSize"
  | checkVibConflicts => "checkVibConflicts"
  | checkVibDependencies => "checkVibDependencies"
  | checkLockerSpaceAvail => "checkLockerSpaceAvail"
  | checkBootDiskSize => "checkBootDiskSize"
  | checkBootNicIsNative => "checkBootNicIsNative"
  | checkBootbankDeviceIsNative => "checkBootbankDeviceIsNative"
  | checkHostAcceptance => "checkHostAcceptance"
  end.

Definition passed (testFn : TestFn) : AnyResult :=
  anyResult {| name := test_name testFn; found := @nil Z; expected := [];
               errorMsg := ""; code := SUCCESS |}.

Definition memory_fault : PyExn :=
  OtherError "RuntimeError: vmkctl.HardwareInfoImpl().GetMemoryInfo() failed".

(** Every check passes, but [checkMemorySize] raises: the call into vmkctl
    fails. *)
Definition call (testFn : TestFn) : M (World := Log) AnyResult :=
  fun log =>
    let log := (log ++ [test_name testFn])%list in
    match testFn with
    | checkMemorySize => (inl memory_fault, log)
    | _ => (inr (passed testFn), log)
    end.

Definition init (_ : Environment) (_ : bool) (_ _ : option ImageProfile)
    : M (World := Log) unit :=
  fun log => (inr tt, (log ++ ["init"])%list).

Definition getForceMigrate : M (World := Log) bool :=
  fun log => (inr false, log).

Definition deallocateRamDisk : M (World := Log) unit :=
  fun log => (inr tt, (log ++ ["deallocateRamDisk"])%list).

Definition str (result : AnyResult) : string := name_of result.

End OrchestratorExamples.

(** ** What the resolver computes, stated on the inventories *)

(** The row has a vmhba/vmnic name and a class with a native class
    driver. *)
Definition class_native (device : PciDevice) : Prop :=
  Regex.deviceNames (VMkernel_Name device) = true
  /\ classCode_of device ∈ NATIVE_PCI_CLASS_DRIVER.

(** The row has a vmhba/vmnic name and either a class with a native class
    driver or an identity that one of the driver tags matches. *)
Definition pci_native (pciDriverTags : list string) (device : PciDevice) : Prop :=
  Regex.deviceNames (VMkernel_Name device) = true
  /\ (classCode_of device ∈ NATIVE_PCI_CLASS_DRIVER
      \/ exists driverTag, driverTag ∈ pciDriverTags
           /\ Regex.match_driverTag driverTag (hwId_of device) = true).

(** The address is the address of a row with a native class driver, or is
    embedded in the description of an adapter that carries the name of a
    natively driven row. *)
Definition indexed (pciDriverTags : list string) (pciDevList : list PciDevice)
    (adapterList : list Adapter) (sbdfAddress : string) : Prop :=
  (exists device, device ∈ pciDevList /\ class_native device
                  /\ Address device = sbdfAddress)
  \/ (exists adapter device,
        adapter ∈ adapterList
        /\ Regex.sbdfRegex (Description adapter) = Some sbdfAddress
        /\ device ∈ pciDevList
        /\ VMkernel_Name device = HBA_Name adapter
        /\ pci_native pciDriverTags device).

(** The adapter is a USB adapter, a software adapter, or its description
    embeds an indexed address. *)
Definition adapter_native (pciDriverTags : list string)
    (pciDevList : list PciDevice) (adapterList : list Adapter)
    (adapter : Adapter) : Prop :=
  Regex.usbRegex (UID adapter) = true
  \/ Driver adapter ∈ SOFTWARE_ADAPTER
  \/ exists sbdfAddress,
       Regex.sbdfRegex (Description adapter) = Some sbdfAddress
       /\ indexed pciDriverTags pciDevList adapterList sbdfAddress.

(** ** More sample inventories *)

Module ResolverSamples.

(** A RAID controller (class 0x0104) that only a device tag can cover. *)
Definition raid_device : PciDevice :=
  {| VMkernel_Name := "vmhba1"; Address := "0000:03:00.0";
     Vendor_ID := 4096; Device_ID := 93;
     SubVendor_ID := 4136; SubDevice_ID := 7984;
     Device_Class := 260; Programming_Interface := 0 |}.

(** The unit of its driver, with wildcards for the subsystem. *)
Definition raid_vib : Vib :=
  {| swtags := Some ["PCIID 1000005d........010400"];
     payloads := [] |}.

Definition raid_profile : ImageProfile :=
  {| vibs := [("VMW_bootbank_lsi-mr3", raid_vib)] |}.

(** The adapter that carries the name of the controller, and a second
    adapter behind the same address. *)
Definition raid_adapter : Adapter :=
  {| HBA_Name := "vmhba1"; UID := "sas.5000000000000001";
     Description := "(0000:03:00.0) Avago MegaRAID SAS"; Driver := "lsi_mr3" |}.

Definition raid_child : Adapter :=
  {| HBA_Name := "vmhba64"; UID := "sas.5000000000000002";
     Description := "(0000:03:00.0) Avago MegaRAID SAS"; Driver := "lsi_mr3" |}.

(** The sample AHCI profile with one more unit that has no tags at all. *)
Definition ahci_profile_untagged : ImageProfile :=
  {| vibs := [("VMW_bootbank_vmw-ahci", Examples.ahci_vib);
              ("VMware_bootbank_esx-base",
               {| swtags := None; payloads := [] |})] |}.

(** The RAID unit with the full identity of the sample controller, no
    wildcard. *)
Definition raid_exact_profile : ImageProfile :=
  {| vibs := [("VMW_bootbank_lsi-mr3",
               {| swtags := Some ["PCIID 1000005d10281f30010400"];
                  payloads := [] |})] |}.

End ResolverSamples.

(** ** Reading identity strings back *)

(** [s] is one of the characters of [ds]. *)
Definition one_of (ds : string) (c : ascii) : bool :=
  existsb (fun d => bool_decide (c = d)) (list_ascii_of_string ds).

(** [[0-9a-f]] *)
Definition is_hex_digit : ascii -> bool := one_of "0123456789abcdef".

(** The integer that a string of an optional minus sign and hexadecimal
    digits denotes. *)
Definition hex_value (s : string) : Z :=
  match s with
  | String "-"%char s' => - Z.of_N (HexString.Raw.to_N s' 0)
  | _ => Z.of_N (HexString.Raw.to_N s 0)
  end.

(** [tag'] is [tag] with some more positions turned into the wildcard. *)
Fixpoint broadens (tag' tag : string) : bool :=
  match tag', tag with
  | EmptyString, EmptyString => true
  | String c' t', String c t =>
      (bool_decide (c' = "."%char) || bool_decide (c' = c)) && broadens t' t
  | _, _ => false
  end.

(** No character of [s] is a newline. *)
Definition no_newline (s : string) : bool :=
  Regex.all_chars (fun c => negb (bool_decide (c = "010"%char))) s.

(** A row as PCI defines it: 16-bit ids, a 16-bit class and an 8-bit
    programming interface. *)
Definition pci_ranges (device : PciDevice) : Prop :=
  0 <= Vendor_ID device < 65536 /\ 0 <= Device_ID device < 65536
  /\ 0 <= SubVendor_ID device < 65536 /\ 0 <= SubDevice_ID device < 65536
  /\ 0 <= Device_Class device < 65536
  /\ 0 <= Programming_Interface device < 256.

(** ** CPU feature checks *)

(** One row of [localcli hardware cpu cpuid get --cpu=0]. *)
Record CpuidReg := mkCpuidReg {
  Level : Z;
  ECX : Z;
  EDX : Z
}.

(** [_getCpuExtendedFeatureBits]; [regs] is what the command gave, or the
    exception it raised. *)
Definition _getCpuExtendedFeatureBits (regs : exc (list CpuidReg)) : Z * Z :=
  match regs with
  | inl _ => (0, 0)
  | inr regs =>
      match List.find (fun reg => Level reg =? 2147483649) regs with
      | Some reg => (ECX reg, EDX reg)
      | None => (0, 0)
      end
  end.

Definition EDX_LONGMODE_MASK : Z := 536870912.
Definition ECX_LAHF64_MASK : Z := 1.
Definition EDX_NX_MASK : Z := 1048576.

(** Truth value of an [int]. *)
Definition int_truthy (z : Z) : bool := negb (z =? 0).

(** [int(b)] *)
Definition int_of_bool (b : bool) : Z := if b then 1 else 0.

(** [_parseLAHFSAHF64bitFeatures] *)
Definition _parseLAHFSAHF64bitFeatures (host : Host)
    (regs : exc (list CpuidReg)) : Z :=
  let '(id81ECXValue, id81EDXValue) := _getCpuExtendedFeatureBits regs in
  let lahf64 := Z.land id81ECXValue ECX_LAHF64_MASK in
  let longmode := Z.land id81EDXValue EDX_LONGMODE_MASK in
  let amd := PyStr.eqb (GetVendorName host) "AuthenticAMD" in
  let k8ext :=
    if amd
    then (GetFamily host =? 15) && (Z.land (GetModel host) 240 >? 0)
    else false in
  let retval :=
    negb (negb (int_truthy longmode)
          || (negb (int_truthy lahf64) && negb (amd && k8ext))) in
  int_of_bool retval.

(** [_parseNXbitCpuFeature] *)
Definition _parseNXbitCpuFeature (regs : exc (list CpuidReg)) : Z :=
  let '(_, id81EDXValue) := _getCpuExtendedFeatureBits regs in
  let nx_set := int_truthy (Z.land id81EDXValue EDX_NX_MASK) in
  int_of_bool nx_set.

(** [checkLAHFSAHF64bitFeatures] *)
Definition checkLAHFSAHF64bitFeatures (host : Host)
    (regs : exc (list CpuidReg)) : exc (Result Z) :=
  let found := _parseLAHFSAHF64bitFeatures host regs in
  Result_init "64BIT_LONGMODESTATUS" [found] [1] (operator_eq Z.eqb)
    "ESXi requires a 64-bit CPU with support for LAHF/SAHF in long mode."
    (Some ERROR).

(** [checkNXbitCpuFeature] *)
Definition checkNXbitCpuFeature (regs : exc (list CpuidReg)) : exc (Result Z) :=
  let found := _parseNXbitCpuFeature regs in
  Result_init "NXBIT_ENABLED" [found] [1] (operator_eq Z.eqb)
    "ESXi requires a CPU with NX/XD supported and enabled."
    (Some ERROR).

(** The CPU models the check blocks: Intel family 0xf and family 6 up to
    model 0x36 (the deprecated ones apart), AMD before family 0x15. *)
Definition unsupported_cpu (host : Host) : Prop :=
  (GetVendorName host = "GenuineIntel"
   /\ (GetFamily host = 15 \/ (GetFamily host = 6 /\ GetModel host <= 54))
   /\ ~ (GetFamily host = 6
         /\ (GetModel host = 42 \/ GetModel host = 45 \/ GetModel host = 58)))
  \/ (GetVendorName host = "AuthenticAMD" /\ GetFamily host < 21).

(** ** Checks of the boot device and of the staging area *)

(** [a >= b] on lists of [int]: the first differing items decide, and a
    list is at least each of its prefixes. *)
Fixpoint list_ge (a b : list Z) : bool :=
  match a, b with
  | _, [] => true
  | [], _ :: _ => false
  | x :: a', y :: b' => if x =? y then list_ge a' b' else y <? x
  end.

(** [operator.ge] as a comparator *)
Definition operator_ge (l1 l2 : list Z) : exc bool := ret (list_ge l1 l2).

(** [_getDiskAdapterName]; [paths] lists the [Adapter] of each storage path
    of the device, or is the exception of the command. *)
Definition _getDiskAdapterName (paths : exc (list string)) : option string :=
  match paths with
  | inl _ => None
  | inr [] => None
  | inr (adapter :: _) => Some adapter
  end.

(** [checkBootbankDeviceIsNative]; [nativeDriverOnly] and [nativeDevices]
    are the attributes of [systemProbe]. *)
Definition checkBootbankDeviceIsNative (nativeDriverOnly IsPxeBooting : bool)
    (paths : exc (list string)) (nativeDevices : gset string)
    : exc (Result bool) :=
  let found :=
    if nativeDriverOnly && negb IsPxeBooting then
      match _getDiskAdapterName paths with
      | Some vmhba => isDeviceNativePostUpgrade nativeDevices vmhba
      | None => false
      end
    else true in
  Result_init "NATIVE_BOOTBANK" [found] [true] (operator_eq Bool.eqb)
    "Native drivers are missing for bootbank storage device." None.

Section StagingArea.

Context {World : Type}.

(** [allocateRamDisk(RAMDISK_NAME, expected)], which tells whether the
    ramdisk could be made. *)
Variable allocateRamDisk : Z -> Orchestrator.M (World := World) bool.

(** [checkAvailableSpaceForISO]; [expected] is
    [systemProbe.imageMetadata.sizeOfUpgradeImage]. *)
Definition checkAvailableSpaceForISO (bootDeviceName : option string)
    (expected : Z) : Orchestrator.M (World := World) (Result Z) :=
  fun w =>
    if negb (PyStr.truthy bootDeviceName) then
      (Result_init "SPACE_AVAIL_ISO" [0] [expected] operator_ge "" None, w)
    else
      match allocateRamDisk expected w with
      | (inl e, w') => (inl e, w')
      | (inr ok, w') =>
          let found := if ok : bool then expected else 0 in
          (Result_init "SPACE_AVAIL_ISO" [found] [expected] operator_ge "" None,
           w')
      end.

End StagingArea.

(** ** The boot NIC check *)

(** Where a VMkernel NIC is connected: a port group, with the uplink order
    of the teaming policy of its standard switch; a port of the distributed
    switch [dvsId]; an opaque network; anything else. *)
Inductive ConnectionPoint :=
| CONN_TYPE_PG (uplinkOrder : list string)
| CONN_TYPE_DVP (dvsId : string)
| CONN_TYPE_OPAQUE_NET
| CONN_TYPE_unknown.

Record VmkNic := mkVmkNic {
  GetConnectionPoint : ConnectionPoint;
  GetIpv4Address : string;
  GetIpv6Network : list string
}.

Record DVSwitch := mkDVSwitch {
  GetDvsId : string;
  GetUplinks : list string
}.

Record NetworkInfo := mkNetworkInfo {
  GetVmKernelNics : list VmkNic;
  GetDVSwitches : list DVSwitch
}.

(** [_getVmkNicUplinkOrder] *)
Definition _getVmkNicUplinkOrder (vmkNic : VmkNic) (vsInfo : NetworkInfo)
    : exc (list string) :=
  match GetConnectionPoint vmkNic with
  | CONN_TYPE_PG uplinkOrder => ret uplinkOrder
  | CONN_TYPE_DVP dvsId =>
      match List.find (fun dvsSw => PyStr.eqb (GetDvsId dvsSw) dvsId)
              (GetDVSwitches vsInfo) with
      | Some dvsSw => ret (GetUplinks dvsSw)
      | None => raise (OtherError "RuntimeError: Unable to find DVS")
      end
  | CONN_TYPE_OPAQUE_NET => ret []
  | CONN_TYPE_unknown =>
      raise (OtherError
               "RuntimeError: The VMKernel NIC has an unknown connection type")
  end.

(** [_isUplinkOrderNative], the helper of [_isNicNative] *)
Definition _isUplinkOrderNative (nativeDevices : gset string)
    (upLinks : list string) : bool :=
  match upLinks with
  | [] => true
  | _ :: _ => existsb (isDeviceNativePostUpgrade nativeDevices) upLinks
  end.

Section BootNic.

(** [socket.inet_pton(af, ipStr)], [af] being [AF_INET6] when the flag is
    set and [AF_INET] otherwise. *)
Variable inet_pton : bool -> string -> exc string.

(** [':' in ipStr] *)
Definition has_colon (ipStr : string) : bool :=
  existsb (fun c => bool_decide (c = ":"%char)) (list_ascii_of_string ipStr).

(** [_getPackedIP] *)
Definition _getPackedIP (ipStr : string) : exc string :=
  inet_pton (has_colon ipStr) ipStr.

(** The packed addresses of a list of address strings, up to the first one
    that is not valid. *)
Fixpoint packed_all (ips : list string) : exc (list string) :=
  match ips with
  | [] => ret []
  | ip :: ips' =>
      p <- _getPackedIP ip ;;
      ps <- packed_all ips' ;;
      ret (p :: ps)
  end.

(** The loop of [_getUplinkOrderWithIP] over the VMkernel NICs. *)
Fixpoint uplinkOrder_loop (targetPackedIP : string) (vsInfo : NetworkInfo)
    (vmkNics : list VmkNic) : exc (list string) :=
  match vmkNics with
  | [] =>
      raise (OtherError
               "RuntimeError: Unable to find the VMkernel NIC configured with IP")
  | vmkNic :: vmkNics' =>
      packedIPs <- packed_all (GetIpv4Address vmkNic :: GetIpv6Network vmkNic) ;;
      if PyStr.In_list targetPackedIP packedIPs
      then _getVmkNicUplinkOrder vmkNic vsInfo
      else uplinkOrder_loop targetPackedIP vsInfo vmkNics'
  end.

(** [_getUplinkOrderWithIP] *)
Definition _getUplinkOrderWithIP (ni : NetworkInfo) (ipAddress : string)
    : exc (list string) :=
  targetPackedIP <- _getPackedIP ipAddress ;;
  uplinkOrder_loop targetPackedIP ni (GetVmKernelNics ni).

(** The loop of [_isNicNative] over the VMkernel NICs, when no IP is
    given. *)
Fixpoint anyNic_loop (nativeDevices : gset string) (vsInfo : NetworkInfo)
    (vmkNics : list VmkNic) : exc bool :=
  match vmkNics with
  | [] => ret false
  | vmkNic :: vmkNics' =>
      upLinks <- _getVmkNicUplinkOrder vmkNic vsInfo ;;
      if _isUplinkOrderNative nativeDevices upLinks then ret true
      else anyNic_loop nativeDevices vsInfo vmkNics'
  end.

(** [_isNicNative]; the IP is a string, the empty one when none is given. *)
Definition _isNicNative (nativeDevices : gset string) (ni : NetworkInfo)
    (ipAddress : string) : exc bool :=
  if PyStr.truthy (Some ipAddress) then
    upLinks <- _getUplinkOrderWithIP ni ipAddress ;;
    ret (_isUplinkOrderNative nativeDevices upLinks)
  else anyNic_loop nativeDevices ni (GetVmKernelNics ni).

(** [checkBootNicIsNative]; [options_ip] is [options.ip]. *)
Definition checkBootNicIsNative (nativeDriverOnly vumEnvironment : bool)
    (options_ip : string) (nativeDevices : gset string) (ni : NetworkInfo)
    : exc (Result bool) :=
  let found :=
    if nativeDriverOnly then
      if vumEnvironment then
        if negb (PyStr.truthy (Some options_ip)) then false
        else
          match _isNicNative nativeDevices ni options_ip with
          | inr b => b
          | inl _ => false
          end
      else
        match _isNicNative nativeDevices ni "" with
        | inr b => b
        | inl _ => false
        end
    else true in
  Result_init "NATIVE_BOOT_NIC" [found] [true] (operator_eq Bool.eqb)
    "Boot NIC is either missing or has no native driver available." None.

End BootNic.

(** ** Rendering the failures *)

(** [sep.join(l)] *)
Fixpoint str_join (sep : string) (l : list string) : string :=
  match l with
  | [] => ""
  | [s] => s
  | s :: l' => s +:+ sep +:+ str_join sep l'
  end.

(** The results with the code [c], in order. *)
Definition with_code (c : Code) (results : list AnyResult) : list AnyResult :=
  List.filter (fun result => Code_eqb (code_of result) c) results.

(** ** Running commands and the host acceptance level *)

(** [str(z)] for an [int] *)
Definition str_of_int (z : Z) : string :=
  DecimalString.NilZero.string_of_int (Z.to_int z).

(** [run(cmd, raiseException)].  [outcome] is what [runcommand(cmd)] does:
    it raises [RunCommandError] with the given text, or returns the exit
    code and the output.  When it raises and [raiseException] is false the
    handler only logs, and the test of [rc] that follows reads a variable
    that was never assigned. *)
Definition run (cmd : string) (outcome : string + Z * string)
    (raiseException : bool) : exc string :=
  match outcome with
  | inl e =>
      let msg := cmd +:+ " failed to execute: " +:+ e in
      if raiseException then raise (OtherError msg)
      else raise (OtherError "UnboundLocalError")
  | inr (rc, output) =>
      if negb (rc =? 0) then
        let msg :=
          "Command " +:+ cmd +:+ " exited with code " +:+ str_of_int rc in
        if raiseException then raise (OtherError msg) else ret output
      else ret output
  end.

(** [s.lstrip()] *)
Definition lstrip (s : string) : string := snd (PyStr.span PyStr.is_space s).

(** [s.rstrip()] *)
Fixpoint rstrip (s : string) : string :=
  match s with
  | EmptyString => EmptyString
  | String c s' =>
      match rstrip s' with
      | EmptyString => if PyStr.is_space c then EmptyString else String c EmptyString
      | r => String c r
      end
  end.

(** [s.strip()] *)
Definition strip (s : string) : string := rstrip (lstrip s).

(** [_getHostAcceptanceLevel]; [ACCEPTANCE_LEVELS] is the constant of the
    VIB library with the names of the levels. *)
Definition _getHostAcceptanceLevel (ACCEPTANCE_LEVELS : list string)
    (outcome : string + Z * string) : string :=
  match run "/sbin/esxcfg-advcfg -U host-acceptance-level -G" outcome true with
  | inl _ => ""
  | inr out =>
      let hostaccept := strip out in
      if PyStr.In_list hostaccept ACCEPTANCE_LEVELS then hostaccept else ""
  end.

(** [[v for k, v in d.items() if k == key][0]] *)
Definition trust_value (TRUST_ORDER : list (string * Z)) (key : string) : exc Z :=
  first_item
    (map snd (List.filter (fun kv => PyStr.eqb (fst kv) key) TRUST_ORDER)).

(** [checkHostAcceptance]; [TRUST_ORDER] is the constant of the image
    profile library, [targetAcceptance] the acceptance level of
    [systemProbe.upgradeImageProfile]. *)
Definition checkHostAcceptance (ACCEPTANCE_LEVELS : list string)
    (TRUST_ORDER : list (string * Z)) (outcome : string + Z * string)
    (targetAcceptance : string) : exc (Result bool) :=
  let hostAcceptance := _getHostAcceptanceLevel ACCEPTANCE_LEVELS outcome in
  if negb (PyStr.truthy (Some hostAcceptance)) then
    Result_init "HOST_ACCEPTANCE" [false] [true] (operator_eq Bool.eqb)
      "Failed to get valid host acceptance level." None
  else
    hostAcceptanceValue <- trust_value TRUST_ORDER hostAcceptance ;;
    targetAcceptanceValue <- trust_value TRUST_ORDER targetAcceptance ;;
    if targetAcceptanceValue <? hostAcceptanceValue then
      let err :=
        "Acceptance level of the host has to change from " +:+ hostAcceptance
        +:+ " to " +:+ targetAcceptance
        +:+ " to match with the new imageprofile and proceed with upgrade." in
      Result_init "HOST_ACCEPTANCE" [false] [true] (operator_eq Bool.eqb)
        err None
    else
      Result_init "HOST_ACCEPTANCE" [true] [true] (operator_eq Bool.eqb)
        "" None.

(** ** A sample run with mixed results *)

Module MixedRun.
Import Orchestrator.

Definition result_of (testFn : TestFn) (c : Code) : AnyResult :=
  anyResult {| name := OrchestratorExamples.test_name testFn;
               found := @nil Z; expected := []; errorMsg := ""; code := c |}.

Definition code_for (testFn : TestFn) : Code :=
  match testFn with
  | checkCpuSupported => WARNING
  | checkHostHw => ERROR
  | checkBootDiskSize => ERROR
  | _ => SUCCESS
  end.

(** Every check returns; three of them do not pass. *)
Definition call (testFn : TestFn)
    : M (World := OrchestratorExamples.Log) AnyResult :=
  fun log =>
    (inr (result_of testFn (code_for testFn)),
     (log ++ [OrchestratorExamples.test_name testFn])%list).

End MixedRun.

(** * Properties *)

(** ** Strings *)

Lemma PyStr_eqb_eq (s t : string) : PyStr.eqb s t = true <-> s = t.
Proof. unfold PyStr.eqb. rewrite bool_decide_eq_true. tauto. Qed.

Lemma PyStr_opt_eqb_eq (s t : option string) :
  PyStr.opt_eqb s t = true <-> s = t.
Proof. unfold PyStr.opt_eqb. rewrite bool_decide_eq_true. tauto. Qed.

Lemma PyStr_eqb_neq (s t : string) : PyStr.eqb s t = false <-> s <> t.
Proof. unfold PyStr.eqb. rewrite bool_decide_eq_false. tauto. Qed.

Lemma PyStr_opt_eqb_neq (s t : option string) :
  PyStr.opt_eqb s t = false <-> s <> t.
Proof. unfold PyStr.opt_eqb. rewrite bool_decide_eq_false. tauto. Qed.

Lemma is_None_true {A} (o : option A) : is_None o = true <-> o = None.
Proof. destruct o; simpl; split; congruence. Qed.

(** ** Device identities *)

(** The stored ids of a constructed identity are the lower-cased
    arguments. *)
Lemma PciInfo_init_ids v d s t :
  vendorId (PciInfo_init v d s t) = PyStr.lower v
  /\ deviceId (PciInfo_init v d s t) = PyStr.lower d
  /\ (subsystem (PciInfo_init v d s t) = None <-> s = None).
Proof.
  repeat split; try reflexivity; simpl.
  - destruct s as [[|c s]|]; simpl; congruence.
  - intros ->. reflexivity.
Qed.

Lemma PciInfo_eq_true (A B : PciInfo) :
  PciInfo_eq A B = true <->
  vendorId A = vendorId B /\ deviceId A = deviceId B
  /\ (subsystem A = None \/ subsystem B = None \/ subsystem A = subsystem B).
Proof.
  unfold PciInfo_eq.
  destruct (subsystem A) as [sa|], (subsystem B) as [sb|]; simpl;
    rewrite ?andb_true_iff, ?PyStr_eqb_eq, ?PyStr_opt_eqb_eq;
    intuition congruence.
Qed.

Lemma PciInfo_eq_sym (A B : PciInfo) : PciInfo_eq A B = PciInfo_eq B A.
Proof.
  apply eq_true_iff_eq. rewrite !PciInfo_eq_true. intuition congruence.
Qed.

Lemma PciInfo_ne_true (A B : PciInfo) :
  PciInfo_ne A B = true <->
  vendorId A <> vendorId B \/ deviceId A <> deviceId B
  \/ subsystem A <> subsystem B.
Proof.
  unfold PciInfo_ne.
  rewrite !orb_true_iff, !negb_true_iff, !PyStr_eqb_neq, PyStr_opt_eqb_neq.
  tauto.
Qed.

(** C1. For all identities [A] and [B], [A == B] holds exactly when: if the
    subsystem of [A] or of [B] is unset, the (lower-cased, as stored by the
    constructor) vendor ids and device ids match, whatever the subsystems;
    and if both subsystems are set, vendor id, device id and subsystem all
    match. *)
Theorem PciInfo_eq_rule :
  (forall A B : PciInfo,
      PciInfo_eq A B = true <->
      ((subsystem A = None \/ subsystem B = None ->
        vendorId A = vendorId B /\ deviceId A = deviceId B)
       /\ (subsystem A <> None /\ subsystem B <> None ->
           vendorId A = vendorId B /\ deviceId A = deviceId B
           /\ subsystem A = subsystem B)))
  /\ (forall va da sa ta vb db sb tb,
         sa = None \/ sb = None ->
         (PciInfo_eq (PciInfo_init va da sa ta) (PciInfo_init vb db sb tb) = true
          <-> PyStr.lower va = PyStr.lower vb /\ PyStr.lower da = PyStr.lower db))
  /\ (forall va da sa ta vb db sb tb,
         sa <> None -> sb <> None ->
         (PciInfo_eq (PciInfo_init va da sa ta) (PciInfo_init vb db sb tb) = true
          <-> PyStr.lower va = PyStr.lower vb /\ PyStr.lower da = PyStr.lower db
              /\ subsystem (PciInfo_init va da sa ta)
                 = subsystem (PciInfo_init vb db sb tb))).
Proof.
  split; [|split].
  - intros A B. rewrite PciInfo_eq_true.
    destruct (subsystem A) as [sa|], (subsystem B) as [sb|];
      intuition congruence.
  - intros va da sa ta vb db sb tb Hunset. rewrite PciInfo_eq_true.
    destruct (PciInfo_init_ids va da sa ta) as (-> & -> & Ha).
    destruct (PciInfo_init_ids vb db sb tb) as (-> & -> & Hb).
    rewrite <- Ha, <- Hb in Hunset. tauto.
  - intros va da sa ta vb db sb tb Ha Hb. rewrite PciInfo_eq_true.
    destruct (PciInfo_init_ids va da sa ta) as (-> & -> & Ha').
    destruct (PciInfo_init_ids vb db sb tb) as (-> & -> & Hb').
    rewrite <- Ha' in Ha. rewrite <- Hb' in Hb. tauto.
Qed.

(** C2. [A != B] holds exactly when vendor id, device id or subsystem
    differs, and it is not the negation of [A == B]: whenever the vendor
    and device ids agree and the subsystem is set on exactly one side, both
    [A == B] and [A != B] are true; such a pair exists. *)
Theorem PciInfo_ne_not_negation :
  (forall A B : PciInfo,
      PciInfo_ne A B = true <->
      vendorId A <> vendorId B \/ deviceId A <> deviceId B
      \/ subsystem A <> subsystem B)
  /\ (forall A B : PciInfo,
         vendorId A = vendorId B -> deviceId A = deviceId B ->
         (subsystem A = None /\ subsystem B <> None)
         \/ (subsystem A <> None /\ subsystem B = None) ->
         PciInfo_eq A B = true /\ PciInfo_ne A B = true)
  /\ (exists A B : PciInfo,
         vendorId A = vendorId B /\ deviceId A = deviceId B
         /\ subsystem A = None /\ subsystem B <> None
         /\ PciInfo_eq A B = true /\ PciInfo_ne A B = true).
Proof.
  split; [exact PciInfo_ne_true|]. split.
  - intros A B Hv Hd Hs. rewrite PciInfo_eq_true, PciInfo_ne_true.
    split; [intuition|]. right; right. intuition congruence.
  - exists (PciInfo_init "9005" "0285" None "AAC-RAID"),
           (PciInfo_init "9005" "0285" (Some "1028:0287") "PERC 320/DC").
    repeat split; simpl; congruence.
Qed.

(** ** Image size *)

Lemma calc_payloads_fold TYPE_BOOT (l : list Payload) (acc : Z) :
  fold_left (fun totalSize payload =>
      let totalSize := totalSize + size payload in
      if PyStr.eqb (payloadtype payload) TYPE_BOOT
      then totalSize + size payload else totalSize) l acc
  = acc + sum_sizes l + sum_sizes (boot_payloads TYPE_BOOT l).
Proof.
  revert acc. induction l as [|p l IH]; intros acc; simpl.
  - unfold sum_sizes; simpl. lia.
  - rewrite IH. unfold boot_payloads. rewrite filter_cons.
    unfold PyStr.eqb.
    destruct (decide (payloadtype p = TYPE_BOOT)) as [Hb|Hb].
    + rewrite bool_decide_eq_true_2 by exact Hb.
      unfold sum_sizes; simpl. lia.
    + rewrite bool_decide_eq_false_2 by exact Hb.
      unfold sum_sizes; simpl. lia.
Qed.

Lemma sum_sizes_app (l1 l2 : list Payload) :
  sum_sizes (l1 ++ l2) = sum_sizes l1 + sum_sizes l2.
Proof.
  unfold sum_sizes. induction l1 as [|p l1 IH]; simpl; [lia|].
  rewrite IH. lia.
Qed.

Lemma boot_payloads_app TYPE_BOOT (l1 l2 : list Payload) :
  boot_payloads TYPE_BOOT (l1 ++ l2)
  = (boot_payloads TYPE_BOOT l1 ++ boot_payloads TYPE_BOOT l2)%list.
Proof. unfold boot_payloads. apply filter_app. Qed.

Lemma calc_vibs_fold TYPE_BOOT (l : list Vib) (acc : Z) :
  fold_left (fun totalSize vib =>
      fold_left (fun totalSize payload =>
        let totalSize := totalSize + size payload in
        if PyStr.eqb (payloadtype payload) TYPE_BOOT
        then totalSize + size payload else totalSize)
      (payloads vib) totalSize) l acc
  = acc + sum_sizes (flat_map payloads l)
    + sum_sizes (boot_payloads TYPE_BOOT (flat_map payloads l)).
Proof.
  revert acc. induction l as [|v l IH]; intros acc; simpl.
  - unfold sum_sizes; simpl. lia.
  - rewrite IH, calc_payloads_fold, boot_payloads_app, !sum_sizes_app. lia.
Qed.

(** C4. The computed image size is the sum of the sizes of all payloads of
    all units, plus the sizes of the boot payloads once more, plus 10 MiB;
    a profile of one unit with a boot payload of size [S] and a non-boot
    payload of size [T] has size [2S + T + 10 * 2^20]. *)
Theorem calcImageSize_sum :
  (forall TYPE_BOOT (imageProfile : ImageProfile),
      _calcImageSize TYPE_BOOT imageProfile
      = sum_sizes (all_payloads imageProfile)
        + sum_sizes (boot_payloads TYPE_BOOT (all_payloads imageProfile))
        + 10 * 2 ^ 20)
  /\ (forall TYPE_BOOT other vid tags (S T : Z),
         other <> TYPE_BOOT ->
         _calcImageSize TYPE_BOOT
           {| vibs := [(vid, {| swtags := tags;
                                payloads := [ {| size := S; payloadtype := TYPE_BOOT |};
                                              {| size := T; payloadtype := other |} ] |})] |}
         = 2 * S + T + 10 * 2 ^ 20).
Proof.
  split.
  - intros TYPE_BOOT p. unfold _calcImageSize, all_payloads.
    rewrite calc_vibs_fold. change SIZE_MiB with (2 ^ 20). lia.
  - intros TYPE_BOOT other vid tags S T Hother.
    unfold _calcImageSize; simpl.
    rewrite (proj2 (PyStr_eqb_eq TYPE_BOOT TYPE_BOOT) eq_refl).
    rewrite (proj2 (PyStr_eqb_neq other TYPE_BOOT) Hother).
    change SIZE_MiB with (2 ^ 20). lia.
Qed.

(** ** Memory-size check *)

(** For the expected minimum of 4096 MiB the float threshold is exactly
    3968 MiB, and the comparison with it is exact. *)
Lemma memorySizeComparator_4096 (found : Z) :
  memorySizeComparator [found] [4 * 1024 * SIZE_MiB]
  = inr (3968 * SIZE_MiB <=? found).
Proof.
  unfold memorySizeComparator. simpl first_item.
  unfold bind at 1 2 3. unfold ret at 1 2 3.
  let v := eval vm_compute in (PyFloat.of_int (4 * 1024 * SIZE_MiB)) in
  change (PyFloat.of_int (4 * 1024 * SIZE_MiB)) with v.
  unfold bind, ret.
  match goal with
  | |- context [PyFloat.sub ?a ?b] =>
      let v := eval vm_compute in (PyFloat.sub a b) in
      change (PyFloat.sub a b) with v
  end.
  unfold PyFloat.int_ge, cond_Zopp.
  change (0 <=? -21) with false. cbv iota.
  change (- (-21)) with 21. change (3968 * SIZE_MiB) with 4160749568.
  f_equal. apply eq_true_iff_eq. rewrite !Z.leb_le. lia.
Qed.

(** C5. The memory-size check gives a result whose code is SUCCESS exactly
    when the found physical memory is at least
    [expected - 0.03125 * expected] for [expected] = 4096 MiB, that is
    3968 MiB, and ERROR otherwise; 3970 MiB passes and 3900 MiB fails. *)
Theorem checkMemorySize_tolerance :
  let expected := 4096 * SIZE_MiB in
  (forall host : Host,
      exists r, checkMemorySize host = inr r
        /\ (code r = SUCCESS <->
            32 * GetPhysicalMemory host >= 32 * expected - expected)
        /\ (code r = SUCCESS <-> GetPhysicalMemory host >= 3968 * SIZE_MiB)
        /\ (code r <> SUCCESS -> code r = ERROR))
  /\ (forall host, GetPhysicalMemory host = 3970 * SIZE_MiB ->
        exists r, checkMemorySize host = inr r /\ code r = SUCCESS)
  /\ (forall host, GetPhysicalMemory host = 3900 * SIZE_MiB ->
        exists r, checkMemorySize host = inr r /\ code r = ERROR).
Proof.
  assert (Hrun : forall host,
    checkMemorySize host
    = inr {| name := "MEMORY_SIZE"; found := [GetPhysicalMemory host];
             expected := [4 * 1024 * SIZE_MiB];
             errorMsg := "The memory is less than recommended";
             code := if 3968 * SIZE_MiB <=? GetPhysicalMemory host
                     then SUCCESS else ERROR |}).
  { intros host. unfold checkMemorySize, Result_init.
    rewrite memorySizeComparator_4096. reflexivity. }
  cbv zeta. split; [|split].
  - intros host. eexists. split; [apply Hrun|]. simpl.
    change SIZE_MiB with 1048576.
    destruct (Z.leb_spec (3968 * 1048576) (GetPhysicalMemory host));
      repeat split; intros; try congruence; try lia.
  - intros host Hmem. eexists. split; [apply Hrun|].
    simpl. rewrite Hmem. reflexivity.
  - intros host Hmem. eexists. split; [apply Hrun|].
    simpl. rewrite Hmem. reflexivity.
Qed.

(** ** Upgrade path *)

Lemma list_lt_spec (a b : list Z) : list_lt a b = true <-> lex_lt a b.
Proof.
  revert b. induction a as [|x a IH]; intros [|y b]; simpl.
  - split; [discriminate | inversion 1].
  - split; [constructor | reflexivity].
  - split; [discriminate | inversion 1].
  - destruct (Z.eqb_spec x y) as [->|Hne].
    + rewrite IH. split; [apply lex_tail|].
      inversion 1; subst; [lia | assumption].
    + rewrite Z.ltb_lt. split; [apply lex_head|].
      inversion 1; subst; [assumption | congruence].
Qed.

Lemma list_lt_false (a b : list Z) : list_lt a b = false <-> ~ lex_lt a b.
Proof.
  rewrite <- list_lt_spec. destruct (list_lt a b); split; congruence.
Qed.

(** C6. The upgrade-path comparator returns False when the installed
    version is unknown (empty), False when the new version is smaller than
    the installed one, False when the installed version is smaller than
    [6, 5], and True otherwise; with the target [7, 0, 0], the installed
    versions [6, 0, 0] and [7, 1, 0] are rejected and [6, 7, 0] is
    accepted. *)
Theorem upgradePathComparator_rule :
  (forall newVersion installedVersion : list Z,
      (installedVersion = [] ->
       upgradePathComparator newVersion installedVersion = false)
      /\ (lex_lt newVersion installedVersion ->
          upgradePathComparator newVersion installedVersion = false)
      /\ (lex_lt installedVersion [6; 5] ->
          upgradePathComparator newVersion installedVersion = false)
      /\ (installedVersion <> [] -> ~ lex_lt newVersion installedVersion ->
          ~ lex_lt installedVersion [6; 5] ->
          upgradePathComparator newVersion installedVersion = true))
  /\ upgradePathComparator [7; 0; 0] [6; 0; 0] = false
  /\ upgradePathComparator [7; 0; 0] [6; 7; 0] = true
  /\ upgradePathComparator [7; 0; 0] [7; 1; 0] = false.
Proof.
  split; [|repeat split; reflexivity].
  intros n i. unfold upgradePathComparator.
  repeat split.
  - intros ->. reflexivity.
  - intros H. apply list_lt_spec in H. rewrite H. destruct i; reflexivity.
  - intros H. apply list_lt_spec in H. rewrite H.
    destruct i; [reflexivity|]. destruct (list_lt n (z :: i)); reflexivity.
  - intros Hne H1 H2. apply list_lt_false in H1, H2. rewrite H1, H2.
    destruct i; congruence.
Qed.

(** ** The native-driver resolver *)

Lemma tags_fold (tags : list string) (acc : list string) :
  fold_left (fun pciDriverTags tag =>
      match Regex.pciTagRegex tag with
      | Some id => (pciDriverTags ++ [id])%list
      | None => pciDriverTags
      end) tags acc
  = (acc ++ omap Regex.pciTagRegex tags)%list.
Proof.
  revert acc. induction tags as [|t tags IH]; intros acc; simpl.
  - by rewrite app_nil_r.
  - rewrite IH. destruct (Regex.pciTagRegex t); simpl; [|done].
    by rewrite <- app_assoc.
Qed.

Lemma pciDriverTags_fold (l : list Vib) (acc : list string) :
  fold_left (fun pciDriverTags vib =>
    match swtags vib with
    | None => pciDriverTags
    | Some tags =>
        fold_left (fun pciDriverTags tag =>
          match Regex.pciTagRegex tag with
          | Some id => (pciDriverTags ++ [id])%list
          | None => pciDriverTags
          end) tags pciDriverTags
    end) l acc
  = (acc ++ flat_map vib_tags l)%list.
Proof.
  revert acc. induction l as [|v l IH]; intros acc; simpl.
  - by rewrite app_nil_r.
  - rewrite IH. unfold vib_tags at 2. destruct (swtags v).
    + by rewrite tags_fold, <- app_assoc.
    + done.
Qed.

Lemma pciDriverTags_of_flat (p : ImageProfile) :
  pciDriverTags_of p = flat_map vib_tags (dict_values (vibs p)).
Proof. unfold pciDriverTags_of. by rewrite pciDriverTags_fold. Qed.

Lemma dict_set_fresh {V} (k : string) (v : V) (d : list (string * V)) :
  k ∉ dict_keys d -> dict_set k v d = (d ++ [(k, v)])%list.
Proof.
  induction d as [|[k' v'] d IH]; simpl; intros Hk; [done|].
  apply not_elem_of_cons in Hk as [Hne Hk].
  rewrite (proj2 (PyStr_eqb_neq k' k)) by congruence.
  by rewrite IH.
Qed.

Lemma tag_fold_elem (name hwId : string) (tags : list string) (nd : gset string) (x : string) :
  x ∈ fold_left (fun nd driverTag =>
        if Regex.match_driverTag driverTag hwId then {[ name ]} ∪ nd else nd)
      tags nd
  <-> x ∈ nd \/ (x = name /\ exists tag, tag ∈ tags /\ Regex.match_driverTag tag hwId = true).
Proof.
  revert nd. induction tags as [|t tags IH]; intros nd; simpl.
  - split; [auto|]. intros [H|(_ & tag & Hin & _)]; [done|]. by apply elem_of_nil in Hin.
  - rewrite IH. destruct (Regex.match_driverTag t hwId) eqn:Hm.
    + rewrite elem_of_union, elem_of_singleton. split.
      * intros [[->|H]|(-> & tag & Hin & Ht)]; eauto.
        -- right. split; [done|]. exists t. split; [left|done].
        -- right. split; [done|]. exists tag. split; [by right|done].
      * intros [H|(-> & tag & Hin & Ht)]; [auto|]. left. by left.
    + split.
      * intros [H|(-> & tag & Hin & Ht)]; [auto|].
        right. split; [done|]. exists tag. split; [by right|done].
      * intros [H|(-> & tag & Hin & Ht)]; [auto|].
        apply elem_of_cons in Hin as [->|Hin]; [congruence|].
        right. split; [done|]. by exists tag.
Qed.

Lemma covers_refl st : covers st st.
Proof. by split. Qed.

Lemma covers_trans a b c : covers a b -> covers b c -> covers a c.
Proof. intros [??] [??]. split; set_solver. Qed.

Lemma pci_step_covers (tags tags' : list string) st st' device :
  (forall tag, tag ∈ tags -> tag ∈ tags') ->
  covers st st' ->
  covers (pci_step tags st device) (pci_step tags' st' device).
Proof.
  intros Htags [Hnd Hidx]. unfold pci_step.
  destruct (Regex.deviceNames _); [|by split].
  destruct (PyStr.In_list _ _); split; simpl.
  - set_solver.
  - rewrite !dom_insert_L. set_solver.
  - intros x. rewrite !tag_fold_elem.
    intros [H|(-> & tag & Hin & Ht)]; [left; by apply Hnd|].
    right. split; [done|]. exists tag. auto.
  - done.
Qed.

Lemma sbdf_step_covers st st' adapter :
  covers st st' -> covers (sbdf_step st adapter) (sbdf_step st' adapter).
Proof.
  intros [Hnd Hidx]. unfold sbdf_step.
  destruct (Regex.sbdfRegex _) as [sbdf|]; [|by split].
  repeat case_bool_decide; split; simpl; rewrite ?dom_insert_L; set_solver.
Qed.

Lemma adapter_step_covers st st' adapter :
  covers st st' -> covers (adapter_step st adapter) (adapter_step st' adapter).
Proof.
  intros [Hnd Hidx]. unfold adapter_step.
  destruct (Regex.usbRegex _); [split; simpl; set_solver|].
  destruct (PyStr.In_list _ _); [split; simpl; set_solver|].
  destruct (Regex.sbdfRegex _) as [sbdf|];
    repeat case_bool_decide; simpl; split; simpl; set_solver.
Qed.

Lemma fold_left_covers {A} (f g : ResolverState -> A -> ResolverState) (l : list A) :
  (forall st st' a, covers st st' -> covers (f st a) (g st' a)) ->
  forall st st', covers st st' -> covers (fold_left f l st) (fold_left g l st').
Proof.
  intros Hstep. induction l as [|a l IH]; intros st st' H; simpl; [done|].
  apply IH, Hstep, H.
Qed.

Lemma getNativeDevices_state_covers (p p' : ImageProfile) pciDevList adapterList :
  (forall tag, tag ∈ pciDriverTags_of p -> tag ∈ pciDriverTags_of p') ->
  covers (_getNativeDevices_state p pciDevList adapterList)
         (_getNativeDevices_state p' pciDevList adapterList).
Proof.
  intros Htags. unfold _getNativeDevices_state, after_pci.
  assert (Hpci : covers
    (fold_left (pci_step (pciDriverTags_of p)) pciDevList
       {| nativeDevices := ∅; nativeSbdfIndex := ∅ |})
    (fold_left (pci_step (pciDriverTags_of p')) pciDevList
       {| nativeDevices := ∅; nativeSbdfIndex := ∅ |})).
  { apply fold_left_covers; [|apply covers_refl].
    intros st st' a. by apply pci_step_covers. }
  destruct adapterList as [|a l]; [done|].
  apply fold_left_covers; [apply adapter_step_covers|].
  apply fold_left_covers; [apply sbdf_step_covers|done].
Qed.

(** C8. Monotonicity of the resolver: for fixed PCI and adapter
    inventories, adding to the target profile a unit (under an id the
    profile does not have yet), whatever PCIID tags it carries, removes no
    name from the native set: the new set includes the old one. *)
Theorem getNativeDevices_monotone (p : ImageProfile) (vid : string) (vib : Vib)
    (pciDevList : list PciDevice) (adapterList : list Adapter) :
  vid ∉ dict_keys (vibs p) ->
  _getNativeDevices p pciDevList adapterList
  ⊆ _getNativeDevices (AddVib vid vib p) pciDevList adapterList.
Proof.
  intros Hfresh. unfold _getNativeDevices.
  apply getNativeDevices_state_covers.
  intros tag. rewrite !pciDriverTags_of_flat. unfold AddVib; simpl.
  rewrite dict_set_fresh by done. unfold dict_values.
  rewrite map_app, flat_map_app. set_solver.
Qed.

(** Steps never forget. *)
Lemma pci_step_grows tags st device : covers st (pci_step tags st device).
Proof.
  unfold pci_step. destruct (Regex.deviceNames _); [|apply covers_refl].
  destruct (PyStr.In_list _ _); split; simpl.
  - set_solver.
  - rewrite dom_insert_L. set_solver.
  - intros x Hx. apply tag_fold_elem. by left.
  - done.
Qed.

Lemma sbdf_step_grows st adapter : covers st (sbdf_step st adapter).
Proof.
  unfold sbdf_step. destruct (Regex.sbdfRegex _); [|apply covers_refl].
  case_bool_decide; split; simpl; rewrite ?dom_insert_L; set_solver.
Qed.

Lemma adapter_step_grows st adapter : covers st (adapter_step st adapter).
Proof.
  unfold adapter_step.
  destruct (Regex.usbRegex _); [split; simpl; set_solver|].
  destruct (PyStr.In_list _ _); [split; simpl; set_solver|].
  destruct (Regex.sbdfRegex _);
    repeat case_bool_decide; simpl; split; simpl; set_solver.
Qed.

Lemma fold_left_grows {A} (f : ResolverState -> A -> ResolverState) (l : list A) :
  (forall st a, covers st (f st a)) ->
  forall st, covers st (fold_left f l st).
Proof.
  intros Hstep. induction l as [|a l IH]; intros st; simpl; [apply covers_refl|].
  eapply covers_trans; [apply Hstep|apply IH].
Qed.

Lemma pci_step_native_class tags st device :
  Regex.deviceNames (VMkernel_Name device) = true ->
  classCode_of device ∈ NATIVE_PCI_CLASS_DRIVER ->
  pci_step tags st device
  = {| nativeDevices := {[ VMkernel_Name device ]} ∪ nativeDevices st;
       nativeSbdfIndex := <[ Address device := VMkernel_Name device ]> (nativeSbdfIndex st) |}.
Proof.
  intros Hname Hclass. unfold pci_step. rewrite Hname.
  unfold PyStr.In_list. by rewrite bool_decide_eq_true_2.
Qed.

(** C7. A row of the PCI inventory whose VMkernel name matches the
    vmhba/vmnic pattern and whose class code is in
    [NATIVE_PCI_CLASS_DRIVER] has its name in the native set, for every
    target profile (also one without any tag), and its address is recorded
    in the bus-address index: mapped to the name by the step that handles
    the row, and still a key of the index after the PCI loop and at the
    end. *)
Theorem native_class_device_is_native (p : ImageProfile)
    (pciDevList : list PciDevice) (adapterList : list Adapter) (device : PciDevice) :
  device ∈ pciDevList ->
  Regex.deviceNames (VMkernel_Name device) = true ->
  classCode_of device ∈ NATIVE_PCI_CLASS_DRIVER ->
  VMkernel_Name device ∈ _getNativeDevices p pciDevList adapterList
  /\ VMkernel_Name device ∈ _getNativeDevices {| vibs := [] |} pciDevList adapterList
  /\ (forall tags st,
        nativeSbdfIndex (pci_step tags st device) !! Address device
        = Some (VMkernel_Name device))
  /\ Address device ∈ dom (nativeSbdfIndex (after_pci p pciDevList))
  /\ Address device
     ∈ dom (nativeSbdfIndex (_getNativeDevices_state p pciDevList adapterList)).
Proof.
  intros Hin Hname Hclass.
  assert (Hpci : forall q,
    VMkernel_Name device ∈ nativeDevices (after_pci q pciDevList)
    /\ Address device ∈ dom (nativeSbdfIndex (after_pci q pciDevList))).
  { intros q. unfold after_pci.
    apply list_elem_of_split in Hin as (l1 & l2 & ->).
    rewrite fold_left_app. simpl.
    rewrite pci_step_native_class by done.
    match goal with |- context [fold_left ?f l2 ?s] =>
      destruct (fold_left_grows f l2 (pci_step_grows _) s) as [Hnd Hidx] end.
    simpl in Hnd, Hidx. rewrite dom_insert_L in Hidx. set_solver. }
  assert (Hall : forall q,
    covers (after_pci q pciDevList) (_getNativeDevices_state q pciDevList adapterList)).
  { intros q. unfold _getNativeDevices_state.
    destruct adapterList as [|a l]; [apply covers_refl|].
    eapply covers_trans.
    - apply (fold_left_grows sbdf_step (a :: l) sbdf_step_grows).
    - apply (fold_left_grows adapter_step (a :: l) adapter_step_grows). }
  unfold _getNativeDevices.
  repeat split.
  - apply (Hall p), Hpci.
  - apply (Hall {| vibs := [] |}), Hpci.
  - intros tags st. rewrite pci_step_native_class by done. simpl.
    apply lookup_insert_eq.
  - apply Hpci.
  - apply (Hall p), Hpci.
Qed.

(** The AHCI controller of the sample inventory, with the profile whose
    only unit is tagged for class 010601. *)
Lemma native_class_device_is_native_witness :
  Examples.ahci_device ∈ [Examples.nic_device; Examples.ahci_device]
  /\ Regex.deviceNames (VMkernel_Name Examples.ahci_device) = true
  /\ classCode_of Examples.ahci_device ∈ NATIVE_PCI_CLASS_DRIVER
  /\ "vmhba0" ∈ _getNativeDevices Examples.ahci_profile
                  [Examples.nic_device; Examples.ahci_device] [].
Proof.
  assert (H1 : Examples.ahci_device
               ∈ [Examples.nic_device; Examples.ahci_device])
    by (right; left).
  assert (H2 : Regex.deviceNames (VMkernel_Name Examples.ahci_device) = true)
    by reflexivity.
  assert (H3 : classCode_of Examples.ahci_device ∈ NATIVE_PCI_CLASS_DRIVER)
    by (vm_compute; left).
  split; [exact H1|]. split; [exact H2|]. split; [exact H3|].
  exact (proj1 (native_class_device_is_native Examples.ahci_profile
                  [Examples.nic_device; Examples.ahci_device] []
                  Examples.ahci_device H1 H2 H3)).
Defined.

(** Adding the unit with the wildcarded Ethernet tag to the sample
    profile. *)
Lemma getNativeDevices_monotone_witness :
  ("VMW_bootbank_igbn" ∉ dict_keys (vibs Examples.ahci_profile))
  /\ (_getNativeDevices Examples.ahci_profile
        [Examples.nic_device; Examples.ahci_device]
        [Examples.ahci_port; Examples.usb_adapter]
      ⊆ _getNativeDevices
          (AddVib "VMW_bootbank_igbn" Examples.nic_vib Examples.ahci_profile)
          [Examples.nic_device; Examples.ahci_device]
          [Examples.ahci_port; Examples.usb_adapter]).
Proof.
  assert (H : "VMW_bootbank_igbn" ∉ dict_keys (vibs Examples.ahci_profile))
    by (apply (bool_decide_unpack _); vm_compute; exact I).
  split; [exact H|].
  exact (getNativeDevices_monotone Examples.ahci_profile "VMW_bootbank_igbn"
           Examples.nic_vib _ _ H).
Defined.

(** The sample inventory: the AHCI controller, its port and the USB adapter
    are native with the AHCI unit alone; the Ethernet controller becomes
    native once the unit with its device tag is added; the adapter of the
    unknown controller never is. *)
Example resolver_sample :
  let before :=
    _getNativeDevices Examples.ahci_profile
      [Examples.nic_device; Examples.ahci_device]
      [Examples.ahci_port; Examples.usb_adapter; Examples.orphan_adapter] in
  let after :=
    _getNativeDevices
      (AddVib "VMW_bootbank_igbn" Examples.nic_vib Examples.ahci_profile)
      [Examples.nic_device; Examples.ahci_device]
      [Examples.ahci_port; Examples.usb_adapter; Examples.orphan_adapter] in
  map (isDeviceNativePostUpgrade before)
    ["vmhba0"; "vmhba32"; "vmhba33"; "vmhba34"; "vmnic0"]
  = [true; true; true; false; false]
  /\ map (isDeviceNativePostUpgrade after)
       ["vmhba0"; "vmhba32"; "vmhba33"; "vmhba34"; "vmnic0"]
     = [true; true; true; false; true].
Proof. split; vm_compute; reflexivity. Qed.

(** ** CPU support and the VUM override *)

Lemma cpuModelCode_warning (host : Host) :
  snd (cpuModelCode (GetVendorName host) (GetFamily host) (GetModel host)) = WARNING
  <-> deprecated_cpu host.
Proof.
  unfold cpuModelCode, deprecated_cpu.
  destruct (PyStr.eqb (GetVendorName host) "GenuineIntel") eqn:Hi.
  - apply PyStr_eqb_eq in Hi. rewrite Hi.
    destruct (Z.eqb_spec (GetFamily host) 6) as [Hf|Hf];
    destruct (Z.eqb_spec (GetModel host) 42) as [Hm1|Hm1];
    destruct (Z.eqb_spec (GetModel host) 45) as [Hm2|Hm2];
    destruct (Z.eqb_spec (GetModel host) 58) as [Hm3|Hm3];
    destruct (Z.eqb_spec (GetFamily host) 15) as [Hf2|Hf2];
    destruct (Z.leb_spec (GetModel host) 54) as [Hm4|Hm4];
    simpl; split; try discriminate; try tauto;
      try (intros _; left; tauto);
      try (intros [(_ & ? & ?)|(? & _)]; first [lia | discriminate | intuition lia]).
  - apply PyStr_eqb_neq in Hi.
    destruct (PyStr.eqb (GetVendorName host) "AuthenticAMD") eqn:Ha.
    + apply PyStr_eqb_eq in Ha.
      destruct (Z.ltb_spec (GetFamily host) 21) as [Hf|Hf];
      destruct (Z.eqb_spec (GetFamily host) 21) as [Hf2|Hf2];
      destruct (Z.leb_spec (GetModel host) 1) as [Hm|Hm];
      simpl; split; try discriminate; try tauto;
      try (intros [(? & _)|(_ & ? & ?)]; first [congruence | lia]).
    + apply PyStr_eqb_neq in Ha. simpl. split; [discriminate|].
      intros [(? & _)|(? & _)]; congruence.
Qed.

Lemma checkCpuSupported_run (host : Host) :
  let '(errorMsg, mismatchCode) :=
    cpuModelCode (GetVendorName host) (GetFamily host) (GetModel host) in
  let silenced := vumEnvironment host && Code_eqb mismatchCode WARNING in
  checkCpuSupported host
  = inr {| name := "CPU_SUPPORT"; found := [silenced]; expected := [true];
           errorMsg := errorMsg;
           code := if silenced then SUCCESS
                   else if allowLegacyCPU host && Code_eqb mismatchCode ERROR
                        then WARNING else mismatchCode |}.
Proof.
  unfold checkCpuSupported.
  destruct (cpuModelCode _ _ _) as [msg c].
  destruct (vumEnvironment host), c, (allowLegacyCPU host); reflexivity.
Qed.

(** C9. For a deprecated CPU model, for which the CPU-support check would
    give a WARNING, the check gives SUCCESS in the VUM environment and
    WARNING in the weasel and esxcli environments.  The override is
    confined to VUM (the check gives the same result in any two other
    environments) and to the would-be warning (for any other CPU the check
    gives the same result in all environments), and the other checks that
    can warn, and the memory check, do not depend on the environment. *)
Theorem cpu_warning_silenced_in_vum_only :
  (forall host : Host, deprecated_cpu host ->
      (environment host = VUM_ENV ->
       exists r, checkCpuSupported host = inr r /\ code r = SUCCESS)
      /\ (environment host <> VUM_ENV ->
          exists r, checkCpuSupported host = inr r /\ code r = WARNING))
  /\ (forall (host : Host) (env env' : Environment),
         env <> VUM_ENV -> env' <> VUM_ENV ->
         checkCpuSupported (in_environment env host)
         = checkCpuSupported (in_environment env' host))
  /\ (forall (host : Host) (env env' : Environment),
         ~ deprecated_cpu host ->
         checkCpuSupported (in_environment env host)
         = checkCpuSupported (in_environment env' host))
  /\ (forall (host : Host) (env : Environment) (denylist : list PciInfo),
         checkMemorySize (in_environment env host) = checkMemorySize host
         /\ checkHardwareVirtualization (in_environment env host)
            = checkHardwareVirtualization host
         /\ checkVMFSVersion (in_environment env host) = checkVMFSVersion host
         /\ checkUnsupportedDevices denylist (in_environment env host)
            = checkUnsupportedDevices denylist host).
Proof.
  split; [|split; [|split]].
  - intros host Hdep. apply cpuModelCode_warning in Hdep.
    pose proof (checkCpuSupported_run host) as Hrun.
    destruct (cpuModelCode _ _ _) as [msg c]. simpl in Hdep. subst c.
    unfold vumEnvironment in Hrun. split.
    + intros Henv. rewrite Henv in Hrun. eexists. split; [exact Hrun|reflexivity].
    + intros Henv. eexists. split; [exact Hrun|].
      destruct (environment host), (allowLegacyCPU host); simpl; congruence.
  - intros host env env' He He'.
    pose proof (checkCpuSupported_run (in_environment env host)) as H1.
    pose proof (checkCpuSupported_run (in_environment env' host)) as H2.
    simpl in H1, H2. destruct (cpuModelCode _ _ _) as [msg c].
    rewrite H1, H2. unfold vumEnvironment; simpl.
    destruct env, env'; congruence.
  - intros host env env' Hdep.
    rewrite <- cpuModelCode_warning in Hdep.
    pose proof (checkCpuSupported_run (in_environment env host)) as H1.
    pose proof (checkCpuSupported_run (in_environment env' host)) as H2.
    simpl in H1, H2. destruct (cpuModelCode _ _ _) as [msg c].
    rewrite H1, H2. simpl in Hdep.
    destruct c; try congruence; simpl; rewrite !andb_false_r; reflexivity.
  - intros host env denylist. repeat split.
Qed.

(** Sandy Bridge (family 6, model 0x2a) in the three environments. *)
Example cpu_override_sample :
  let snb env :=
    {| environment := env; GetPhysicalMemory := 8192 * SIZE_MiB;
       GetVendorName := "GenuineIntel"; GetFamily := 6; GetModel := 42;
       allowLegacyCPU := false; GetHVSupport := 3;
       GetVmfsMajorVersions := [5]; GetAllPciDevices := [] |} in
  map (fun env => bind (checkCpuSupported (snb env)) (fun r => ret (code r)))
    [WEASEL_ENV; VUM_ENV; ESXCLI_ENV]
  = [inr WARNING; inr SUCCESS; inr WARNING].
Proof. reflexivity. Qed.

(** An unsupported CPU booted with [allowLegacyCPU]: the error becomes a
    warning after the VUM override is decided, and stays a warning in
    VUM. *)
Example cpu_allowLegacy_sample :
  let p4 env :=
    {| environment := env; GetPhysicalMemory := 8192 * SIZE_MiB;
       GetVendorName := "GenuineIntel"; GetFamily := 15; GetModel := 4;
       allowLegacyCPU := true; GetHVSupport := 3;
       GetVmfsMajorVersions := [5]; GetAllPciDevices := [] |} in
  map (fun env => bind (checkCpuSupported (p4 env)) (fun r => ret (code r)))
    [WEASEL_ENV; VUM_ENV; ESXCLI_ENV]
  = [inr WARNING; inr WARNING; inr WARNING].
Proof. reflexivity. Qed.

(** ** Unsupported devices *)

Lemma unsupported_step_flagged (L found : list PciInfo) (device : PciInfo) :
  unsupported_step L found device
  = if flagged L device then (found ++ [device])%list else found.
Proof.
  unfold unsupported_step, flagged.
  destruct (PciInfo_in device L); [|reflexivity].
  destruct (PyStr.truthy (subsystem device)); simpl; [reflexivity|].
  destruct (existsb is_None _); reflexivity.
Qed.

Lemma unsupported_fold (L devices acc : list PciInfo) :
  fold_left (unsupported_step L) devices acc
  = (acc ++ List.filter (flagged L) devices)%list.
Proof.
  revert acc. induction devices as [|d devices IH]; intros acc; simpl.
  - by rewrite app_nil_r.
  - rewrite IH, unsupported_step_flagged.
    destruct (flagged L d); [|done]. by rewrite <- app_assoc.
Qed.

Lemma unsupported_found_filter (L devices : list PciInfo) :
  unsupported_found L devices = List.filter (flagged L) devices.
Proof. unfold unsupported_found. by rewrite unsupported_fold. Qed.

Lemma PciInfo_in_true (device : PciInfo) (L : list PciInfo) :
  PciInfo_in device L = true
  <-> exists pci, In pci L /\ PciInfo_eq device pci = true.
Proof. unfold PciInfo_in. apply existsb_exists. Qed.

Lemma none_match_true (device : PciInfo) (L : list PciInfo) :
  existsb is_None
    (map subsystem (List.filter (fun pci => PciInfo_eq device pci) L)) = true
  <-> exists pci, In pci L /\ PciInfo_eq device pci = true
                  /\ subsystem pci = None.
Proof.
  rewrite existsb_exists. split.
  - intros (s & Hin & Hs). apply in_map_iff in Hin as (pci & <- & Hin).
    apply filter_In in Hin as [Hin Heq]. apply is_None_true in Hs. eauto.
  - intros (pci & Hin & Heq & Hs). exists (subsystem pci). split.
    + apply in_map, filter_In. auto.
    + by apply is_None_true.
Qed.

Lemma flagged_unset (L : list PciInfo) (device : PciInfo) :
  PyStr.truthy (subsystem device) = false ->
  flagged L device = true
  <-> exists pci, In pci L /\ vendorId pci = vendorId device
                  /\ deviceId pci = deviceId device /\ subsystem pci = None.
Proof.
  intros Hunset. unfold flagged. rewrite Hunset. simpl.
  rewrite andb_true_iff, PciInfo_in_true, none_match_true. split.
  - intros [_ (pci & Hin & Heq & Hs)]. apply PciInfo_eq_true in Heq.
    exists pci. intuition congruence.
  - intros (pci & Hin & Hv & Hd & Hs).
    assert (PciInfo_eq device pci = true)
      by (apply PciInfo_eq_true; intuition congruence).
    split; exists pci; auto.
Qed.

Lemma flagged_set (L : list PciInfo) (device : PciInfo) :
  PyStr.truthy (subsystem device) = true ->
  flagged L device = true
  <-> exists pci, In pci L /\ PciInfo_eq device pci = true.
Proof.
  intros Hset. unfold flagged. rewrite Hset. simpl.
  rewrite andb_true_r. apply PciInfo_in_true.
Qed.

Lemma parsePciInfo_fold (pciDevices : list RawPciDevice) (acc : list PciInfo) :
  fold_left (fun retval dev =>
    let vendor := PyFmt.hex0 4 (GetVendorId dev) in
    let device := PyFmt.hex0 4 (GetDeviceId dev) in
    let subven := PyFmt.hex0 4 (GetSubVendorId dev) in
    let subdev := PyFmt.hex0 4 (GetSubDeviceId dev) in
    (retval ++ [PciInfo_init vendor device (Some (subven +:+ ":" +:+ subdev)) ""])%list)
  pciDevices acc
  = (acc ++ map (fun dev =>
       PciInfo_init (PyFmt.hex0 4 (GetVendorId dev)) (PyFmt.hex0 4 (GetDeviceId dev))
         (Some (PyFmt.hex0 4 (GetSubVendorId dev) +:+ ":"
                +:+ PyFmt.hex0 4 (GetSubDeviceId dev))) "") pciDevices)%list.
Proof.
  revert acc. induction pciDevices as [|d l IH]; intros acc; simpl.
  - by rewrite app_nil_r.
  - rewrite IH. by rewrite <- app_assoc.
Qed.

Lemma subsystem_with_colon_truthy v d a b t :
  PyStr.truthy (subsystem (PciInfo_init v d (Some (a +:+ ":" +:+ b)) t)) = true.
Proof. destruct a; reflexivity. Qed.

(** Every device that [_parsePciInfo] returns has a subsystem. *)
Lemma probed_devices_have_subsystem (pciDevices : list RawPciDevice) (device : PciInfo) :
  In device (_parsePciInfo pciDevices) ->
  PyStr.truthy (subsystem device) = true.
Proof.
  unfold _parsePciInfo. rewrite parsePciInfo_fold. simpl.
  intros Hin. apply in_map_iff in Hin as (dev & <- & _).
  apply subsystem_with_colon_truthy.
Qed.

(** C10. The found list that [checkUnsupportedDevices] reports is the
    result of its loop over the devices [_parsePciInfo] probed.  A probed
    device whose subsystem is unset ([None] or empty) is in the reported
    found list exactly when the denylist has an entry with the same vendor
    and device ids whose subsystem is unset too; a probed device with a
    subsystem is in the reported found list exactly when some denylist
    entry equals it under [PciInfo.__eq__]; so a denylist whose entries all
    record a subsystem never flags a device without one.  The same rule
    holds for the loop on every list of devices; the devices that
    [_parsePciInfo] builds all have a subsystem. *)
Theorem unsupported_devices_subsystem_rule
    (denylist : list PciInfo) (host : Host) :
  exists r,
    checkUnsupportedDevices denylist host = inr r
    /\ found r
       = unsupported_found denylist (_parsePciInfo (GetAllPciDevices host))
    /\ (forall device,
          In device (_parsePciInfo (GetAllPciDevices host)) ->
          PyStr.truthy (subsystem device) = true)
    /\ (forall device,
          (PyStr.truthy (subsystem device) = false ->
             (In device (found r) <->
              In device (_parsePciInfo (GetAllPciDevices host))
              /\ exists pci, In pci denylist /\ vendorId pci = vendorId device
                             /\ deviceId pci = deviceId device
                             /\ subsystem pci = None))
          /\ (PyStr.truthy (subsystem device) = true ->
                (In device (found r) <->
                 In device (_parsePciInfo (GetAllPciDevices host))
                 /\ exists pci, In pci denylist
                                /\ PciInfo_eq device pci = true))
          /\ (PyStr.truthy (subsystem device) = false ->
                (forall pci, In pci denylist -> subsystem pci <> None) ->
                ~ In device (found r)))
    /\ (forall devices device,
          (PyStr.truthy (subsystem device) = false ->
             (In device (unsupported_found denylist devices) <->
              In device devices
              /\ exists pci, In pci denylist /\ vendorId pci = vendorId device
                             /\ deviceId pci = deviceId device
                             /\ subsystem pci = None))
          /\ (PyStr.truthy (subsystem device) = true ->
                (In device (unsupported_found denylist devices) <->
                 In device devices
                 /\ exists pci, In pci denylist
                                /\ PciInfo_eq device pci = true))
          /\ (PyStr.truthy (subsystem device) = false ->
                (forall pci, In pci denylist -> subsystem pci <> None) ->
                ~ In device (unsupported_found denylist devices))).
Proof.
  assert (Hrule : forall devices device,
    (PyStr.truthy (subsystem device) = false ->
       (In device (unsupported_found denylist devices) <->
        In device devices
        /\ exists pci, In pci denylist /\ vendorId pci = vendorId device
                       /\ deviceId pci = deviceId device
                       /\ subsystem pci = None))
    /\ (PyStr.truthy (subsystem device) = true ->
          (In device (unsupported_found denylist devices) <->
           In device devices
           /\ exists pci, In pci denylist /\ PciInfo_eq device pci = true))
    /\ (PyStr.truthy (subsystem device) = false ->
          (forall pci, In pci denylist -> subsystem pci <> None) ->
          ~ In device (unsupported_found denylist devices))).
  { intros devices device.
    rewrite unsupported_found_filter, filter_In.
    split; [|split].
    - intros Hunset. by rewrite flagged_unset.
    - intros Hset. by rewrite flagged_set.
    - intros Hunset Hrec [_ Hf]. apply flagged_unset in Hf; [|done].
      destruct Hf as (pci & Hin & _ & _ & Hs). by apply (Hrec pci). }
  unfold checkUnsupportedDevices, Result_init, operator_eq, bind, ret.
  eexists. split; [reflexivity|]. cbn [found].
  split; [reflexivity|].
  split; [apply probed_devices_have_subsystem|].
  split; [intros device; apply Hrule|exact Hrule].
Qed.

(** Two entries of the denylist, one with and one without a subsystem,
    against three probed devices and against two identities without a
    subsystem. *)
Example unsupported_devices_sample :
  let denylist :=
    [ PciInfo_init "1028" "0001" (Some "1028:0001")
        "PowerEdge Expandable RAID Controller 2/Si";
      PciInfo_init "9005" "801f" None "AIC-7902 U320, AIC-7902 Ultra320 SCSI" ] in
  let probed :=
    _parsePciInfo
      [ {| GetVendorId := 4136; GetDeviceId := 1; GetSubVendorId := 4136; GetSubDeviceId := 1 |};
        {| GetVendorId := 4136; GetDeviceId := 1; GetSubVendorId := 4136; GetSubDeviceId := 2 |};
        {| GetVendorId := 36869; GetDeviceId := 32799; GetSubVendorId := 36869; GetSubDeviceId := 95 |} ] in
  map subsystem (unsupported_found denylist probed)
  = [Some "1028:0001"; Some "9005:005f"]
  /\ unsupported_found denylist
       [PciInfo_init "1028" "0001" None ""; PciInfo_init "9005" "801F" None ""]
     = [PciInfo_init "9005" "801f" None ""].
Proof. split; reflexivity. Qed.

(** ** The orchestrator *)

Module OrchestratorFacts.
Import Orchestrator.

Section Facts.

Context {World : Type}.
Variable call : TestFn -> M (World := World) AnyResult.
Variable init :
  Environment -> bool -> option ImageProfile -> option ImageProfile -> M (World := World) unit.
Variable getForceMigrate : M (World := World) bool.
Variable deallocateRamDisk : M (World := World) unit.
Variable str : AnyResult -> string.

Lemma run_tests_raises (tests : list TestFn) (w : World) testFn e w2 :
  raises_in call tests w testFn e w2 ->
  run_tests call tests w = (inl e, w2).
Proof.
  intros (before & after & results & w1 & -> & Hbefore & Hcall).
  revert w results Hbefore.
  induction before as [|t before IH]; intros w results Hbefore; simpl.
  - unfold mret, ret in Hbefore. injection Hbefore as _ ->.
    unfold mbind. by rewrite Hcall.
  - simpl in Hbefore. unfold mbind in *.
    destruct (call t w) as [[e0|r] w0]; [discriminate|].
    destruct (run_tests call before w0) as [[e1|rs] w1'] eqn:Hrest; [discriminate|].
    unfold mret, ret in Hbefore. injection Hbefore as _ ->.
    by rewrite (IH w0 rs Hrest).
Qed.

Lemma imageManager_loop_raises (tests : list TestFn) (w : World) testFn e w2 :
  raises_in call tests w testFn e w2 ->
  forall errors warnings,
    imageManager_loop call tests errors warnings w = (inl e, w2).
Proof.
  intros (before & after & results & w1 & -> & Hbefore & Hcall).
  revert w results Hbefore.
  induction before as [|t before IH]; intros w results Hbefore errors warnings; simpl.
  - unfold mret, ret in Hbefore. injection Hbefore as _ ->.
    unfold mbind. by rewrite Hcall.
  - simpl in Hbefore. unfold mbind in *.
    destruct (call t w) as [[e0|r] w0]; [discriminate|].
    destruct (run_tests call before w0) as [[e1|rs] w1'] eqn:Hrest; [discriminate|].
    unfold mret, ret in Hbefore. injection Hbefore as _ ->.
    destruct (code_of r); by apply (IH w0 rs Hrest).
Qed.

(** C3, as the code has it. No entry point of the orchestrator
    ([upgradeAction], [installAction], [cliUpgradeAction],
    [imageManagerAction], [main]) catches an exception that a check of its
    list raises: when the checks before it return and the check raises [e],
    the entry point raises [e] itself, in the state the failing check left;
    the checks after it are not called and no result is produced. *)
Theorem check_exception_propagates (testFn : TestFn) (e : PyExn) (w w0 w2 : World) :
  (forall fm w',
      init WEASEL_ENV false None None w = (inr tt, w') ->
      getForceMigrate w' = (inr fm, w0) ->
      raises_in call (upgradeAction_tests fm) w0 testFn e w2 ->
      upgradeAction call init getForceMigrate str w = (inl e, w2))
  /\ (init WEASEL_ENV true None None w = (inr tt, w0) ->
      raises_in call installAction_tests w0 testFn e w2 ->
      installAction call init str w = (inl e, w2))
  /\ (forall targetImageProfile vmkLinuxOnly,
      init ESXCLI_ENV false None targetImageProfile w = (inr tt, w0) ->
      raises_in call (cliUpgradeAction_tests targetImageProfile vmkLinuxOnly)
        w0 testFn e w2 ->
      cliUpgradeAction call init str targetImageProfile vmkLinuxOnly w
      = (inl e, w2))
  /\ (forall hostProfile targetProfile,
      init ESXCLI_ENV false (Some hostProfile) (Some targetProfile) w
      = (inr tt, w0) ->
      raises_in call imageManagerAction_tests w0 testFn e w2 ->
      imageManagerAction call init hostProfile targetProfile w = (inl e, w2))
  /\ (forall first w',
      call checkInitializable w = (inr first, w') ->
      Result_bool (projT2 first) = true ->
      init VUM_ENV false None None w' = (inr tt, w0) ->
      raises_in call main_tests w0 testFn e w2 ->
      main call init deallocateRamDisk w = (inl e, w2)).
Proof.
  repeat split.
  - intros fm w' Hinit Hfm Hr. unfold upgradeAction, mbind.
    rewrite Hinit, Hfm. by rewrite (run_tests_raises _ w0 testFn e w2 Hr).
  - intros Hinit Hr. unfold installAction, mbind.
    rewrite Hinit. by rewrite (run_tests_raises _ w0 testFn e w2 Hr).
  - intros tp vl Hinit Hr. unfold cliUpgradeAction, mbind.
    rewrite Hinit. by rewrite (run_tests_raises _ w0 testFn e w2 Hr).
  - intros hp tp Hinit Hr. unfold imageManagerAction, mbind.
    rewrite Hinit. by apply (imageManager_loop_raises _ w0 testFn e w2 Hr).
  - intros first w' Hfirst Hok Hinit Hr. unfold main, mbind.
    rewrite Hfirst, Hok. change (negb true) with false. cbv beta iota.
    rewrite Hinit.
    by rewrite (run_tests_raises _ w0 testFn e w2 Hr).
Qed.

End Facts.
End OrchestratorFacts.

(** The sample run: [checkMemorySize] raises in [upgradeAction] and in
    [imageManagerAction].  The entry point raises the same exception; it
    returns no blurbs and no result lists, and the log shows that the
    checks listed after [checkMemorySize] were never called. *)
Lemma check_exception_swallowed_counterexample :
  Orchestrator.upgradeAction OrchestratorExamples.call OrchestratorExamples.init OrchestratorExamples.getForceMigrate OrchestratorExamples.str []
  = (inl OrchestratorExamples.memory_fault, ["init"; "checkUpgradePath"; "checkMemorySize"])
  /\ Orchestrator.imageManagerAction OrchestratorExamples.call OrchestratorExamples.init
       {| vibs := [] |} {| vibs := [] |} []
     = (inl OrchestratorExamples.memory_fault, ["init"; "checkMemorySize"])
  /\ (forall outcome,
        outcome = Orchestrator.upgradeAction OrchestratorExamples.call OrchestratorExamples.init OrchestratorExamples.getForceMigrate OrchestratorExamples.str [] ->
        (forall blurbs, fst outcome <> inr blurbs)
        /\ ~ In "checkCpuSupported" (snd outcome)).
Proof.
  split; [reflexivity|]. split; [reflexivity|].
  intros outcome ->. split.
  - intros blurbs. vm_compute. discriminate.
  - vm_compute. intuition discriminate.
Qed.

(** The sample run of [upgradeAction], from the propagation theorem. *)
Lemma check_exception_propagates_witness :
  Orchestrator.upgradeAction OrchestratorExamples.call OrchestratorExamples.init OrchestratorExamples.getForceMigrate OrchestratorExamples.str []
  = (inl OrchestratorExamples.memory_fault, ["init"; "checkUpgradePath"; "checkMemorySize"]).
Proof.
  apply (proj1 (OrchestratorFacts.check_exception_propagates
                  OrchestratorExamples.call OrchestratorExamples.init OrchestratorExamples.getForceMigrate OrchestratorExamples.deallocateRamDisk OrchestratorExamples.str
                  Orchestrator.checkMemorySize OrchestratorExamples.memory_fault
                  [] ["init"] ["init"; "checkUpgradePath"; "checkMemorySize"])
           false ["init"]).
  - reflexivity.
  - reflexivity.
  - exists [Orchestrator.checkUpgradePath],
      [Orchestrator.checkCpuSupported; Orchestrator.checkCpuCores;
       Orchestrator.checkHostHw; Orchestrator.checkUnsupportedDevices;
       Orchestrator.checkVMFSVersion; Orchestrator.checkImageProfileSize;
       Orchestrator.checkVibConflicts; Orchestrator.checkVibDependencies],
      [OrchestratorExamples.passed Orchestrator.checkUpgradePath], ["init"; "checkUpgradePath"].
    repeat split.
Defined.

(** ** The native set, characterised *)

Lemma In_list_true x l : PyStr.In_list x l = true <-> x ∈ l.
Proof. unfold PyStr.In_list. apply bool_decide_eq_true. Qed.

Lemma In_list_false x l : PyStr.In_list x l = false <-> x ∉ l.
Proof. unfold PyStr.In_list. apply bool_decide_eq_false. Qed.

Lemma pci_step_nativeDevices tags st device x :
  x ∈ nativeDevices (pci_step tags st device)
  <-> x ∈ nativeDevices st
      \/ (VMkernel_Name device = x /\ pci_native tags device).
Proof.
  unfold pci_step, pci_native.
  destruct (Regex.deviceNames _) eqn:Hname; [|intuition discriminate].
  destruct (PyStr.In_list _ _) eqn:Hclass; simpl.
  - apply In_list_true in Hclass. rewrite elem_of_union, elem_of_singleton.
    intuition.
  - apply In_list_false in Hclass. rewrite tag_fold_elem.
    split.
    + intros [H|(-> & Htag)]; [auto|]. right. auto.
    + intros [H|(<- & _ & [Hc|Htag])]; [auto|done|]. right. auto.
Qed.

Lemma pci_step_index tags st device a :
  a ∈ dom (nativeSbdfIndex (pci_step tags st device))
  <-> a ∈ dom (nativeSbdfIndex st)
      \/ (Address device = a /\ class_native device).
Proof.
  unfold pci_step, class_native.
  destruct (Regex.deviceNames _) eqn:Hname; [|intuition discriminate].
  destruct (PyStr.In_list _ _) eqn:Hclass; simpl.
  - apply In_list_true in Hclass. rewrite dom_insert_L, elem_of_union, elem_of_singleton.
    intuition.
  - apply In_list_false in Hclass. intuition.
Qed.

Lemma pci_fold_nativeDevices tags l st x :
  x ∈ nativeDevices (fold_left (pci_step tags) l st)
  <-> x ∈ nativeDevices st
      \/ exists device, device ∈ l /\ VMkernel_Name device = x
                        /\ pci_native tags device.
Proof.
  revert st. induction l as [|d l IH]; intros st; simpl.
  - split; [auto|]. intros [H|(d & Hd & _)]; [done|]. by apply elem_of_nil in Hd.
  - rewrite IH, pci_step_nativeDevices. split.
    + intros [[H|[Hn Hp]]|(d' & Hin & Hn & Hp)]; [auto| |].
      * right. exists d. split; [left|done].
      * right. exists d'. split; [by right|done].
    + intros [H|(d' & Hin & Hn & Hp)]; [auto|].
      apply elem_of_cons in Hin as [->|Hin]; [auto|].
      right. eauto.
Qed.

Lemma pci_fold_index tags l st a :
  a ∈ dom (nativeSbdfIndex (fold_left (pci_step tags) l st))
  <-> a ∈ dom (nativeSbdfIndex st)
      \/ exists device, device ∈ l /\ class_native device /\ Address device = a.
Proof.
  revert st. induction l as [|d l IH]; intros st; simpl.
  - split; [auto|]. intros [H|(d & Hd & _)]; [done|]. by apply elem_of_nil in Hd.
  - rewrite IH, pci_step_index. split.
    + intros [[H|[Hn Hp]]|(d' & Hin & Hn & Hp)]; [auto| |].
      * right. exists d. split; [left|done].
      * right. exists d'. split; [by right|done].
    + intros [H|(d' & Hin & Hn & Hp)]; [auto|].
      apply elem_of_cons in Hin as [->|Hin]; [auto|].
      right. eauto.
Qed.

Lemma sbdf_step_nativeDevices st adapter :
  nativeDevices (sbdf_step st adapter) = nativeDevices st.
Proof.
  unfold sbdf_step. destruct (Regex.sbdfRegex _); [|done].
  by case_bool_decide.
Qed.

Lemma sbdf_fold_nativeDevices l st :
  nativeDevices (fold_left sbdf_step l st) = nativeDevices st.
Proof.
  revert st. induction l as [|a l IH]; intros st; simpl; [done|].
  by rewrite IH, sbdf_step_nativeDevices.
Qed.

Lemma sbdf_step_index st adapter a :
  a ∈ dom (nativeSbdfIndex (sbdf_step st adapter))
  <-> a ∈ dom (nativeSbdfIndex st)
      \/ (Regex.sbdfRegex (Description adapter) = Some a
          /\ HBA_Name adapter ∈ nativeDevices st).
Proof.
  unfold sbdf_step. destruct (Regex.sbdfRegex _) as [s|]; [|intuition discriminate].
  case_bool_decide; simpl.
  - rewrite dom_insert_L, elem_of_union, elem_of_singleton.
    split; [intros [->|?]; auto|]. intros [?|[[= ->] _]]; auto.
  - split; [auto|]. intros [?|[_ ?]]; done.
Qed.

Lemma sbdf_fold_index l st a :
  a ∈ dom (nativeSbdfIndex (fold_left sbdf_step l st))
  <-> a ∈ dom (nativeSbdfIndex st)
      \/ exists adapter, adapter ∈ l
           /\ Regex.sbdfRegex (Description adapter) = Some a
           /\ HBA_Name adapter ∈ nativeDevices st.
Proof.
  revert st. induction l as [|ad l IH]; intros st; simpl.
  - split; [auto|]. intros [H|(d & Hd & _)]; [done|]. by apply elem_of_nil in Hd.
  - rewrite IH, sbdf_step_index, sbdf_step_nativeDevices. split.
    + intros [[H|[Hn Hp]]|(d' & Hin & Hn & Hp)]; [auto| |].
      * right. exists ad. split; [left|done].
      * right. exists d'. split; [by right|done].
    + intros [H|(d' & Hin & Hn & Hp)]; [auto|].
      apply elem_of_cons in Hin as [->|Hin]; [auto|].
      right. eauto.
Qed.

Lemma adapter_step_index st adapter :
  nativeSbdfIndex (adapter_step st adapter) = nativeSbdfIndex st.
Proof.
  unfold adapter_step.
  destruct (Regex.usbRegex _); [done|].
  destruct (PyStr.In_list _ _); [done|].
  destruct (negb _); [|done].
  destruct (Regex.sbdfRegex _); [|done]. by case_bool_decide.
Qed.

Lemma adapter_fold_index l st :
  nativeSbdfIndex (fold_left adapter_step l st) = nativeSbdfIndex st.
Proof.
  revert st. induction l as [|a l IH]; intros st; simpl; [done|].
  by rewrite IH, adapter_step_index.
Qed.

Lemma adapter_step_nativeDevices st adapter x :
  x ∈ nativeDevices (adapter_step st adapter)
  <-> x ∈ nativeDevices st
      \/ (HBA_Name adapter = x
          /\ (Regex.usbRegex (UID adapter) = true
              \/ Driver adapter ∈ SOFTWARE_ADAPTER
              \/ exists a, Regex.sbdfRegex (Description adapter) = Some a
                           /\ a ∈ dom (nativeSbdfIndex st))).
Proof.
  unfold adapter_step.
  destruct (Regex.usbRegex _) eqn:Husb; simpl.
  { rewrite elem_of_union, elem_of_singleton. intuition. }
  destruct (PyStr.In_list _ _) eqn:Hsw; simpl.
  { apply In_list_true in Hsw. rewrite elem_of_union, elem_of_singleton. intuition. }
  apply In_list_false in Hsw.
  case_bool_decide as Hin; simpl.
  { split; [auto|]. intros [?|[<- _]]; done. }
  destruct (Regex.sbdfRegex _) as [s|] eqn:Hre.
  - case_bool_decide as Hidx; simpl.
    + rewrite elem_of_union, elem_of_singleton.
      split; [intros [->|?]; [right|auto]|intros [?|[<- _]]; auto].
      split; [done|]. right; right. eauto.
    + split; [auto|]. intros [?|[_ [?|[?|(a & [= ->] & ?)]]]]; done.
  - split; [auto|]. intros [?|[_ [?|[?|(a & ? & ?)]]]]; done.
Qed.

Lemma adapter_fold_nativeDevices l st x :
  x ∈ nativeDevices (fold_left adapter_step l st)
  <-> x ∈ nativeDevices st
      \/ exists adapter, adapter ∈ l /\ HBA_Name adapter = x
           /\ (Regex.usbRegex (UID adapter) = true
               \/ Driver adapter ∈ SOFTWARE_ADAPTER
               \/ exists a, Regex.sbdfRegex (Description adapter) = Some a
                            /\ a ∈ dom (nativeSbdfIndex st)).
Proof.
  revert st. induction l as [|ad l IH]; intros st; simpl.
  - split; [auto|]. intros [H|(d & Hd & _)]; [done|]. by apply elem_of_nil in Hd.
  - rewrite IH, adapter_step_nativeDevices, adapter_step_index. split.
    + intros [[H|[Hn Hp]]|(d' & Hin & Hn & Hp)]; [auto| |].
      * right. exists ad. split; [left|done].
      * right. exists d'. split; [by right|done].
    + intros [H|(d' & Hin & Hn & Hp)]; [auto|].
      apply elem_of_cons in Hin as [->|Hin]; [auto|].
      right. eauto.
Qed.

Lemma after_pci_nativeDevices p l x :
  x ∈ nativeDevices (after_pci p l)
  <-> exists device, device ∈ l /\ VMkernel_Name device = x
                     /\ pci_native (pciDriverTags_of p) device.
Proof.
  unfold after_pci. rewrite pci_fold_nativeDevices. simpl.
  split; [intros [?|?]; [set_solver|done]|auto].
Qed.

Lemma after_pci_index p l a :
  a ∈ dom (nativeSbdfIndex (after_pci p l))
  <-> exists device, device ∈ l /\ class_native device /\ Address device = a.
Proof.
  unfold after_pci. rewrite pci_fold_index. simpl.
  split; [intros [?|?]; [set_solver|done]|auto].
Qed.

Lemma final_index p l ads a :
  a ∈ dom (nativeSbdfIndex (_getNativeDevices_state p l ads))
  <-> indexed (pciDriverTags_of p) l ads a.
Proof.
  unfold _getNativeDevices_state, indexed.
  destruct ads as [|ad ads].
  - rewrite after_pci_index. split; [auto|].
    intros [?|(a' & d & Hin & _)]; [done|]. by apply elem_of_nil in Hin.
  - rewrite adapter_fold_index, sbdf_fold_index, after_pci_index.
    split.
    + intros [?|(a' & Hin & Hre & Hn)]; [auto|].
      apply after_pci_nativeDevices in Hn as (d & Hd & Hname & Hp).
      right. exists a', d. auto.
    + intros [?|(a' & d & Hin & Hre & Hd & Hname & Hp)]; [auto|].
      right. exists a'. split; [done|]. split; [done|].
      apply after_pci_nativeDevices. eauto.
Qed.

Lemma getNativeDevices_elem p l ads x :
  x ∈ _getNativeDevices p l ads
  <-> (exists device, device ∈ l /\ VMkernel_Name device = x
                      /\ pci_native (pciDriverTags_of p) device)
      \/ (exists adapter, adapter ∈ ads /\ HBA_Name adapter = x
                          /\ adapter_native (pciDriverTags_of p) l ads adapter).
Proof.
  unfold _getNativeDevices, adapter_native.
  assert (Hidx := final_index p l ads).
  unfold _getNativeDevices_state in *.
  destruct ads as [|ad ads].
  - rewrite after_pci_nativeDevices. split; [auto|].
    intros [?|(a' & Hin & _)]; [done|]. by apply elem_of_nil in Hin.
  - rewrite adapter_fold_nativeDevices, sbdf_fold_nativeDevices,
      after_pci_nativeDevices.
    rewrite adapter_fold_index in Hidx.
    split.
    + intros [?|(a' & Hin & Hn & Hc)]; [auto|]. right. exists a'.
      split; [done|]. split; [done|].
      destruct Hc as [?|[?|(a & Hre & Ha)]]; [auto|auto|].
      right; right. exists a. split; [done|]. by apply Hidx.
    + intros [?|(a' & Hin & Hn & Hc)]; [auto|]. right. exists a'.
      split; [done|]. split; [done|].
      destruct Hc as [?|[?|(a & Hre & Ha)]]; [auto|auto|].
      right; right. exists a. split; [done|]. by apply Hidx.
Qed.

(** X1. The native set, exactly: a name is in it when it is the name of a
    PCI row with a vmhba/vmnic name whose class has a native class driver
    or whose identity a driver tag matches, or the name of an adapter that
    is a USB adapter, a software adapter, or whose description embeds an
    indexed address. *)
Theorem getNativeDevices_characterised (p : ImageProfile)
    (pciDevList : list PciDevice) (adapterList : list Adapter) (name : string) :
  name ∈ _getNativeDevices p pciDevList adapterList
  <-> (exists device, device ∈ pciDevList /\ VMkernel_Name device = name
                      /\ pci_native (pciDriverTags_of p) device)
      \/ (exists adapter, adapter ∈ adapterList /\ HBA_Name adapter = name
                          /\ adapter_native (pciDriverTags_of p) pciDevList
                               adapterList adapter).
Proof. apply getNativeDevices_elem. Qed.

(** X2. An adapter whose UID starts with [usb.] or whose driver is in
    [SOFTWARE_ADAPTER] is native whatever the profile and the PCI
    inventory are. *)
Theorem usb_and_software_adapters_are_native (p : ImageProfile)
    (pciDevList : list PciDevice) (adapterList : list Adapter) (adapter : Adapter) :
  adapter ∈ adapterList ->
  Regex.usbRegex (UID adapter) = true \/ Driver adapter ∈ SOFTWARE_ADAPTER ->
  HBA_Name adapter ∈ _getNativeDevices p pciDevList adapterList.
Proof.
  intros Hin Hpolicy. apply getNativeDevices_elem. right.
  exists adapter. split; [done|]. split; [done|].
  unfold adapter_native. tauto.
Qed.

Lemma usb_and_software_adapters_are_native_witness :
  Examples.usb_adapter ∈ [Examples.ahci_port; Examples.usb_adapter]
  /\ (Regex.usbRegex (UID Examples.usb_adapter) = true
      \/ Driver Examples.usb_adapter ∈ SOFTWARE_ADAPTER)
  /\ "vmhba33" ∈ _getNativeDevices {| vibs := [] |} []
                   [Examples.ahci_port; Examples.usb_adapter].
Proof.
  assert (H1 : Examples.usb_adapter ∈ [Examples.ahci_port; Examples.usb_adapter])
    by (right; left).
  assert (H2 : Regex.usbRegex (UID Examples.usb_adapter) = true
               \/ Driver Examples.usb_adapter ∈ SOFTWARE_ADAPTER)
    by (left; reflexivity).
  split; [exact H1|]. split; [exact H2|].
  exact (usb_and_software_adapters_are_native {| vibs := [] |} []
           [Examples.ahci_port; Examples.usb_adapter] Examples.usb_adapter H1 H2).
Defined.

(** X3. An adapter whose description embeds the address of a PCI row
    that has a native class driver is native, for every profile. *)
Theorem adapter_inherits_from_class_parent (p : ImageProfile)
    (pciDevList : list PciDevice) (adapterList : list Adapter)
    (device : PciDevice) (adapter : Adapter) :
  device ∈ pciDevList ->
  Regex.deviceNames (VMkernel_Name device) = true ->
  classCode_of device ∈ NATIVE_PCI_CLASS_DRIVER ->
  adapter ∈ adapterList ->
  Regex.sbdfRegex (Description adapter) = Some (Address device) ->
  HBA_Name adapter ∈ _getNativeDevices p pciDevList adapterList.
Proof.
  intros Hdev Hname Hclass Hin Hre. apply getNativeDevices_elem. right.
  exists adapter. split; [done|]. split; [done|].
  right; right. exists (Address device). split; [done|].
  left. exists device. unfold class_native. auto.
Qed.

Lemma adapter_inherits_from_class_parent_witness :
  Examples.ahci_device ∈ [Examples.nic_device; Examples.ahci_device]
  /\ Regex.deviceNames (VMkernel_Name Examples.ahci_device) = true
  /\ classCode_of Examples.ahci_device ∈ NATIVE_PCI_CLASS_DRIVER
  /\ Examples.ahci_port ∈ [Examples.ahci_port; Examples.orphan_adapter]
  /\ Regex.sbdfRegex (Description Examples.ahci_port)
     = Some (Address Examples.ahci_device)
  /\ "vmhba32" ∈ _getNativeDevices {| vibs := [] |}
                   [Examples.nic_device; Examples.ahci_device]
                   [Examples.ahci_port; Examples.orphan_adapter].
Proof.
  assert (H1 : Examples.ahci_device
               ∈ [Examples.nic_device; Examples.ahci_device]) by (right; left).
  assert (H2 : Regex.deviceNames (VMkernel_Name Examples.ahci_device) = true)
    by reflexivity.
  assert (H3 : classCode_of Examples.ahci_device ∈ NATIVE_PCI_CLASS_DRIVER)
    by (vm_compute; left).
  assert (H4 : Examples.ahci_port
               ∈ [Examples.ahci_port; Examples.orphan_adapter]) by left.
  assert (H5 : Regex.sbdfRegex (Description Examples.ahci_port)
               = Some (Address Examples.ahci_device)) by reflexivity.
  split; [exact H1|]. split; [exact H2|]. split; [exact H3|].
  split; [exact H4|]. split; [exact H5|].
  exact (adapter_inherits_from_class_parent {| vibs := [] |} _ _ _ _
           H1 H2 H3 H4 H5).
Defined.

(** X4. An adapter is native when its description embeds the same address
    as the description of an adapter that carries the name of a natively
    driven PCI row. *)
Theorem adapter_inherits_through_alias (p : ImageProfile)
    (pciDevList : list PciDevice) (adapterList : list Adapter)
    (device : PciDevice) (alias adapter : Adapter) :
  device ∈ pciDevList ->
  pci_native (pciDriverTags_of p) device ->
  alias ∈ adapterList ->
  HBA_Name alias = VMkernel_Name device ->
  adapter ∈ adapterList ->
  Regex.sbdfRegex (Description alias) = Regex.sbdfRegex (Description adapter) ->
  Regex.sbdfRegex (Description adapter) <> None ->
  HBA_Name adapter ∈ _getNativeDevices p pciDevList adapterList.
Proof.
  intros Hdev Hnat Halias Hname Hin Hsame Hsome.
  destruct (Regex.sbdfRegex (Description adapter)) as [a|] eqn:Hre; [|done].
  apply getNativeDevices_elem. right.
  exists adapter. split; [done|]. split; [done|].
  right; right. exists a. split; [done|].
  right. exists alias, device. rewrite Hsame. auto.
Qed.

(** X5. When the PCI inventory could not be read (it is empty), exactly
    the USB and software adapters are native, and nothing is native when
    the adapter inventory is empty too. *)
Theorem native_set_without_pci_inventory (p : ImageProfile)
    (adapterList : list Adapter) (name : string) :
  (name ∈ _getNativeDevices p [] adapterList
   <-> exists adapter, adapter ∈ adapterList /\ HBA_Name adapter = name
         /\ (Regex.usbRegex (UID adapter) = true
             \/ Driver adapter ∈ SOFTWARE_ADAPTER))
  /\ _getNativeDevices p [] [] = ∅.
Proof.
  split.
  - rewrite getNativeDevices_elem. split.
    + intros [(d & Hd & _)|(a & Hin & Hn & Hc)]; [by apply elem_of_nil in Hd|].
      exists a. split; [done|]. split; [done|].
      destruct Hc as [?|[?|(s & _ & Hidx)]]; [auto|auto|].
      destruct Hidx as [(d & Hd & _)|(a' & d & _ & _ & Hd & _)];
        by apply elem_of_nil in Hd.
    + intros (a & Hin & Hn & Hc). right. exists a.
      split; [done|]. split; [done|]. unfold adapter_native. tauto.
  - reflexivity.
Qed.

(** X6. The native set depends on the profile only through the set of its
    PCIID tag ids: two profiles with the same ids, in any order and
    multiplicity, give the same set. *)
Theorem native_set_depends_on_tag_set (p p' : ImageProfile)
    (pciDevList : list PciDevice) (adapterList : list Adapter) :
  (forall tag, tag ∈ pciDriverTags_of p <-> tag ∈ pciDriverTags_of p') ->
  _getNativeDevices p pciDevList adapterList
  = _getNativeDevices p' pciDevList adapterList.
Proof.
  intros Htags. apply set_eq. intros x. unfold _getNativeDevices. split.
  - apply (getNativeDevices_state_covers p p'). intros tag. apply Htags.
  - apply (getNativeDevices_state_covers p' p). intros tag. apply Htags.
Qed.

Lemma adapter_inherits_through_alias_witness :
  "vmhba64" ∈ _getNativeDevices ResolverSamples.raid_profile
                [ResolverSamples.raid_device]
                [ResolverSamples.raid_adapter; ResolverSamples.raid_child].
Proof.
  apply (adapter_inherits_through_alias ResolverSamples.raid_profile
           [ResolverSamples.raid_device]
           [ResolverSamples.raid_adapter; ResolverSamples.raid_child]
           ResolverSamples.raid_device ResolverSamples.raid_adapter
           ResolverSamples.raid_child).
  - left.
  - split; [reflexivity|]. right.
    exists "1000005d........010400". split; [vm_compute; left | reflexivity].
  - left.
  - reflexivity.
  - right; left.
  - reflexivity.
  - discriminate.
Defined.

Lemma native_set_depends_on_tag_set_witness :
  _getNativeDevices Examples.ahci_profile [Examples.ahci_device]
    [Examples.ahci_port]
  = _getNativeDevices ResolverSamples.ahci_profile_untagged
      [Examples.ahci_device] [Examples.ahci_port].
Proof.
  apply native_set_depends_on_tag_set.
  intros tag.
  change (pciDriverTags_of ResolverSamples.ahci_profile_untagged)
    with (pciDriverTags_of Examples.ahci_profile).
  reflexivity.
Defined.

(** ** Patterns and identity strings *)

(** *** Strings *)

#[local] Arguments String.append : simpl nomatch.

Lemma string_app_length (a b : string) :
  String.length (a +:+ b) = (String.length a + String.length b)%nat.
Proof. induction a as [|c a IH]; simpl; [done|]. by rewrite IH. Qed.

Lemma string_app_assoc (a b c : string) : (a +:+ b) +:+ c = a +:+ (b +:+ c).
Proof. induction a as [|x a IH]; simpl; [done|]. by rewrite IH. Qed.

Lemma string_app_nil_r (a : string) : a +:+ "" = a.
Proof. induction a as [|x a IH]; simpl; [done|]. by rewrite IH. Qed.

Lemma all_chars_app f (a b : string) :
  Regex.all_chars f (a +:+ b) = Regex.all_chars f a && Regex.all_chars f b.
Proof.
  unfold Regex.all_chars. induction a as [|c a IH]; simpl; [done|].
  rewrite IH. by rewrite andb_assoc.
Qed.

Lemma all_chars_cons f c (s : string) :
  Regex.all_chars f (String c s) = f c && Regex.all_chars f s.
Proof. reflexivity. Qed.

Lemma strip_prefix_Some (p s r : string) :
  PyStr.strip_prefix p s = Some r <-> s = p +:+ r.
Proof.
  revert s. induction p as [|c p IH]; intros s; simpl.
  - split; congruence.
  - destruct s as [|d s]; [split; discriminate|].
    case_bool_decide as Hcd.
    + subst d. rewrite IH. split; congruence.
    + split; [discriminate|]. intros [= ? ?]. done.
Qed.

(** [span] splits the string at the first character that fails [f]. *)
Lemma span_spec f (s a b : string) :
  PyStr.span f s = (a, b)
  <-> s = a +:+ b /\ Regex.all_chars f a = true
      /\ match b with String c _ => f c = false | EmptyString => True end.
Proof.
  revert a b. induction s as [|c s IH]; intros a b; simpl.
  - split.
    + intros [= <- <-]. done.
    + intros (Hs & _ & _). destruct a; [|discriminate]. simpl in Hs. by subst b.
  - destruct (f c) eqn:Hfc.
    + destruct (PyStr.span f s) as [a' b'] eqn:Hspan.
      destruct (proj1 (IH a' b') eq_refl) as (-> & Ha' & Hb').
      split.
      * intros [= <- <-]. rewrite all_chars_cons, Hfc, Ha'. done.
      * intros (Hs & Ha & Hb). destruct a as [|x a].
        -- simpl in Hs. subst b. congruence.
        -- simpl in Hs. injection Hs as <- Hs.
           rewrite all_chars_cons, Hfc in Ha. simpl in Ha.
           assert ((a', b') = (a, b)) as Heq by (apply IH; done).
           by injection Heq as -> ->.
    + split.
      * intros [= <- <-]. done.
      * intros (Hs & Ha & Hb). destruct a as [|x a].
        -- simpl in Hs. by subst b.
        -- simpl in Hs. injection Hs as <- Hs.
           rewrite all_chars_cons, Hfc in Ha. discriminate.
Qed.

Lemma tag_char_not_space c :
  Regex.is_tag_char c = true -> PyStr.is_space c = false.
Proof. destruct c as [[] [] [] [] [] [] [] []]; vm_compute; congruence. Qed.

Lemma space_not_tag_char c :
  PyStr.is_space c = true -> Regex.is_tag_char c = false.
Proof. destruct c as [[] [] [] [] [] [] [] []]; vm_compute; congruence. Qed.

(** X8. The tag pattern accepts exactly the strings made of [PCIID], at
    least one white-space character, an id over [0-9a-z.] and optional
    trailing white space, and returns that id; so the id of every driver
    tag consists of digits, lower-case letters and wildcards only. *)
Theorem pciTagRegex_accepts (tag id : string) :
  Regex.pciTagRegex tag = Some id
  <-> exists ws1 ws2,
        tag = "PCIID" +:+ ws1 +:+ id +:+ ws2
        /\ ws1 <> "" /\ Regex.all_chars PyStr.is_space ws1 = true
        /\ Regex.all_chars Regex.is_tag_char id = true
        /\ Regex.all_chars PyStr.is_space ws2 = true.
Proof.
  unfold Regex.pciTagRegex. split.
  - destruct (PyStr.strip_prefix "PCIID" tag) as [r|] eqn:Hp; [|discriminate].
    apply strip_prefix_Some in Hp. subst tag.
    destruct (PyStr.span PyStr.is_space r) as [ws r1] eqn:H1.
    apply span_spec in H1 as (-> & Hws & _).
    case_bool_decide as Hne; [discriminate|].
    destruct (PyStr.span Regex.is_tag_char r1) as [id' r2] eqn:H2.
    apply span_spec in H2 as (-> & Hid & _).
    destruct (PyStr.span PyStr.is_space r2) as [ws2 r3] eqn:H3.
    apply span_spec in H3 as (-> & Hws2 & _).
    case_bool_decide as He; [|discriminate]. subst r3.
    intros [= <-]. exists ws, ws2. rewrite string_app_nil_r. done.
  - intros (ws1 & ws2 & -> & Hne & Hws1 & Hid & Hws2).
    rewrite (proj2 (strip_prefix_Some "PCIID" _ (ws1 +:+ id +:+ ws2)) eq_refl).
    destruct id as [|c id].
    + (* empty id: the first run of white space takes everything *)
      simpl.
      rewrite (proj2 (span_spec PyStr.is_space (ws1 +:+ ws2) (ws1 +:+ ws2) "")).
      2:{ rewrite string_app_nil_r, all_chars_app, Hws1, Hws2. done. }
      case_bool_decide as He.
      { destruct ws1; [done|discriminate]. }
      done.
    + rewrite all_chars_cons in Hid. apply andb_true_iff in Hid as [Hc Hid].
      rewrite (proj2 (span_spec PyStr.is_space _ ws1 (String c id +:+ ws2))).
      2:{ split; [done|]. split; [done|]. simpl. by apply tag_char_not_space. }
      case_bool_decide; [done|].
      rewrite (proj2 (span_spec Regex.is_tag_char _ (String c id) ws2)).
      2:{ split; [done|]. split; [by rewrite all_chars_cons, Hc, Hid|].
          destruct ws2 as [|x ws2]; [done|].
          rewrite all_chars_cons in Hws2. apply andb_true_iff in Hws2 as [Hx _].
          by apply space_not_tag_char. }
      rewrite (proj2 (span_spec PyStr.is_space ws2 ws2 "")).
      2:{ by rewrite string_app_nil_r. }
      done.
Qed.

(** X9. The address pattern accepts exactly the descriptions that start
    with a parenthesised, non-empty run of [0-9A-Fa-f:.], and returns that
    run. *)
Theorem sbdfRegex_accepts (description sbdf : string) :
  Regex.sbdfRegex description = Some sbdf
  <-> exists rest,
        description = "(" +:+ sbdf +:+ ")" +:+ rest
        /\ sbdf <> "" /\ Regex.all_chars Regex.is_sbdf_char sbdf = true.
Proof.
  unfold Regex.sbdfRegex. split.
  - destruct description as [|c r]; [discriminate|].
    destruct (ascii_dec c "(") as [->|Hc].
    2:{ destruct c as [[] [] [] [] [] [] [] []]; try discriminate. done. }
    destruct (PyStr.span Regex.is_sbdf_char r) as [a r1] eqn:H1.
    apply span_spec in H1 as (-> & Ha & _).
    case_bool_decide as Hne; [discriminate|].
    destruct r1 as [|x r1]; [discriminate|].
    destruct (ascii_dec x ")") as [->|Hx].
    2:{ destruct x as [[] [] [] [] [] [] [] []]; try discriminate. done. }
    intros [= <-]. exists r1. done.
  - intros (rest & -> & Hne & Ha). simpl.
    rewrite (proj2 (span_spec Regex.is_sbdf_char _ sbdf (String ")" rest))).
    2:{ done. }
    case_bool_decide; done.
Qed.

(** *** Driver tags *)

Lemma match_driverTag_prefix (tag hwId : string) :
  Regex.all_chars (fun c => negb (bool_decide (c = "."%char))) tag = true ->
  Regex.match_driverTag tag hwId = true <-> exists rest, hwId = tag +:+ rest.
Proof.
  revert hwId. induction tag as [|p tag IH]; intros hw Hlit; simpl.
  - split; [eauto|done].
  - rewrite all_chars_cons in Hlit. apply andb_true_iff in Hlit as [Hp Hlit].
    apply negb_true_iff, bool_decide_eq_false in Hp.
    destruct hw as [|c hw]; [split; [done|intros [? ?]; done]|].
    unfold Regex.tag_char_matches. rewrite bool_decide_eq_false_2 by done.
    rewrite andb_true_iff, bool_decide_eq_true, IH by done.
    split.
    + intros [-> [rest ->]]. eauto.
    + intros [rest [= -> ->]]. eauto.
Qed.

Lemma match_driverTag_broadens (tag' tag hwId : string) :
  broadens tag' tag = true ->
  no_newline hwId = true ->
  Regex.match_driverTag tag hwId = true ->
  Regex.match_driverTag tag' hwId = true.
Proof.
  revert tag hwId. induction tag' as [|p' tag' IH]; intros [|p tag] hw; simpl;
    try done.
  intros Hb Hnl Hm. apply andb_true_iff in Hb as [Hp Hb].
  destruct hw as [|c hw]; [done|].
  unfold no_newline in Hnl. rewrite all_chars_cons in Hnl.
  apply andb_true_iff in Hnl as [Hc Hnl].
  apply andb_true_iff in Hm as [Hpc Hm].
  apply andb_true_iff. split; [|by apply (IH tag)].
  unfold Regex.tag_char_matches in *.
  apply orb_true_iff in Hp as [Hdot|Heq].
  - apply bool_decide_eq_true in Hdot. subst p'.
    rewrite bool_decide_eq_true_2 by done. done.
  - apply bool_decide_eq_true in Heq. by subst p'.
Qed.

Lemma match_driverTag_wildcards (n : nat) (hwId : string) :
  no_newline hwId = true ->
  Regex.match_driverTag (string_of_list_ascii (replicate n "."%char)) hwId = true
  <-> (n <= String.length hwId)%nat.
Proof.
  revert hwId. induction n as [|n IH]; intros hw Hnl; simpl.
  - split; [lia|done].
  - destruct hw as [|c hw]; simpl; [split; [done|lia]|].
    unfold no_newline in Hnl. rewrite all_chars_cons in Hnl.
    apply andb_true_iff in Hnl as [Hc Hnl].
    unfold Regex.tag_char_matches. rewrite bool_decide_eq_true_2 by done.
    rewrite Hc. simpl. rewrite IH by done. lia.
Qed.

(** *** Hexadecimal formatting *)

Lemma of_pos_chars (p : positive) (rest : string) :
  Regex.all_chars is_hex_digit rest = true ->
  Regex.all_chars is_hex_digit (HexString.Raw.of_pos p rest) = true.
Proof.
  revert p rest. fix IH 1. intros p rest Hrest.
  do 4 try destruct p as [p|p|]; simpl;
    try (apply IH; rewrite all_chars_cons, Hrest; reflexivity);
    rewrite all_chars_cons, Hrest; reflexivity.
Qed.

Lemma hex_digits_chars (z : Z) :
  Regex.all_chars is_hex_digit (PyFmt.hex_digits z) = true.
Proof. destruct z; simpl; [done|by apply of_pos_chars..]. Qed.

Lemma zeros_chars (n : nat) : Regex.all_chars is_hex_digit (PyFmt.zeros n) = true.
Proof. induction n as [|n IH]; simpl; [done|]. by rewrite all_chars_cons, IH. Qed.

Lemma zeros_length (n : nat) : String.length (PyFmt.zeros n) = n.
Proof. induction n as [|n IH]; simpl; [done|]. by rewrite IH. Qed.

Lemma to_N_zeros (n : nat) (s : string) :
  HexString.Raw.to_N (PyFmt.zeros n +:+ s) 0 = HexString.Raw.to_N s 0.
Proof. induction n as [|n IH]; [done|exact IH]. Qed.

Lemma of_pos_length (p : positive) (rest : string) :
  (String.length rest < String.length (HexString.Raw.of_pos p rest))%nat.
Proof.
  revert p rest. fix IH 1. intros p rest.
  do 4 try destruct p as [p|p|]; simpl;
    try (match goal with
         | |- context [HexString.Raw.of_pos ?q (String ?c rest)] =>
             pose proof (IH q (String c rest)) as Hq; simpl in Hq
         end);
    lia.
Qed.

Lemma hex_digits_length (z : Z) : (1 <= String.length (PyFmt.hex_digits z))%nat.
Proof.
  destruct z; simpl; [lia| |];
    match goal with |- context [HexString.Raw.of_pos ?q ""] =>
      pose proof (of_pos_length q "") end; simpl in *; lia.
Qed.

Lemma to_N_hex_digits (z : Z) :
  HexString.Raw.to_N (PyFmt.hex_digits z) 0 = Z.to_N (Z.abs z).
Proof.
  destruct z; simpl; [done| |]; by rewrite HexString.Raw.to_N_of_pos.
Qed.

Lemma hex0_nonneg (width : nat) (z : Z) :
  0 <= z ->
  PyFmt.hex0 width z
  = PyFmt.zeros (width - String.length (PyFmt.hex_digits z)) +:+ PyFmt.hex_digits z.
Proof.
  intros Hz. unfold PyFmt.hex0.
  destruct (Z.ltb_spec z 0) as [?|_]; [lia|]. simpl.
  by rewrite Nat.sub_0_r.
Qed.

Lemma hex0_neg (width : nat) (z : Z) :
  z < 0 ->
  PyFmt.hex0 width z
  = String "-" (PyFmt.zeros (width - 1 - String.length (PyFmt.hex_digits z))
                +:+ PyFmt.hex_digits z).
Proof.
  intros Hz. unfold PyFmt.hex0.
  destruct (Z.ltb_spec z 0) as [_|?]; [|lia]. reflexivity.
Qed.

Lemma hex0_nonneg_chars (width : nat) (z : Z) :
  0 <= z -> Regex.all_chars is_hex_digit (PyFmt.hex0 width z) = true.
Proof.
  intros Hz. rewrite hex0_nonneg by done.
  by rewrite all_chars_app, zeros_chars, hex_digits_chars.
Qed.

Lemma hex_value_hex_digits_string (s : string) :
  Regex.all_chars is_hex_digit s = true ->
  hex_value s = Z.of_N (HexString.Raw.to_N s 0).
Proof.
  destruct s as [|c s]; [done|].
  rewrite all_chars_cons. intros [Hc _]%andb_true_iff.
  unfold hex_value.
  destruct (ascii_dec c "-") as [->|Hne]; [done|].
  destruct c as [[] [] [] [] [] [] [] []]; try reflexivity. done.
Qed.

Lemma hex0_facts (width : nat) (z : Z) :
  hex_value (PyFmt.hex0 width z) = z
  /\ (width <= String.length (PyFmt.hex0 width z))%nat
  /\ (0 <= z -> Regex.all_chars is_hex_digit (PyFmt.hex0 width z) = true).
Proof.
  pose proof (hex_digits_length z) as Hlen.
  destruct (Z.lt_ge_cases z 0) as [Hz|Hz].
  - rewrite hex0_neg by done. split; [|split].
    + unfold hex_value. rewrite to_N_zeros, to_N_hex_digits. lia.
    + simpl. rewrite string_app_length, zeros_length. lia.
    + lia.
  - split; [|split].
    + rewrite hex_value_hex_digits_string by (by apply hex0_nonneg_chars).
      rewrite hex0_nonneg, to_N_zeros, to_N_hex_digits by done. lia.
    + rewrite hex0_nonneg, string_app_length, zeros_length by done. lia.
    + intros _. by apply hex0_nonneg_chars.
Qed.

(** X11. The zero-padded hexadecimal rendering of an integer denotes that
    integer again, is at least as wide as asked for, and consists of
    lower-case hexadecimal digits when the integer is not negative. *)
Theorem hex0_round_trip (width : nat) (z : Z) :
  hex_value (PyFmt.hex0 width z) = z
  /\ (width <= String.length (PyFmt.hex0 width z))%nat
  /\ (0 <= z -> Regex.all_chars is_hex_digit (PyFmt.hex0 width z) = true).
Proof. apply hex0_facts. Qed.

Lemma all_chars_impl (f g : ascii -> bool) (s : string) :
  (forall c, f c = true -> g c = true) ->
  Regex.all_chars f s = true -> Regex.all_chars g s = true.
Proof.
  intros Hfg. induction s as [|c s IH]; [done|].
  rewrite !all_chars_cons. intros [Hc Hs]%andb_true_iff.
  by rewrite (Hfg c Hc), IH.
Qed.

Lemma hex0_no_newline (width : nat) (z : Z) :
  no_newline (PyFmt.hex0 width z) = true.
Proof.
  assert (Hd : forall s, Regex.all_chars is_hex_digit s = true ->
                         no_newline s = true).
  { intros s. apply all_chars_impl. intros c.
    destruct c as [[] [] [] [] [] [] [] []]; vm_compute; congruence. }
  destruct (Z.lt_ge_cases z 0) as [Hz|Hz].
  - rewrite hex0_neg by done. unfold no_newline.
    rewrite all_chars_cons. apply andb_true_iff. split; [done|].
    apply Hd. by rewrite all_chars_app, zeros_chars, hex_digits_chars.
  - apply Hd. by apply hex0_nonneg_chars.
Qed.

Lemma hwId_no_newline (device : PciDevice) : no_newline (hwId_of device) = true.
Proof.
  unfold hwId_of, classCode_of, no_newline.
  rewrite !all_chars_app. fold (no_newline (PyFmt.hex0 4 (Vendor_ID device))).
  repeat (apply andb_true_iff; split); apply hex0_no_newline.
Qed.

Lemma string_app_inv_length (a b a' b' : string) :
  a +:+ b = a' +:+ b' -> String.length a = String.length a' ->
  a = a' /\ b = b'.
Proof.
  revert a'. induction a as [|c a IH]; intros [|c' a']; simpl; try done.
  intros [= -> Hab] [= Hlen]. destruct (IH a' Hab Hlen) as [-> ->]. done.
Qed.

Lemma classCode_split (device : PciDevice) (cls pi : string) :
  String.length cls = 4%nat -> String.length pi = 2%nat ->
  classCode_of device = cls +:+ pi ->
  PyFmt.hex0 4 (Device_Class device) = cls
  /\ PyFmt.hex0 2 (Programming_Interface device) = pi.
Proof.
  intros Hc Hp Heq. unfold classCode_of in Heq.
  pose proof (proj1 (proj2 (hex0_facts 4 (Device_Class device)))) as H4.
  pose proof (proj1 (proj2 (hex0_facts 2 (Programming_Interface device)))) as H2.
  assert (Hlen := f_equal String.length Heq).
  rewrite !string_app_length in Hlen.
  apply string_app_inv_length; [done|lia].
Qed.

(** X12. The class code of a row is in [NATIVE_PCI_CLASS_DRIVER] exactly
    when its device class is 0x0106 with programming interface 0x01 (AHCI)
    or 0x0108 with programming interface 0x02 (NVMe). *)
Theorem native_class_codes (device : PciDevice) :
  classCode_of device ∈ NATIVE_PCI_CLASS_DRIVER
  <-> (Device_Class device = 262 /\ Programming_Interface device = 1)
      \/ (Device_Class device = 264 /\ Programming_Interface device = 2).
Proof.
  unfold NATIVE_PCI_CLASS_DRIVER. split.
  - intros Hin.
    apply elem_of_cons in Hin as [Heq|Hin];
      [|apply elem_of_cons in Hin as [Heq|Hin]; [|by apply elem_of_nil in Hin]].
    + apply (classCode_split device "0106" "01") in Heq as [Hc Hp]; [|done..].
      left. split.
      * rewrite <- (proj1 (hex0_facts 4 (Device_Class device))), Hc. done.
      * rewrite <- (proj1 (hex0_facts 2 (Programming_Interface device))), Hp. done.
    + apply (classCode_split device "0108" "02") in Heq as [Hc Hp]; [|done..].
      right. split.
      * rewrite <- (proj1 (hex0_facts 4 (Device_Class device))), Hc. done.
      * rewrite <- (proj1 (hex0_facts 2 (Programming_Interface device))), Hp. done.
  - unfold classCode_of. intros [[-> ->]|[-> ->]]; vm_compute.
    + left.
    + right; left.
Qed.

Lemma pci_native_broadens (tags tags' : list string) (device : PciDevice) :
  (forall tag, tag ∈ tags ->
     exists tag', tag' ∈ tags' /\ broadens tag' tag = true) ->
  pci_native tags device -> pci_native tags' device.
Proof.
  intros Hb [Hname [Hclass|(tag & Hin & Hm)]]; split; auto.
  right. destruct (Hb tag Hin) as (tag' & Hin' & Hbr).
  exists tag'. split; [done|].
  eapply match_driverTag_broadens; eauto using hwId_no_newline.
Qed.

(** X7. Replacing tags by broader ones never shrinks the native set: when
    every tag id of [p] has a counterpart in [p'] that differs only by
    wildcards, the native set for [p'] includes the one for [p]. *)
Theorem broader_tags_never_shrink (p p' : ImageProfile)
    (pciDevList : list PciDevice) (adapterList : list Adapter) :
  (forall tag, tag ∈ pciDriverTags_of p ->
     exists tag', tag' ∈ pciDriverTags_of p' /\ broadens tag' tag = true) ->
  _getNativeDevices p pciDevList adapterList
  ⊆ _getNativeDevices p' pciDevList adapterList.
Proof.
  intros Hb x. rewrite !getNativeDevices_elem.
  intros [(d & Hd & Hn & Hp)|(a & Ha & Hn & Hc)].
  - left. exists d. eauto using pci_native_broadens.
  - right. exists a. split; [done|]. split; [done|].
    destruct Hc as [?|[?|(s & Hre & Hidx)]]; [by left|by right; left|].
    right; right. exists s. split; [done|].
    destruct Hidx as [?|(a' & d & ? & ? & ? & ? & Hp)]; [by left|].
    right. exists a', d. eauto 10 using pci_native_broadens.
Qed.

Lemma of_pos_digits (p : positive) (rest : string) :
  (4 * String.length (HexString.Raw.of_pos p rest)
   <= Pos.size_nat p + 3 + 4 * String.length rest)%nat.
Proof.
  revert p rest. fix IH 1. intros p rest.
  do 4 try destruct p as [p|p|]; simpl;
    try (match goal with
         | |- context [HexString.Raw.of_pos ?q (String ?c rest)] =>
             pose proof (IH q (String c rest)) as Hq; simpl in Hq
         end);
    lia.
Qed.

Lemma size_nat_bound (p : positive) (n : nat) :
  Zpos p < 2 ^ Z.of_nat n -> (Pos.size_nat p <= n)%nat.
Proof.
  revert n. induction p as [p IH|p IH|]; intros [|n]; simpl;
    rewrite ?Nat2Z.inj_succ, ?Z.pow_succ_r by lia; try lia.
  - intros H. specialize (IH n). lia.
  - intros H. specialize (IH n). lia.
Qed.

Lemma hex0_width (w : nat) (z : Z) :
  0 <= z < 2 ^ Z.of_nat (4 * w) -> (1 <= w)%nat ->
  String.length (PyFmt.hex0 w z) = w.
Proof.
  intros [Hz Hlt] Hw. rewrite hex0_nonneg, string_app_length, zeros_length by done.
  assert (String.length (PyFmt.hex_digits z) <= w)%nat; [|lia].
  destruct z as [|p|p]; simpl; [lia| |lia].
  pose proof (of_pos_digits p "") as Hd. simpl in Hd.
  pose proof (size_nat_bound p (4 * w) Hlt). lia.
Qed.

(** X13. For a row with 16-bit ids and class and an 8-bit programming
    interface, the identity string has exactly 22 characters, all of them
    lower-case hexadecimal digits, and the class code has 6: a position of
    a driver tag always faces the same field. *)
Theorem hwId_fixed_width (device : PciDevice) :
  pci_ranges device ->
  String.length (hwId_of device) = 22%nat
  /\ Regex.all_chars is_hex_digit (hwId_of device) = true
  /\ String.length (classCode_of device) = 6%nat.
Proof.
  intros (Hv & Hd & Hsv & Hsd & Hc & Hp).
  unfold hwId_of, classCode_of.
  rewrite !string_app_length, !all_chars_app.
  rewrite !(hex0_width 4), (hex0_width 2) by (simpl; lia).
  rewrite !hex0_nonneg_chars by lia. done.
Qed.

Lemma hwId_fixed_width_witness :
  pci_ranges Examples.nic_device
  /\ String.length (hwId_of Examples.nic_device) = 22%nat.
Proof.
  assert (H : pci_ranges Examples.nic_device) by (vm_compute; intuition discriminate).
  split; [exact H|]. exact (proj1 (hwId_fixed_width Examples.nic_device H)).
Defined.

(** X10. How a driver tag id, a string over [0-9a-z.] as [pciTagRegex]
    returns it, matches an identity string: a tag id without wildcards
    matches exactly the strings it is a prefix of; a tag id of [n]
    wildcards matches exactly the strings of at least [n] characters; the
    empty tag id matches every string. *)
Theorem driverTag_matching :
  (forall tag hwId : string,
      Regex.all_chars Regex.is_tag_char tag = true ->
      Regex.all_chars (fun c => negb (bool_decide (c = "."%char))) tag = true ->
      (Regex.match_driverTag tag hwId = true <-> exists rest, hwId = tag +:+ rest))
  /\ (forall (n : nat) (hwId : string),
         no_newline hwId = true ->
         (Regex.match_driverTag (string_of_list_ascii (replicate n "."%char)) hwId
          = true
          <-> (n <= String.length hwId)%nat))
  /\ (forall hwId : string, Regex.match_driverTag "" hwId = true).
Proof.
  split; [intros tag hwId _; apply match_driverTag_prefix|].
  split; [exact match_driverTag_wildcards|]. reflexivity.
Qed.

Lemma broader_tags_never_shrink_witness :
  _getNativeDevices ResolverSamples.raid_exact_profile
    [ResolverSamples.raid_device] [ResolverSamples.raid_adapter]
  ⊆ _getNativeDevices ResolverSamples.raid_profile
      [ResolverSamples.raid_device] [ResolverSamples.raid_adapter].
Proof.
  apply broader_tags_never_shrink.
  intros tag Hin.
  change (pciDriverTags_of ResolverSamples.raid_exact_profile)
    with ["1000005d10281f30010400"] in Hin.
  apply list_elem_of_singleton in Hin. subst tag.
  exists "1000005d........010400". split; [|reflexivity].
  change (pciDriverTags_of ResolverSamples.raid_profile)
    with ["1000005d........010400"]. left.
Defined.

(** ** The checks and the entry points *)

(** *** Single bits *)

Lemma land_pow2_truthy (x : Z) (n : Z) :
  0 <= n -> int_truthy (Z.land x (2 ^ n)) = Z.testbit x n.
Proof.
  intros Hn. unfold int_truthy.
  destruct (Z.testbit x n) eqn:Hbit.
  - apply negb_true_iff, Z.eqb_neq. intros H0.
    assert (Z.testbit (Z.land x (2 ^ n)) n = true) as Ht.
    { rewrite Z.land_spec, Hbit, Z.pow2_bits_true by done. done. }
    rewrite H0, Z.bits_0 in Ht. done.
  - apply negb_false_iff, Z.eqb_eq, Z.bits_inj'. intros m Hm.
    rewrite Z.land_spec, Z.bits_0.
    destruct (Z.eq_dec n m) as [<-|Hne].
    + by rewrite Hbit.
    + rewrite (Z.pow2_bits_false n m) by done. apply andb_false_r.
Qed.

Lemma int_of_bool_eqb (b : bool) : (int_of_bool b =? 1) = b.
Proof. by destruct b. Qed.

Lemma Result_init_eq_Z (name : string) (found expected : Z) msg mismatch :
  Result_init name [found] [expected] (operator_eq Z.eqb) msg mismatch
  = inr {| name := name; found := [found]; expected := [expected];
           errorMsg := msg;
           code := if found =? expected then SUCCESS
                   else match mismatch with Some c => c | None => ERROR end |}.
Proof.
  unfold Result_init, operator_eq, bind, ret. simpl.
  by rewrite andb_true_r.
Qed.

Lemma Result_init_eq_bool (name : string) (found expected : bool) msg mismatch :
  Result_init name [found] [expected] (operator_eq Bool.eqb) msg mismatch
  = inr {| name := name; found := [found]; expected := [expected];
           errorMsg := msg;
           code := if Bool.eqb found expected then SUCCESS
                   else match mismatch with Some c => c | None => ERROR end |}.
Proof.
  unfold Result_init, operator_eq, bind, ret. simpl.
  by rewrite andb_true_r.
Qed.

(** X14. The 64-bit check passes exactly when, in the feature bits it
    reads, bit 29 of EDX (long mode) is set and either bit 0 of ECX
    (LAHF/SAHF) is set or the CPU is an AMD of family 0xf with a non-zero
    extended model; otherwise it gives ERROR.  It never raises. *)
Theorem checkLAHFSAHF64bitFeatures_bits (host : Host)
    (regs : exc (list CpuidReg)) :
  exists r, checkLAHFSAHF64bitFeatures host regs = inr r
    /\ (code r = SUCCESS <->
        Z.testbit (snd (_getCpuExtendedFeatureBits regs)) 29 = true
        /\ (Z.testbit (fst (_getCpuExtendedFeatureBits regs)) 0 = true
            \/ (GetVendorName host = "AuthenticAMD" /\ GetFamily host = 15
                /\ Z.land (GetModel host) 240 > 0)))
    /\ (code r <> SUCCESS -> code r = ERROR).
Proof.
  unfold checkLAHFSAHF64bitFeatures. rewrite Result_init_eq_Z.
  eexists. split; [reflexivity|]. cbn [code].
  unfold _parseLAHFSAHF64bitFeatures.
  destruct (_getCpuExtendedFeatureBits regs) as [ecx edx]. cbn [fst snd].
  rewrite int_of_bool_eqb.
  change EDX_LONGMODE_MASK with (2 ^ 29). change ECX_LAHF64_MASK with (2 ^ 0).
  rewrite !land_pow2_truthy by lia.
  assert (Hk8 : (if PyStr.eqb (GetVendorName host) "AuthenticAMD"
                 then (GetFamily host =? 15) && (Z.land (GetModel host) 240 >? 0)
                 else false) = true
                <-> GetVendorName host = "AuthenticAMD" /\ GetFamily host = 15
                    /\ Z.land (GetModel host) 240 > 0).
  { destruct (PyStr.eqb (GetVendorName host) "AuthenticAMD") eqn:Hamd.
    - apply PyStr_eqb_eq in Hamd.
      rewrite andb_true_iff, Z.eqb_eq, Z.gtb_lt. intuition lia.
    - apply PyStr_eqb_neq in Hamd. intuition discriminate. }
  destruct (PyStr.eqb (GetVendorName host) "AuthenticAMD");
    destruct (Z.testbit edx 29), (Z.testbit ecx 0);
    cbn [negb orb andb] in *;
    try destruct ((GetFamily host =? 15) && (Z.land (GetModel host) 240 >? 0));
    cbn [negb orb andb] in *;
    (split; [|intros H; try done]);
    intuition (try discriminate; try congruence).
Qed.

(** X15. The NX check passes exactly when bit 20 of EDX in the feature
    bits is set, and gives ERROR otherwise; when the cpuid rows cannot be
    read or have no row of level 0x80000001 the feature bits are zero and
    both CPU feature checks give ERROR. *)
Theorem checkNXbitCpuFeature_bits :
  (forall regs : exc (list CpuidReg),
      exists r, checkNXbitCpuFeature regs = inr r
        /\ (code r = SUCCESS <->
            Z.testbit (snd (_getCpuExtendedFeatureBits regs)) 20 = true)
        /\ (code r <> SUCCESS -> code r = ERROR))
  /\ (forall (host : Host) (regs : exc (list CpuidReg)),
         (match regs with
          | inl _ => True
          | inr rows => forall reg, In reg rows -> Level reg <> 2147483649
          end) ->
         _getCpuExtendedFeatureBits regs = (0, 0)
         /\ (exists r, checkNXbitCpuFeature regs = inr r /\ code r = ERROR)
         /\ (exists r, checkLAHFSAHF64bitFeatures host regs = inr r
                       /\ code r = ERROR)).
Proof.
  split.
  - intros regs. unfold checkNXbitCpuFeature. rewrite Result_init_eq_Z.
    eexists. split; [reflexivity|]. cbn [code].
    unfold _parseNXbitCpuFeature.
    destruct (_getCpuExtendedFeatureBits regs) as [ecx edx]. cbn [fst snd].
    rewrite int_of_bool_eqb.
    change EDX_NX_MASK with (2 ^ 20). rewrite land_pow2_truthy by lia.
    destruct (Z.testbit edx 20); cbn; (split; [split|]); intros; congruence.
  - intros host regs Hnone.
    assert (Hbits : _getCpuExtendedFeatureBits regs = (0, 0)).
    { destruct regs as [e|rows]; [done|]. simpl.
      destruct (List.find _ rows) as [reg|] eqn:Hfind; [|done].
      apply find_some in Hfind as [Hin Hlevel].
      apply Z.eqb_eq in Hlevel. by destruct (Hnone reg Hin). }
    split; [done|]. split.
    + unfold checkNXbitCpuFeature, _parseNXbitCpuFeature.
      rewrite Result_init_eq_Z, Hbits. eexists. split; reflexivity.
    + unfold checkLAHFSAHF64bitFeatures, _parseLAHFSAHF64bitFeatures.
      rewrite Result_init_eq_Z, Hbits. eexists. split; reflexivity.
Qed.

(** *** CPU support *)

Lemma cpuModelCode_error (host : Host) :
  snd (cpuModelCode (GetVendorName host) (GetFamily host) (GetModel host)) = ERROR
  <-> unsupported_cpu host.
Proof.
  unfold cpuModelCode, unsupported_cpu.
  destruct (PyStr.eqb (GetVendorName host) "GenuineIntel") eqn:Hi.
  - apply PyStr_eqb_eq in Hi. rewrite Hi.
    destruct (Z.eqb_spec (GetFamily host) 6) as [Hf|Hf];
    destruct (Z.eqb_spec (GetModel host) 42) as [Hm1|Hm1];
    destruct (Z.eqb_spec (GetModel host) 45) as [Hm2|Hm2];
    destruct (Z.eqb_spec (GetModel host) 58) as [Hm3|Hm3];
    destruct (Z.eqb_spec (GetFamily host) 15) as [Hf2|Hf2];
    destruct (Z.leb_spec (GetModel host) 54) as [Hm4|Hm4];
    simpl;
      (split;
       [ intros H; first [discriminate H | left; split; [reflexivity|lia]]
       | intros [(_ & H1 & H2)|(H & _)];
         [first [reflexivity | exfalso; lia] | discriminate H] ]).
  - apply PyStr_eqb_neq in Hi.
    destruct (PyStr.eqb (GetVendorName host) "AuthenticAMD") eqn:Ha.
    + apply PyStr_eqb_eq in Ha.
      destruct (Z.ltb_spec (GetFamily host) 21) as [Hf|Hf];
      destruct (Z.eqb_spec (GetFamily host) 21) as [Hf2|Hf2];
      destruct (Z.leb_spec (GetModel host) 1) as [Hm|Hm];
      simpl; split; try discriminate; try tauto;
      try (intros [(? & _)|(_ & ?)]; first [congruence | lia]).
    + apply PyStr_eqb_neq in Ha. simpl. split; [discriminate|].
      intros [(? & _)|(? & _)]; congruence.
Qed.

(** X16. The CPU-support check never raises.  It gives ERROR exactly for
    an unsupported CPU booted without [allowLegacyCPU]; with
    [allowLegacyCPU] an unsupported CPU gives WARNING in every environment
    (VUM included); and a CPU that is neither unsupported nor deprecated
    gives SUCCESS whatever the flag and the environment are. *)
Theorem checkCpuSupported_severity (host : Host) :
  exists r, checkCpuSupported host = inr r
    /\ (code r = ERROR <-> unsupported_cpu host /\ allowLegacyCPU host = false)
    /\ (unsupported_cpu host -> allowLegacyCPU host = true -> code r = WARNING)
    /\ (~ unsupported_cpu host -> ~ deprecated_cpu host -> code r = SUCCESS).
Proof.
  pose proof (checkCpuSupported_run host) as Hrun.
  pose proof (cpuModelCode_error host) as Herr.
  pose proof (cpuModelCode_warning host) as Hwarn.
  destruct (cpuModelCode _ _ _) as [msg c]. cbn [snd] in *.
  eexists. split; [exact Hrun|]. cbn [code].
  destruct c, (vumEnvironment host), (allowLegacyCPU host); cbn;
    intuition (try discriminate; try congruence).
Qed.

(** *** Checks that only warn *)

(** X17. The hardware-virtualization, VMFS-version and unsupported-devices
    checks never raise and never give ERROR: the first warns exactly when
    the reported support is not 3, the second exactly when some file
    system has major version 3, the third exactly when a probed device is
    reported. *)
Theorem advisory_checks_never_block (denylist : list PciInfo) (host : Host) :
  (exists r, checkHardwareVirtualization host = inr r
     /\ (code r = WARNING <-> GetHVSupport host <> 3)
     /\ (code r = SUCCESS <-> GetHVSupport host = 3))
  /\ (exists r, checkVMFSVersion host = inr r
        /\ (code r = WARNING <-> In 3 (GetVmfsMajorVersions host))
        /\ (code r = SUCCESS <-> ~ In 3 (GetVmfsMajorVersions host)))
  /\ (exists r, checkUnsupportedDevices denylist host = inr r
        /\ (code r = WARNING <-> found r <> [])
        /\ (code r = SUCCESS <-> found r = [])).
Proof.
  split; [|split].
  - unfold checkHardwareVirtualization. rewrite Result_init_eq_Z.
    eexists. split; [reflexivity|]. cbn [code]. unfold HV_ENABLED.
    destruct (Z.eqb_spec (GetHVSupport host) 3); intuition congruence.
  - unfold checkVMFSVersion. rewrite Result_init_eq_bool.
    eexists. split; [reflexivity|]. cbn [code].
    destruct (existsb _ _) eqn:Hex; cbn.
    + apply existsb_exists in Hex as (v & Hin & Hv). apply Z.eqb_eq in Hv.
      subst v. intuition congruence.
    + assert (~ In 3 (GetVmfsMajorVersions host)).
      { intros Hin. apply not_true_iff_false in Hex. apply Hex.
        apply existsb_exists. exists 3. split; [done|by apply Z.eqb_eq]. }
      intuition congruence.
  - unfold checkUnsupportedDevices, Result_init, operator_eq, bind, ret.
    eexists. split; [reflexivity|]. cbn [code found].
    destruct (unsupported_found _ _); cbn; intuition congruence.
Qed.

(** X18. For the devices the host reports, the unsupported-devices check
    finds exactly those that equal a denylist entry under [PciInfo.__eq__],
    in probing order: every probed identity has a subsystem, so the
    refinement for identities without one never applies. *)
Theorem checkUnsupportedDevices_found (denylist : list PciInfo) (host : Host) :
  exists r, checkUnsupportedDevices denylist host = inr r
    /\ found r
       = List.filter (fun device => PciInfo_in device denylist)
           (_parsePciInfo (GetAllPciDevices host))
    /\ length (_parsePciInfo (GetAllPciDevices host))
       = length (GetAllPciDevices host).
Proof.
  unfold checkUnsupportedDevices, Result_init, operator_eq, bind, ret.
  eexists. split; [reflexivity|]. cbn [found]. split.
  - rewrite unsupported_found_filter. apply filter_ext_in.
    intros device Hin. unfold flagged.
    rewrite (probed_devices_have_subsystem _ _ Hin). cbn.
    apply andb_true_r.
  - unfold _parsePciInfo. rewrite parsePciInfo_fold. cbn.
    apply length_map.
Qed.

(** *** Device identities as a relation *)

(** X19. [PciInfo.__eq__] is reflexive and symmetric but not transitive:
    an identity without subsystem equals two identities that differ in
    their subsystems.  [PciInfo.__ne__] is symmetric, false on equal
    fields, and true whenever [__eq__] is false. *)
Theorem PciInfo_eq_not_an_equivalence :
  (forall A, PciInfo_eq A A = true)
  /\ (forall A B, PciInfo_eq A B = PciInfo_eq B A)
  /\ (exists A B C, PciInfo_eq A B = true /\ PciInfo_eq B C = true
                    /\ PciInfo_eq A C = false)
  /\ (forall A B, PciInfo_ne A B = PciInfo_ne B A)
  /\ (forall A, PciInfo_ne A A = false)
  /\ (forall A B, PciInfo_eq A B = false -> PciInfo_ne A B = true).
Proof.
  split; [|split; [|split; [|split; [|split]]]].
  - intros A. apply PciInfo_eq_true. auto.
  - apply PciInfo_eq_sym.
  - exists (PciInfo_init "1028" "0002" (Some "1028:0002") ""),
           (PciInfo_init "1028" "0002" None ""),
           (PciInfo_init "1028" "0002" (Some "1028:00d1") "").
    repeat split.
  - intros A B. apply eq_true_iff_eq. rewrite !PciInfo_ne_true.
    intuition congruence.
  - intros A. apply not_true_iff_false. rewrite PciInfo_ne_true. tauto.
  - intros A B Hne. apply not_true_iff_false in Hne.
    rewrite PciInfo_eq_true in Hne. apply PciInfo_ne_true.
    destruct (decide (vendorId A = vendorId B)); [|tauto].
    destruct (decide (deviceId A = deviceId B)); [|tauto].
    destruct (decide (subsystem A = subsystem B)); [|tauto].
    tauto.
Qed.

(** *** The order on versions *)

Lemma lex_lt_irrefl (a : list Z) : ~ lex_lt a a.
Proof.
  induction a as [|x a IH]; inversion 1; subst; [lia|by apply IH].
Qed.

Lemma lex_lt_trans (a b c : list Z) : lex_lt a b -> lex_lt b c -> lex_lt a c.
Proof.
  intros Hab. revert c. induction Hab as [y b|x y a b Hxy|x a b Hab IH];
    intros c Hbc; inversion Hbc; subst.
  - constructor.
  - constructor.
  - apply lex_head. lia.
  - by apply lex_head.
  - by apply lex_head.
  - apply lex_tail. by apply IH.
Qed.

Lemma lex_lt_trichotomy (a b : list Z) : lex_lt a b \/ a = b \/ lex_lt b a.
Proof.
  revert b. induction a as [|x a IH]; intros [|y b].
  - auto.
  - left. constructor.
  - right; right. constructor.
  - destruct (Z.lt_trichotomy x y) as [?|[->|?]].
    + left. by apply lex_head.
    + destruct (IH b) as [?|[->|?]].
      * left. by apply lex_tail.
      * auto.
      * right; right. by apply lex_tail.
    + right; right. by apply lex_head.
Qed.

Lemma not_lex_lt (a b : list Z) : ~ lex_lt a b <-> (b = a \/ lex_lt b a).
Proof.
  split.
  - intros Hn. destruct (lex_lt_trichotomy a b) as [?|[->|?]]; [done|auto..].
  - intros [->|Hba] Hab; [by apply (lex_lt_irrefl a)|].
    apply (lex_lt_irrefl a). by apply (lex_lt_trans a b a).
Qed.

(** X20. The upgrade-path comparator accepts exactly when the installed
    version lies between 6.5 and the new version in the lexicographic
    order (ends included); so whatever it accepts targets at least 6.5,
    and an accepted installed version stays accepted for any newer
    target. *)
Theorem upgradePathComparator_interval (newVersion installedVersion : list Z) :
  (upgradePathComparator newVersion installedVersion = true
   <-> ([6; 5] = installedVersion \/ lex_lt [6; 5] installedVersion)
       /\ (installedVersion = newVersion \/ lex_lt installedVersion newVersion))
  /\ (upgradePathComparator newVersion installedVersion = true ->
      [6; 5] = newVersion \/ lex_lt [6; 5] newVersion)
  /\ (forall newer,
        upgradePathComparator newVersion installedVersion = true ->
        lex_lt newVersion newer ->
        upgradePathComparator newer installedVersion = true).
Proof.
  assert (Hiff : forall n i,
    upgradePathComparator n i = true
    <-> ([6; 5] = i \/ lex_lt [6; 5] i) /\ (i = n \/ lex_lt i n)).
  { intros n i. rewrite <- !not_lex_lt. unfold upgradePathComparator.
    destruct i as [|v i].
    - split; [done|]. intros [H _]. destruct H. constructor.
    - destruct (list_lt n (v :: i)) eqn:H1.
      + apply list_lt_spec in H1. split; [done|]. tauto.
      + apply list_lt_false in H1.
        destruct (list_lt (v :: i) [6; 5]) eqn:H2.
        * apply list_lt_spec in H2. split; [done|]. tauto.
        * apply list_lt_false in H2. tauto. }
  split; [apply Hiff|]. split.
  - intros [H65 Hin]%Hiff.
    destruct H65 as [<-|H65], Hin as [<-|Hin]; auto.
    right. by apply (lex_lt_trans _ installedVersion).
  - intros newer [H65 Hin]%Hiff Hnewer. apply Hiff. split; [done|].
    right. destruct Hin as [->|Hin]; [done|].
    by apply (lex_lt_trans _ newVersion).
Qed.

(** *** Image size *)

Lemma calcImageSize_eq (TYPE_BOOT : string) (p : ImageProfile) :
  _calcImageSize TYPE_BOOT p
  = sum_sizes (all_payloads p)
    + sum_sizes (boot_payloads TYPE_BOOT (all_payloads p)) + 10 * SIZE_MiB.
Proof.
  unfold _calcImageSize, all_payloads. rewrite calc_vibs_fold. lia.
Qed.

Lemma sum_sizes_nonneg (l : list Payload) :
  (forall payload, In payload l -> 0 <= size payload) -> 0 <= sum_sizes l.
Proof.
  unfold sum_sizes. induction l as [|p l IH]; simpl; intros H; [lia|].
  pose proof (H p (or_introl eq_refl)). 
  assert (0 <= fold_right Z.add 0 (map size l)) by (apply IH; auto). lia.
Qed.

Lemma sum_sizes_perm (l l' : list Payload) :
  Permutation l l' -> sum_sizes l = sum_sizes l'.
Proof.
  unfold sum_sizes. induction 1; simpl; lia.
Qed.

(** X21. The image size is at least 10 MiB when no payload has a negative
    size; adding a unit under a new id adds the sizes of its payloads, the
    boot ones twice; and the size does not depend on the order of the
    units in the profile. *)
Theorem calcImageSize_composition (TYPE_BOOT : string) (p : ImageProfile) :
  ((forall payload, In payload (all_payloads p) -> 0 <= size payload) ->
   10 * SIZE_MiB <= _calcImageSize TYPE_BOOT p)
  /\ (forall vid vib,
        vid ∉ dict_keys (vibs p) ->
        _calcImageSize TYPE_BOOT (AddVib vid vib p)
        = _calcImageSize TYPE_BOOT p + sum_sizes (payloads vib)
          + sum_sizes (boot_payloads TYPE_BOOT (payloads vib)))
  /\ (forall p', Permutation (vibs p) (vibs p') ->
        _calcImageSize TYPE_BOOT p' = _calcImageSize TYPE_BOOT p).
Proof.
  split; [|split].
  - intros Hnn. rewrite calcImageSize_eq.
    pose proof (sum_sizes_nonneg _ Hnn).
    assert (0 <= sum_sizes (boot_payloads TYPE_BOOT (all_payloads p))).
    { apply sum_sizes_nonneg. intros payload Hin. apply Hnn.
      unfold boot_payloads in Hin. apply list_elem_of_In in Hin.
      apply list_elem_of_In. by apply list_elem_of_filter in Hin as [_ ?]. }
    lia.
  - intros vid vib Hfresh. rewrite !calcImageSize_eq.
    unfold all_payloads, AddVib; cbn [vibs].
    rewrite dict_set_fresh by done. unfold dict_values.
    rewrite map_app, flat_map_app, boot_payloads_app, !sum_sizes_app.
    cbn [map flat_map snd]. rewrite !app_nil_r. lia.
  - intros p' Hperm. rewrite !calcImageSize_eq.
    assert (Permutation (all_payloads p) (all_payloads p')) as Hall.
    { unfold all_payloads, dict_values.
      by apply Permutation_flat_map, Permutation_map. }
    rewrite (sum_sizes_perm _ _ Hall).
    rewrite (sum_sizes_perm (boot_payloads TYPE_BOOT (all_payloads p))
               (boot_payloads TYPE_BOOT (all_payloads p'))); [lia|].
    unfold boot_payloads. by rewrite Hall.
Qed.

(** *** The boot device and the staging area *)

(** X22. The bootbank check passes exactly when the target image is not
    native-only, or the host boots from PXE, or the adapter of the first
    storage path of the boot disk is in the native set; it gives ERROR
    otherwise, also when the adapter cannot be determined.  In particular
    it passes when that adapter's description embeds the address of a PCI
    row with a native class driver. *)
Theorem checkBootbankDeviceIsNative_rule :
  (forall (nativeDriverOnly IsPxeBooting : bool) (paths : exc (list string))
          (nativeDevices : gset string),
      exists r,
        checkBootbankDeviceIsNative nativeDriverOnly IsPxeBooting paths
          nativeDevices = inr r
        /\ (code r = SUCCESS <->
            nativeDriverOnly = false \/ IsPxeBooting = true
            \/ exists vmhba, _getDiskAdapterName paths = Some vmhba
                             /\ vmhba ∈ nativeDevices)
        /\ (code r <> SUCCESS -> code r = ERROR))
  /\ (forall p pciDevList adapterList device adapter morePaths IsPxeBooting,
         device ∈ pciDevList -> class_native device ->
         adapter ∈ adapterList ->
         Regex.sbdfRegex (Description adapter) = Some (Address device) ->
         exists r,
           checkBootbankDeviceIsNative true IsPxeBooting
             (inr (HBA_Name adapter :: morePaths))
             (_getNativeDevices p pciDevList adapterList) = inr r
           /\ code r = SUCCESS).
Proof.
  assert (Hrule : forall nativeDriverOnly IsPxeBooting paths nativeDevices,
    exists r,
      checkBootbankDeviceIsNative nativeDriverOnly IsPxeBooting paths
        nativeDevices = inr r
      /\ (code r = SUCCESS <->
          nativeDriverOnly = false \/ IsPxeBooting = true
          \/ exists vmhba, _getDiskAdapterName paths = Some vmhba
                           /\ vmhba ∈ nativeDevices)
      /\ (code r <> SUCCESS -> code r = ERROR)).
  { intros ndo pxe paths nd. unfold checkBootbankDeviceIsNative.
    rewrite Result_init_eq_bool. eexists. split; [reflexivity|]. cbn [code].
    destruct ndo, pxe; cbn; try (split; [split; [auto|done]|done]).
    destruct (_getDiskAdapterName paths) as [vmhba|].
    - unfold isDeviceNativePostUpgrade. case_bool_decide; cbn.
      + split; [|done]. split; [|done]. intros _. right; right. eauto.
      + split; [|done]. split; [done|].
        intros [?|[?|(v & [= <-] & ?)]]; done.
    - cbn. split; [|done]. split; [done|].
      intros [?|[?|(v & ? & ?)]]; done. }
  split; [exact Hrule|].
  intros p l ads device adapter more pxe Hdev Hclass Hin Hre.
  destruct (Hrule true pxe (inr (HBA_Name adapter :: more))
              (_getNativeDevices p l ads)) as (r & Hr & Hcode & _).
  exists r. split; [done|]. apply Hcode. right; right.
  exists (HBA_Name adapter). split; [done|].
  apply getNativeDevices_elem. right. exists adapter.
  split; [done|]. split; [done|]. right; right.
  exists (Address device). split; [done|]. left. eauto.
Qed.

Lemma Result_init_ge (name : string) (found expected : Z) :
  Result_init name [found] [expected] operator_ge "" None
  = inr {| name := name; found := [found]; expected := [expected];
           errorMsg := "";
           code := if expected <=? found then SUCCESS else ERROR |}.
Proof.
  unfold Result_init, operator_ge, bind, ret. cbn.
  destruct (Z.eqb_spec found expected) as [->|Hne].
  - by rewrite Z.leb_refl.
  - destruct (Z.ltb_spec expected found), (Z.leb_spec expected found);
      try done; lia.
Qed.

(** X23. The ISO-space check without a boot device does not try to make
    the ramdisk and passes only if nothing is to be staged; with a boot
    device it passes exactly when the ramdisk could be made (or nothing is
    to be staged).  For the size of an upgrade image whose payloads have
    no negative size it therefore never passes without a boot device. *)
Theorem checkAvailableSpaceForISO_rule {World : Type}
    (allocateRamDisk : Z -> Orchestrator.M (World := World) bool)
    (bootDeviceName : option string) (expected : Z) (w : World) :
  (PyStr.truthy bootDeviceName = false ->
   exists r, checkAvailableSpaceForISO allocateRamDisk bootDeviceName expected w
             = (inr r, w)
     /\ (code r = SUCCESS <-> expected <= 0)
     /\ (code r <> SUCCESS -> code r = ERROR))
  /\ (PyStr.truthy bootDeviceName = true ->
      forall ok w', allocateRamDisk expected w = (inr ok, w') ->
      exists r,
        checkAvailableSpaceForISO allocateRamDisk bootDeviceName expected w
        = (inr r, w')
        /\ (code r = SUCCESS <-> ok = true \/ expected <= 0)
        /\ (code r <> SUCCESS -> code r = ERROR))
  /\ (PyStr.truthy bootDeviceName = false ->
      forall TYPE_BOOT p,
        (forall payload, In payload (all_payloads p) -> 0 <= size payload) ->
        exists r,
          checkAvailableSpaceForISO allocateRamDisk bootDeviceName
            (_calcImageSize TYPE_BOOT p) w = (inr r, w)
          /\ code r = ERROR).
Proof.
  assert (Hnone : forall e, PyStr.truthy bootDeviceName = false ->
    checkAvailableSpaceForISO allocateRamDisk bootDeviceName e w
    = (inr {| name := "SPACE_AVAIL_ISO"; found := [0]; expected := [e];
              errorMsg := "";
              code := if e <=? 0 then SUCCESS else ERROR |}, w)).
  { intros e Hboot. unfold checkAvailableSpaceForISO.
    rewrite Hboot. cbn [negb]. by rewrite Result_init_ge. }
  split; [|split].
  - intros Hboot. rewrite Hnone by done. eexists. split; [reflexivity|].
    cbn [code]. destruct (Z.leb_spec expected 0); intuition (congruence || lia).
  - intros Hboot ok w' Halloc. unfold checkAvailableSpaceForISO.
    rewrite Hboot, Halloc. cbn [negb]. rewrite Result_init_ge.
    eexists. split; [reflexivity|]. cbn [code].
    destruct ok.
    + rewrite Z.leb_refl. intuition congruence.
    + destruct (Z.leb_spec expected 0);
        intuition (congruence || lia).
  - intros Hboot TYPE_BOOT p Hnn. rewrite Hnone by done.
    eexists. split; [reflexivity|]. cbn [code].
    pose proof (sum_sizes_nonneg _ Hnn).
    assert (0 <= sum_sizes (boot_payloads TYPE_BOOT (all_payloads p))).
    { apply sum_sizes_nonneg. intros payload Hin. apply Hnn.
      unfold boot_payloads in Hin. apply list_elem_of_In in Hin.
      apply list_elem_of_In. by apply list_elem_of_filter in Hin as [_ ?]. }
    rewrite calcImageSize_eq.
    destruct (Z.leb_spec (sum_sizes (all_payloads p)
      + sum_sizes (boot_payloads TYPE_BOOT (all_payloads p)) + 10 * SIZE_MiB) 0)
      as [Hle|_]; [|done].
    change SIZE_MiB with 1048576 in Hle. lia.
Qed.

(** *** The boot NIC *)



(** *** Rendering and bucketing the results *)

Lemma str_join_snoc (sep : string) (l : list string) (s : string) :
  str_join sep (l ++ [s])
  = match l with
    | [] => s
    | _ :: _ => str_join sep l +:+ sep +:+ s
    end.
Proof.
  induction l as [|x l IH]; [done|].
  cbn [app str_join]. rewrite IH.
  destruct l as [|y l]; [done|].
  cbn [app]. by rewrite !string_app_assoc.
Qed.

Module OrchestratorResults.
Import Orchestrator.

Section Results.

Context {World : Type}.
Variable call : TestFn -> M (World := World) AnyResult.
Variable init :
  Environment -> bool -> option ImageProfile -> option ImageProfile ->
  M (World := World) unit.
Variable deallocateRamDisk : M (World := World) unit.
Variable str : AnyResult -> string.

Lemma with_code_snoc (c : Code) (results : list AnyResult) (result : AnyResult) :
  with_code c (results ++ [result])
  = (with_code c results
     ++ if Code_eqb (code_of result) c then [result] else [])%list.
Proof. unfold with_code. by rewrite List.filter_app. Qed.

Lemma blurbs_fold (results done : list AnyResult) :
  fold_left (fun '(errorFailures, warningFailures,
                   errorNewLineNeeded, warningNewLineNeeded) result =>
      if negb (Result_bool (projT2 result)) then
        if Code_eqb (code_of result) ERROR then
          let errorFailures :=
            if errorNewLineNeeded : bool then errorFailures +:+ two_newlines
            else errorFailures in
          (errorFailures +:+ str result, warningFailures,
           true, warningNewLineNeeded)
        else
          let warningFailures :=
            if warningNewLineNeeded : bool
            then warningFailures +:+ two_newlines
            else warningFailures in
          (errorFailures, warningFailures +:+ str result,
           errorNewLineNeeded, true)
      else
        (errorFailures, warningFailures,
         errorNewLineNeeded, warningNewLineNeeded))
    results
    (str_join two_newlines (map str (with_code ERROR done)),
     str_join two_newlines (map str (with_code WARNING done)),
     match with_code ERROR done with [] => false | _ => true end,
     match with_code WARNING done with [] => false | _ => true end)
  = (str_join two_newlines (map str (with_code ERROR (done ++ results))),
     str_join two_newlines (map str (with_code WARNING (done ++ results))),
     match with_code ERROR (done ++ results) with [] => false | _ => true end,
     match with_code WARNING (done ++ results) with [] => false | _ => true end).
Proof.
  revert done. induction results as [|r results IH]; intros done.
  - by rewrite app_nil_r.
  - cbn [fold_left].
    replace (done ++ r :: results)%list with ((done ++ [r]) ++ results)%list
      by (by rewrite <- app_assoc).
    rewrite <- IH. f_equal.
    rewrite !with_code_snoc. unfold Result_bool, code_of.
    destruct (code (projT2 r)); cbn [negb Code_eqb].
    + (* ERROR *)
      rewrite app_nil_r, map_app. cbn [map]. rewrite str_join_snoc.
      destruct (with_code ERROR done) as [|e es]; cbn [map app]; [done|].
      by rewrite string_app_assoc.
    + (* WARNING *)
      rewrite app_nil_r, map_app. cbn [map]. rewrite str_join_snoc.
      destruct (with_code WARNING done) as [|e es]; cbn [map app]; [done|].
      by rewrite string_app_assoc.
    + by rewrite !app_nil_r.
Qed.

(** X25. The two blurbs are the renderings of the results with code ERROR
    and of those with code WARNING, each in order and joined by an empty
    line; results that pass are left out, so both blurbs are empty when
    every check passes. *)
Theorem humanReadableResultBlurbs_joins (results : list AnyResult) :
  humanReadableResultBlurbs str results
  = (str_join two_newlines (map str (with_code ERROR results)),
     str_join two_newlines (map str (with_code WARNING results)))
  /\ ((forall result, In result results -> code_of result = SUCCESS) ->
      humanReadableResultBlurbs str results = ("", "")).
Proof.
  assert (Heq : humanReadableResultBlurbs str results
    = (str_join two_newlines (map str (with_code ERROR results)),
       str_join two_newlines (map str (with_code WARNING results)))).
  { unfold humanReadableResultBlurbs.
    pose proof (blurbs_fold results []) as H. cbn [with_code List.filter map
      str_join app] in H. rewrite H. reflexivity. }
  split; [exact Heq|].
  intros Hall. rewrite Heq.
  assert (Hnone : forall c, c <> SUCCESS -> with_code c results = []).
  { intros c Hc. unfold with_code. clear Heq.
    induction results as [|r rs IH]; [done|]. cbn.
    rewrite (Hall r (or_introl eq_refl)).
    destruct c; [|..|done]; cbn; apply IH; intros; apply Hall; by right. }
  by rewrite !Hnone.
Qed.

Lemma imageManager_loop_returns (tests : list TestFn) (w w' : World)
    (results errors warnings : list AnyResult) :
  run_tests call tests w = (inr results, w') ->
  imageManager_loop call tests errors warnings w
  = (inr ((errors ++ with_code ERROR results)%list,
          (warnings ++ with_code WARNING results)%list), w').
Proof.
  revert w results errors warnings.
  induction tests as [|t tests IH]; intros w results errors warnings; cbn.
  - intros [= <- <-]. cbn. by rewrite !app_nil_r.
  - unfold mbind. destruct (call t w) as [[e|r] w0]; [done|].
    destruct (run_tests call tests w0) as [[e|rs] w1] eqn:Hrest; [done|].
    intros [= <- <-]. unfold with_code. cbn [List.filter].
    fold (with_code ERROR rs). fold (with_code WARNING rs).
    destruct (code_of r) eqn:Hc; cbn [Code_eqb];
      rewrite (IH w0 rs _ _ Hrest); by rewrite <- ?app_assoc.
Qed.

Lemma run_tests_length (tests : list TestFn) (w w' : World)
    (results : list AnyResult) :
  run_tests call tests w = (inr results, w') ->
  length results = length tests.
Proof.
  revert w results. induction tests as [|t tests IH]; intros w results; cbn.
  - by intros [= <- <-].
  - unfold mbind. destruct (call t w) as [[e|r] w0]; [done|].
    destruct (run_tests call tests w0) as [[e|rs] w1] eqn:Hrest; [done|].
    intros [= <- <-]. cbn. by rewrite (IH w0 rs Hrest).
Qed.

(** X26. When [init] and every check return, [imageManagerAction] returns
    the results with code ERROR and the results with code WARNING, each in
    the order of the checks, in the state the last check left; results
    that pass are in neither list. *)
Theorem imageManagerAction_buckets (hostProfile targetProfile : ImageProfile)
    (w w0 w1 : World) (results : list AnyResult) :
  init ESXCLI_ENV false (Some hostProfile) (Some targetProfile) w
  = (inr tt, w0) ->
  run_tests call imageManagerAction_tests w0 = (inr results, w1) ->
  imageManagerAction call init hostProfile targetProfile w
  = (inr (with_code ERROR results, with_code WARNING results), w1)
  /\ length results = 11%nat.
Proof.
  intros Hinit Hrun. split.
  - unfold imageManagerAction, mbind. rewrite Hinit.
    by rewrite (imageManager_loop_returns _ w0 w1 results [] [] Hrun).
  - by rewrite (run_tests_length _ _ _ _ Hrun).
Qed.

(** X27. [main] stops after [checkInitializable] when that check does not
    pass: it prints that result alone and calls neither [init] nor any
    other check.  When it passes and [init] and all eighteen checks
    return, [main] prints the nineteen results in order, and calls
    [deallocateRamDisk] exactly when some result does not pass. *)
Theorem main_rule (w : World) (first : AnyResult) (w' : World) :
  call checkInitializable w = (inr first, w') ->
  (Result_bool (projT2 first) = false ->
   main call init deallocateRamDisk w = (inr [first], w'))
  /\ (Result_bool (projT2 first) = true ->
      forall w0 w1 more,
        init VUM_ENV false None None w' = (inr tt, w0) ->
        run_tests call main_tests w0 = (inr more, w1) ->
        length (first :: more) = 19%nat
        /\ ((forall result, In result more -> code_of result = SUCCESS) ->
            main call init deallocateRamDisk w = (inr (first :: more), w1))
        /\ ((exists result, In result more /\ code_of result <> SUCCESS) ->
            main call init deallocateRamDisk w
            = match deallocateRamDisk w1 with
              | (inl e, w2) => (inl e, w2)
              | (inr _, w2) => (inr (first :: more), w2)
              end)).
Proof.
  intros Hfirst. split.
  - intros Hfail. unfold main, mbind. rewrite Hfirst, Hfail. reflexivity.
  - intros Hok w0 w1 more Hinit Hrun.
    assert (Hmain : main call init deallocateRamDisk w
      = match List.filter (fun result => negb (Result_bool (projT2 result)))
                (first :: more) with
        | [] => (inr (first :: more), w1)
        | _ :: _ =>
            match deallocateRamDisk w1 with
            | (inl e, w2) => (inl e, w2)
            | (inr _, w2) => (inr (first :: more), w2)
            end
        end).
    { unfold main, mbind. rewrite Hfirst, Hok. change (negb true) with false.
      cbv beta iota. rewrite Hinit, Hrun.
      match goal with
      | |- context [List.filter ?f (first :: more)] =>
          destruct (List.filter f (first :: more))
      end; reflexivity. }
    cbn [List.filter] in Hmain. rewrite Hok in Hmain. cbn [negb] in Hmain.
    split; [|split].
    + cbn. by rewrite (run_tests_length _ _ _ _ Hrun).
    + intros Hall. rewrite Hmain.
      assert (List.filter (fun result => negb (Result_bool (projT2 result))) more
              = []) as ->; [|done].
      clear Hmain Hrun. induction more as [|r rs IH]; [done|]. cbn.
      pose proof (Hall r (or_introl eq_refl)) as Hr.
      unfold Result_bool. unfold code_of in Hr. rewrite Hr. cbn.
      apply IH. intros; apply Hall; by right.
    + intros (r & Hin & Hr). rewrite Hmain.
      match goal with
      | |- context [List.filter ?f more] =>
          destruct (List.filter f more) as [|x xs] eqn:Hf
      end; [|done].
      exfalso. assert (In r (List.filter
        (fun result => negb (Result_bool (projT2 result))) more)) as Hin'.
      { apply filter_In. split; [done|]. unfold Result_bool, code_of in *.
        by destruct (code (projT2 r)). }
      by rewrite Hf in Hin'.
Qed.

End Results.
End OrchestratorResults.

(** *** The host acceptance level *)

Lemma trust_value_missing (TRUST_ORDER : list (string * Z)) (key : string) :
  (forall kv, In kv TRUST_ORDER -> fst kv <> key) ->
  trust_value TRUST_ORDER key = inl IndexError.
Proof.
  intros Hmiss. unfold trust_value.
  induction TRUST_ORDER as [|kv T IH]; [done|]. cbn.
  rewrite (proj2 (PyStr_eqb_neq (fst kv) key)) by (apply Hmiss; by left).
  apply IH. intros; apply Hmiss; by right.
Qed.

(** X28. The acceptance check gives ERROR, without raising, when the
    command that reads the host level fails, exits with a non-zero code or
    prints a level that is not a known one.  With a known host level it
    passes exactly when the trust value of the host level is at most that
    of the target level, and it raises [IndexError] when [TRUST_ORDER] has
    no entry for the target level. *)
Theorem checkHostAcceptance_rule (ACCEPTANCE_LEVELS : list string)
    (TRUST_ORDER : list (string * Z)) (targetAcceptance : string) :
  (forall outcome,
      (match outcome with
       | inl _ => True
       | inr (rc, out) => rc <> 0 \/ strip out ∉ ACCEPTANCE_LEVELS
       end) ->
      exists r,
        checkHostAcceptance ACCEPTANCE_LEVELS TRUST_ORDER outcome
          targetAcceptance = inr r
        /\ code r = ERROR)
  /\ (forall out hostValue,
        strip out ∈ ACCEPTANCE_LEVELS -> strip out <> "" ->
        trust_value TRUST_ORDER (strip out) = inr hostValue ->
        (forall targetValue,
            trust_value TRUST_ORDER targetAcceptance = inr targetValue ->
            exists r,
              checkHostAcceptance ACCEPTANCE_LEVELS TRUST_ORDER (inr (0, out))
                targetAcceptance = inr r
              /\ (code r = SUCCESS <-> hostValue <= targetValue)
              /\ (code r <> SUCCESS -> code r = ERROR))
        /\ ((forall kv, In kv TRUST_ORDER -> fst kv <> targetAcceptance) ->
            checkHostAcceptance ACCEPTANCE_LEVELS TRUST_ORDER (inr (0, out))
              targetAcceptance = inl IndexError)).
Proof.
  split.
  - intros outcome Hbad.
    assert (_getHostAcceptanceLevel ACCEPTANCE_LEVELS outcome = "") as Hlevel.
    { unfold _getHostAcceptanceLevel, run.
      destruct outcome as [e|[rc out]]; [done|].
      destruct (Z.eqb_spec rc 0) as [->|Hrc]; cbn [negb]; [|done].
      destruct Hbad as [?|Hbad]; [done|].
      unfold ret. by rewrite (proj2 (In_list_false _ _) Hbad). }
    unfold checkHostAcceptance. rewrite Hlevel. cbn [PyStr.truthy negb].
    rewrite Result_init_eq_bool. eexists. split; reflexivity.
  - intros out hostValue Hin Hne Hhost.
    assert (_getHostAcceptanceLevel ACCEPTANCE_LEVELS (inr (0, out))
            = strip out) as Hlevel.
    { unfold _getHostAcceptanceLevel, run. cbn [Z.eqb negb]. unfold ret.
      by rewrite (proj2 (In_list_true _ _) Hin). }
    assert (PyStr.truthy (Some (strip out)) = true) as Htruthy
      by (by destruct (strip out)).
    split.
    + intros targetValue Htarget. unfold checkHostAcceptance.
      rewrite Hlevel, Htruthy. cbn [negb]. rewrite Hhost, Htarget.
      unfold bind.
      destruct (Z.ltb_spec targetValue hostValue);
        rewrite Result_init_eq_bool; eexists; (split; [reflexivity|]);
        cbn; intuition (congruence || lia).
    + intros Hmiss. unfold checkHostAcceptance.
      rewrite Hlevel, Htruthy. cbn [negb]. rewrite Hhost.
      by rewrite (trust_value_missing _ _ Hmiss).
Qed.

(** *** Witnesses on the sample run *)

Lemma imageManagerAction_buckets_witness :
  Orchestrator.imageManagerAction MixedRun.call OrchestratorExamples.init
    {| vibs := [] |} {| vibs := [] |} []
  = (inr ([MixedRun.result_of Orchestrator.checkHostHw ERROR;
           MixedRun.result_of Orchestrator.checkBootDiskSize ERROR],
          [MixedRun.result_of Orchestrator.checkCpuSupported WARNING]),
     ["init"; "checkMemorySize"; "checkCpuSupported"; "checkCpuCores";
      "checkUnsupportedDevices"; "checkHostHw"; "checkBootNicIsNative";
      "checkBootbankDeviceIsNative"; "checkImageProfileSize";
      "checkLockerSpaceAvail"; "checkBootDiskSize"; "checkHostAcceptance"]).
Proof.
  apply (proj1 (OrchestratorResults.imageManagerAction_buckets
                  MixedRun.call OrchestratorExamples.init
                  {| vibs := [] |} {| vibs := [] |} [] ["init"] _
                  (map (fun t => MixedRun.result_of t (MixedRun.code_for t))
                     Orchestrator.imageManagerAction_tests)
                  eq_refl eq_refl)).
Defined.

Lemma main_rule_witness :
  Orchestrator.main MixedRun.call OrchestratorExamples.init
    OrchestratorExamples.deallocateRamDisk []
  = (inr (map (fun t => MixedRun.result_of t (MixedRun.code_for t))
            (Orchestrator.checkInitializable :: Orchestrator.main_tests)),
     ["checkInitializable"; "init"; "checkAvailableSpaceForISO";
      "checkMemorySize"; "checkCpuSupported"; "checkCpuCores";
      "checkSaneEsxConf"; "checkUnsupportedDevices"; "checkPackageCompliance";
      "checkHostHw"; "checkUpdatesPending"; "checkVMFSVersion";
      "checkBootNicIsNative"; "checkBootbankDeviceIsNative";
      "checkVibConflicts"; "checkVibDependencies"; "checkImageProfileSize";
      "checkLockerSpaceAvail"; "checkBootDiskSize"; "checkHostAcceptance";
      "deallocateRamDisk"]).
Proof.
  pose proof (OrchestratorResults.main_rule MixedRun.call
                OrchestratorExamples.init OrchestratorExamples.deallocateRamDisk
                [] (MixedRun.result_of Orchestrator.checkInitializable SUCCESS)
                ["checkInitializable"] eq_refl) as [_ Hpass].
  destruct (Hpass eq_refl ["checkInitializable"; "init"] _
              (map (fun t => MixedRun.result_of t (MixedRun.code_for t))
                 Orchestrator.main_tests) eq_refl eq_refl) as (_ & _ & Hfail).
  rewrite Hfail; [reflexivity|].
  exists (MixedRun.result_of Orchestrator.checkCpuSupported WARNING).
  split; [cbn; tauto|discriminate].
Defined.
